(** * Boreas alive detection (boreas/alivedetection.c)

    A shallow embedding of the alive scanner of gvm-libs: the restriction
    controller [handle_scan_restrictions], the capture callback [got_packet],
    the sender loops of [scan], the dead host report and the lifecycle of
    [start_alive_detection], followed by the properties of the engine.

    The three GHashTables of [struct hosts_data] are finite sets and maps
    keyed by the address string; the output queue, the wire and the log are
    one list of events in the order the calls happen.  The sniffer thread is
    interleaved with the sender at the granularity of one call of
    [got_packet]: before each evaluation of a sender loop an arbitrary batch
    of captured frames is handed to the callback.

    This covers every schedule of the two threads as long as one of them
    only calls [handle_scan_restrictions]: the sniffer when pings are sent,
    the sender in a CONSIDER_ALIVE run without captured frames.  In a
    CONSIDER_ALIVE run with captured frames both threads call it on the
    globals, and the source takes no lock; the model then runs each call as
    one step, which the threads need not.  The properties that depend on it
    are stated for runs with [one_controller_thread]. *)

From Stdlib Require Import ZArith Ascii.
From stdpp Require Import gmap strings list fin_maps fin_sets sorting.

Local Open Scope Z_scope.

(** ** C integers *)

Definition INT_MAX : Z := 2147483647.

(** A C [int]: 32 bits, two's complement; an arithmetic result is reduced
    into the range [-2^31, 2^31). *)
Definition int_wrap (x : Z) : Z := (x + 2 ^ 31) mod 2 ^ 32 - 2 ^ 31.

(** [x++] on an [int]. *)
Definition int_incr (x : Z) : Z := int_wrap (x + 1).

(** libc [atoi]: leading white space, an optional sign, decimal digits. *)
Definition isspace (c : ascii) : bool :=
  let n := Z.of_nat (nat_of_ascii c) in
  (n =? 32) || ((9 <=? n) && (n <=? 13)).

Definition digit_value (c : ascii) : option Z :=
  let n := Z.of_nat (nat_of_ascii c) in
  if (48 <=? n) && (n <=? 57) then Some (n - 48) else None.

Fixpoint atoi_digits (acc : Z) (s : string) : Z :=
  match s with
  | EmptyString => acc
  | String c s' =>
      match digit_value c with
      | Some d => atoi_digits (10 * acc + d) s'
      | None => acc
      end
  end.

Fixpoint atoi_skip (s : string) : string :=
  match s with
  | String c s' => if isspace c then atoi_skip s' else s
  | EmptyString => s
  end.

Definition atoi (s : string) : Z :=
  match atoi_skip s with
  | String "-" s' => int_wrap (- atoi_digits 0 s')
  | String "+" s' => int_wrap (atoi_digits 0 s')
  | s' => int_wrap (atoi_digits 0 s')
  end.

(** ** Types of the headers *)

(** Modelled from the spec: [alive_test_t] of alivedetection.h, which is not
    part of the sources at hand; the methods are a bitset over
    {ICMP, TCP_ACK, TCP_SYN, ARP, CONSIDER_ALIVE}, one bit each. *)
Definition alive_test_t : Type := Z.
Definition ALIVE_TEST_TCP_ACK_SERVICE : alive_test_t := 1.
Definition ALIVE_TEST_ICMP : alive_test_t := 2.
Definition ALIVE_TEST_ARP : alive_test_t := 4.
Definition ALIVE_TEST_CONSIDER_ALIVE : alive_test_t := 8.
Definition ALIVE_TEST_TCP_SYN_SERVICE : alive_test_t := 16.

Definition boreas_error_t : Type := Z.
Definition NO_ERROR : boreas_error_t := 0.

(** <netinet/tcp.h> *)
Definition TH_SYN : Z := 2.
Definition TH_ACK : Z := 16.

Inductive socket_type : Type :=
  TCPV4 | TCPV6 | ICMPV4 | ICMPV6 | ARPV4 | ARPV6 | UDPV4 | UDPV6.

(** [range_t] of base/networking.h: the fields [fill_ports_array] reads. *)
Record range_t : Type := mk_range {
  range_start : Z;
  range_end : Z;
  range_exclude : bool
}.

(** The three senders of [scan]: [send_tcp], [send_icmp] and [send_arp]. *)
Inductive method : Type := TCP | ICMP | ARP.

#[global] Instance method_eq_dec : EqDecision method.
Proof. solve_decision. Defined.

(** A [gvm_host_t] is only borrowed by the engine, which reads two things
    from it: its address string ([gvm_host_value_str], the key of the target
    table) and its 128 bit address ([gvm_host_get_addr6], an IPv4 address
    being returned in IPv4-mapped form).  [gvm_host_get_addr6] is a function
    of base/hosts.c: [host_get_addr6_ret] is what it returns for the host (0,
    or -1 for a host it has no address for), and [host_addr6] the address it
    writes when it returns 0.  When it fails it writes nothing, and the
    senders go on with their local variable dst6 as it is:
    [host_dst6_uninit] is what that uninitialised variable holds in the
    sender of a method when it is called for the host, a value the program
    does not determine. *)
Record gvm_host_t : Type := mk_host {
  host_value_str : string;
  host_addr6 : Z;
  host_get_addr6_ret : Z;
  host_dst6_uninit : method -> Z
}.

(** [gvm_host_get_addr6 (value, &dst6)] in a sender: the return value and
    what dst6 holds after the call. *)
Definition gvm_host_get_addr6 (sender : method) (value : gvm_host_t) : Z * Z :=
  if host_get_addr6_ret value <? 0
  then (host_get_addr6_ret value, host_dst6_uninit value sender)
  else (host_get_addr6_ret value, host_addr6 value).

(** IN6_IS_ADDR_V4MAPPED: the address is ::ffff:a.b.c.d. *)
Definition IN6_IS_ADDR_V4MAPPED (a : Z) : bool := Z.shiftr a 32 =? 65535.

(** [s6_addr32[3]]: the last four bytes of the address. *)
Definition s6_addr32_3 (a : Z) : Z := Z.land a (Z.ones 32).

(** A captured frame, by the fields [got_packet] reads from it: the IP
    version nibble found at offset 16, and the strings [inet_ntop] yields for
    the bytes at the three fixed offsets of the callback (28 as AF_INET, 24
    as AF_INET6, and the ARP sender offset as AF_INET). *)
Record packet : Type := mk_packet {
  ip_v : Z;
  src_ipv4_str : string;
  src_ipv6_str : string;
  src_arp_str : string
}.

(** ** Events *)

(** What is pushed on the key-value store: the alive detection queue (host
    addresses and the finish signal) and the result messages. *)
Inductive kb_item : Type :=
  | QueueHost (addr_str : string)
  | QueueFinish
  | ResultDeadHost (count_dead_ips : Z)
  | ResultErrMsg (not_checked : Z).

(** The pings of ping.c, by the function that sends them. *)
Inductive ping : Type :=
  | send_tcp_v4 (tcp_flag : Z) (ports : list Z) (dst4 : Z)
  | send_tcp_v6 (tcp_flag : Z) (ports : list Z) (dst6 : Z)
  | send_icmp_v4 (dst4 : Z)
  | send_icmp_v6 (soc : socket_type) (dst6 : Z)
  | send_arp_v4 (dst4 : Z).

Inductive log_msg : Type :=
  | DebugFinishSignalError (err : boreas_error_t)
  | WarnNoFinishSignal
  | WarnAliveTestMethods (err : boreas_error_t)
  | WarnInit (err : boreas_error_t)
  | WarnScanError
  | WarnPcapHandle
  | WarnInvalidPortRange
  | WarnEmptyPortList
  | WarnErrMsgNotSent
  | WarnNoAddr6.

Inductive event : Type :=
  | KbPush (i : kb_item)
  | Ping (p : ping)
  | Log (m : log_msg).

#[global] Instance socket_type_eq_dec : EqDecision socket_type.
Proof. solve_decision. Defined.
#[global] Instance kb_item_eq_dec : EqDecision kb_item.
Proof. solve_decision. Defined.
#[global] Instance ping_eq_dec : EqDecision ping.
Proof. solve_decision. Defined.
#[global] Instance log_msg_eq_dec : EqDecision log_msg.
Proof. solve_decision. Defined.
#[global] Instance event_eq_dec : EqDecision event.
Proof. solve_decision. Defined.

(** ** The environment of a run

    Everything the engine obtains from outside: the preferences, the
    functions of the library that live in other files, the outcome of the
    system calls, and the frames the capture handle delivers. *)
Record environment : Type := mk_env {
  (** [prefs_get] *)
  prefs : gmap string string;
  (** [get_alive_test_methods]: the error and the method bitset *)
  alive_test_methods : boreas_error_t * alive_test_t;
  (** [set_socket], by kind of socket *)
  set_socket : socket_type -> boreas_error_t;
  (** [validate_port_range] (0 when the list is valid) and
      [port_range_ranges] of base/networking.c *)
  validate_port_range : string -> Z;
  port_range_ranges : string -> list range_t;
  (** does [kb_direct_conn] return a connection: in
      [alive_detection_init], for the ERRMSG of [scan], and in
      [send_dead_hosts_to_ospd_openvas] *)
  kb_conn_scanner : bool;
  kb_conn_errmsg : bool;
  kb_conn_dead_hosts : bool;
  (** does [kb_item_push_str] of the ERRMSG succeed *)
  errmsg_push_ok : bool;
  (** does the n-th attempt to push the finish signal succeed *)
  finish_push_ok : nat -> bool;
  (** does [open_live] return a handle *)
  pcap_open_ok : bool;
  (** the frames handed to [got_packet], in batches: one batch before each
      step of the sender, what is left while the sender waits for replies *)
  arrivals : list (list packet);
  (** the table of the hosts not to be sent does not own its keys
      ([handle_scan_restrictions] stores the pointer it is handed): the
      string [exclude] finds behind the key that was stored for an address
      when the dead hosts are counted.  In the source this is the address
      for a key of the target table, and what the buffer of [got_packet]
      holds after the sniffer has ended for a key stored by the callback;
      here it is left open for every key *)
  deferred_key_str : string -> string
}.

Definition prefs_get (e : environment) (name : string) : option string :=
  prefs e !! name.

(** ** The globals of alivedetection.c *)

Record scan_restrictions_t : Type := mk_scan_restrictions {
  max_scan_hosts : Z;
  max_alive_hosts : Z;
  alive_hosts_count : Z;
  max_scan_hosts_reached : bool;
  max_alive_hosts_reached : bool
}.

Record hosts_data_t : Type := mk_hosts_data {
  alivehosts : gset string;
  targethosts : gmap string gvm_host_t;
  alivehosts_not_to_be_sent_to_openvas : gset string
}.

(** [struct scanner]: the fields read by the code below; the sockets and
    the handles carry no data of their own. *)
Record scanner_t : Type := mk_scanner {
  tcp_flag : Z;
  ports : list Z
}.

Record world : Type := mk_world {
  scan_restrictions : scan_restrictions_t;
  hosts_data : hosts_data_t;
  scanner : scanner_t;
  (** the static flag of [put_finish_signal_on_queue] and the number of
      pushes of the finish signal attempted so far *)
  fin_msg_already_on_queue : bool;
  fin_attempts : nat;
  (** frames captured but not yet handed to the callback *)
  pending : list (list packet);
  (** everything emitted so far, oldest first *)
  out : list event
}.

Definition set_restrictions (r : scan_restrictions_t) (w : world) : world :=
  mk_world r (hosts_data w) (scanner w) (fin_msg_already_on_queue w)
    (fin_attempts w) (pending w) (out w).

Definition set_hosts_data (h : hosts_data_t) (w : world) : world :=
  mk_world (scan_restrictions w) h (scanner w) (fin_msg_already_on_queue w)
    (fin_attempts w) (pending w) (out w).

Definition set_scanner (sc : scanner_t) (w : world) : world :=
  mk_world (scan_restrictions w) (hosts_data w) sc
    (fin_msg_already_on_queue w) (fin_attempts w) (pending w) (out w).

Definition set_pending (p : list (list packet)) (w : world) : world :=
  mk_world (scan_restrictions w) (hosts_data w) (scanner w)
    (fin_msg_already_on_queue w) (fin_attempts w) p (out w).

Definition emit (ev : event) (w : world) : world :=
  mk_world (scan_restrictions w) (hosts_data w) (scanner w)
    (fin_msg_already_on_queue w) (fin_attempts w) (pending w)
    (out w ++ [ev]).

(** ** boreas_io.c *)

(** Modelled from the spec: [put_host_on_queue] of boreas_io.c, which is not
    part of the sources at hand; "publish_host(addr_text): enqueue an alive
    address". *)
Definition put_host_on_queue (addr_str : string) (w : world) : world :=
  emit (KbPush (QueueHost addr_str)) w.

(** Modelled from the spec: [put_finish_signal_on_queue] of boreas_io.c, which
    is not part of the sources at hand; "publish_finish(): enqueue the finish
    sentinel exactly once", "publish finish signal if not already published",
    and publishing the finish signal can fail, which the callers see in the
    error they get back.  A push that fails leaves the signal unpublished. *)
Definition put_finish_signal_on_queue (e : environment) (w : world)
  : boreas_error_t * world :=
  if fin_msg_already_on_queue w then (NO_ERROR, w)
  else
    let w' :=
      mk_world (scan_restrictions w) (hosts_data w) (scanner w)
        (fin_msg_already_on_queue w) (S (fin_attempts w)) (pending w) (out w)
    in
    if finish_push_ok e (fin_attempts w) then
      (NO_ERROR,
       mk_world (scan_restrictions w') (hosts_data w') (scanner w') true
         (fin_attempts w') (pending w') (out w' ++ [KbPush QueueFinish]))
    else (-1, w').

(** ** The restriction controller *)

Definition handle_scan_restrictions (e : environment) (addr_str : string)
  (w : world) : world :=
  (* scan_restrictions.alive_hosts_count++; *)
  let r := scan_restrictions w in
  let w :=
    set_restrictions
      (mk_scan_restrictions (max_scan_hosts r) (max_alive_hosts r)
         (int_incr (alive_hosts_count r))
         (max_scan_hosts_reached r) (max_alive_hosts_reached r)) w in
  (* Put alive hosts on queue as long as max_scan_hosts not reached. *)
  let w :=
    if negb (max_scan_hosts_reached (scan_restrictions w))
    then put_host_on_queue addr_str w
    else
      let h := hosts_data w in
      set_hosts_data
        (mk_hosts_data (alivehosts h) (targethosts h)
           ({[addr_str]} ∪ alivehosts_not_to_be_sent_to_openvas h)) w in
  (* Put finish signal on queue if max_scan_hosts reached. *)
  let r := scan_restrictions w in
  let w :=
    if negb (max_scan_hosts_reached r)
       && (alive_hosts_count r =? max_scan_hosts r)
    then
      let w :=
        set_restrictions
          (mk_scan_restrictions (max_scan_hosts r) (max_alive_hosts r)
             (alive_hosts_count r) true (max_alive_hosts_reached r)) w in
      let '(err, w) := put_finish_signal_on_queue e w in
      if err =? 0 then w else emit (Log (DebugFinishSignalError err)) w
    else w in
  (* Thread which sends out new pings should stop sending when
     max_alive_hosts is reached. *)
  let r := scan_restrictions w in
  if alive_hosts_count r =? max_alive_hosts r
  then
    set_restrictions
      (mk_scan_restrictions (max_scan_hosts r) (max_alive_hosts r)
         (alive_hosts_count r) (max_scan_hosts_reached r) true) w
  else w.

(** ** The capture callback *)

(** [g_hash_table_add] on the alive table: the key is inserted, and the
    result tells whether it was not there before. *)
Definition alivehosts_add (addr_str : string) (w : world) : bool * world :=
  let h := hosts_data w in
  (bool_decide (addr_str ∉ alivehosts h),
   set_hosts_data
     (mk_hosts_data ({[addr_str]} ∪ alivehosts h) (targethosts h)
        (alivehosts_not_to_be_sent_to_openvas h)) w).

Definition targethosts_contains (addr_str : string) (w : world) : bool :=
  bool_decide (is_Some (targethosts (hosts_data w) !! addr_str)).

(** The source address the callback extracts: IPv4, IPv6, and everything
    else is regarded as ARP. *)
Definition sniffed_addr_str (p : packet) : string :=
  if ip_v p =? 4 then src_ipv4_str p
  else if ip_v p =? 6 then src_ipv6_str p
  else src_arp_str p.

Definition got_packet (e : environment) (p : packet) (w : world) : world :=
  (* Stop processing of packets if max_alive_hosts is reached. *)
  if max_alive_hosts_reached (scan_restrictions w) then w
  else
    let addr_str := sniffed_addr_str p in
    (* Do not put already found host on Queue and only put hosts on Queue
       we are searching for. *)
    let '(was_new, w) := alivehosts_add addr_str w in
    if was_new && targethosts_contains addr_str w
    then handle_scan_restrictions e addr_str w
    else w.

(** [sniffer_thread]: the capture loop hands every frame of a batch to the
    callback. *)
Definition sniff (e : environment) (batch : list packet) (w : world) : world :=
  fold_left (fun w p => got_packet e p w) batch w.

(** The frames captured while the sender takes one step. *)
Definition sniffer_turn (e : environment) (w : world) : world :=
  match pending w with
  | [] => w
  | batch :: rest => sniff e batch (set_pending rest w)
  end.

(** The frames captured while the sender sleeps WAIT_FOR_REPLIES_TIMEOUT and
    until the capture loop is broken. *)
Definition sniffer_drain (e : environment) (w : world) : world :=
  fold_left (fun w batch => sniff e batch w) (pending w) (set_pending [] w).

(** ** The senders

    The burst counters of the three functions only decide when the sender
    sleeps; they write nothing and are left out. *)

Definition send_icmp (value : gvm_host_t) (w : world) : world :=
  let '(ret, dst6) := gvm_host_get_addr6 ICMP value in
  let w := if ret <? 0 then emit (Log WarnNoAddr6) w else w in
  (* dst6_p is the address of a local variable and never NULL *)
  if negb (IN6_IS_ADDR_V4MAPPED dst6)
  then emit (Ping (send_icmp_v6 ICMPV6 dst6)) w
  else emit (Ping (send_icmp_v4 (s6_addr32_3 dst6))) w.

Definition send_tcp (value : gvm_host_t) (w : world) : world :=
  let '(ret, dst6) := gvm_host_get_addr6 TCP value in
  let w := if ret <? 0 then emit (Log WarnNoAddr6) w else w in
  let sc := scanner w in
  if negb (IN6_IS_ADDR_V4MAPPED dst6)
  then emit (Ping (send_tcp_v6 (tcp_flag sc) (ports sc) dst6)) w
  else emit (Ping (send_tcp_v4 (tcp_flag sc) (ports sc) (s6_addr32_3 dst6))) w.

Definition send_arp (value : gvm_host_t) (w : world) : world :=
  let '(ret, dst6) := gvm_host_get_addr6 ARP value in
  let w := if ret <? 0 then emit (Log WarnNoAddr6) w else w in
  if negb (IN6_IS_ADDR_V4MAPPED dst6)
  then
    (* IPv6 does simulate ARP by using the Neighbor Discovery Protocol *)
    emit (Ping (send_icmp_v6 ARPV6 dst6)) w
  else emit (Ping (send_arp_v4 (s6_addr32_3 dst6))) w.

(** What a sender logs before its ping: the warning for a host
    [gvm_host_get_addr6] fails on. *)
Definition warn_no_addr6 (value : gvm_host_t) (w : world) : world :=
  if host_get_addr6_ret value <? 0 then emit (Log WarnNoAddr6) w else w.

(** ** The dead host report *)

(** [exclude]: delete key from hashtable.  [key] is the string found behind
    the pointer. *)
Definition exclude (key : string) (hashtable : gset string) : gset string :=
  hashtable ∖ {[key]}.

(** The loop over the target table that counts the hosts which are not in
    the alive table. *)
Fixpoint count_dead (alive : gset string) (targets : list (string * gvm_host_t))
  (count_dead_ips : Z) : Z :=
  match targets with
  | [] => count_dead_ips
  | (host_str, _) :: targets' =>
      count_dead alive targets'
        (if bool_decide (host_str ∈ alive) then count_dead_ips
         else int_incr count_dead_ips)
  end.

Definition send_dead_hosts_to_ospd_openvas (e : environment) (w : world)
  : Z * world :=
  if negb (kb_conn_dead_hosts e) then (-1, w)
  else
    let h := hosts_data w in
    (* g_hash_table_foreach (alivehosts_not_to_be_sent_to_openvas, exclude,
                             alivehosts): the keys are read where they point
       to *)
    let alive :=
      set_fold exclude (alivehosts h)
        (set_map (D:=gset string) (deferred_key_str e)
           (alivehosts_not_to_be_sent_to_openvas h)) in
    let w :=
      set_hosts_data
        (mk_hosts_data alive (targethosts h)
           (alivehosts_not_to_be_sent_to_openvas h)) w in
    let count_dead_ips := count_dead alive (map_to_list (targethosts h)) 0 in
    (count_dead_ips, emit (KbPush (ResultDeadHost count_dead_ips)) w).

(** ** scan *)

(** One of the [for] loops of [scan]: the iterator walks the target table and
    the loop goes on while [max_alive_hosts_reached] is not set; the body is
    followed by [number_of_targets_checked++].  The frames captured while the
    body runs are handed to the callback before the next test: a sender of
    pings reads nothing the callback writes.  The body of the CONSIDER_ALIVE
    loop does; it is taken as one step (see the head of the file). *)
Fixpoint ping_loop (e : environment) (body : string -> gvm_host_t -> world -> world)
  (targets : list (string * gvm_host_t)) (st : Z * world) : Z * world :=
  match targets with
  | [] => st
  | (key, value) :: targets' =>
      let '(number_of_targets_checked, w) := st in
      let w := sniffer_turn e w in
      if max_alive_hosts_reached (scan_restrictions w)
      then (number_of_targets_checked, w)
      else
        ping_loop e body targets'
          (int_incr number_of_targets_checked, body key value w)
  end.

Definition set_tcp_flag (flag : Z) (st : Z * world) : Z * world :=
  (st.1, set_scanner (mk_scanner flag (ports (scanner st.2))) st.2).

(** The chain of comparisons of [alive_test] against the supported
    combinations, each with its loops in the order of the source. *)
Definition scan_methods (e : environment) (alive_test : alive_test_t)
  (st : Z * world) : Z * world :=
  let targets := map_to_list (targethosts (hosts_data st.2)) in
  let tcp := ping_loop e (fun _ value => send_tcp value) targets in
  let icmp := ping_loop e (fun _ value => send_icmp value) targets in
  let arp := ping_loop e (fun _ value => send_arp value) targets in
  if alive_test
     =? Z.lor (Z.lor ALIVE_TEST_TCP_ACK_SERVICE ALIVE_TEST_ICMP) ALIVE_TEST_ARP
  then arp (icmp (tcp (set_tcp_flag TH_ACK st)))
  else if alive_test =? Z.lor ALIVE_TEST_TCP_ACK_SERVICE ALIVE_TEST_ARP
  then arp (tcp (set_tcp_flag TH_ACK st))
  else if alive_test =? Z.lor ALIVE_TEST_ICMP ALIVE_TEST_ARP
  then arp (icmp st)
  else if alive_test =? Z.lor ALIVE_TEST_ICMP ALIVE_TEST_TCP_ACK_SERVICE
  then tcp (set_tcp_flag TH_ACK (icmp st))
  else if alive_test =? ALIVE_TEST_ARP
  then arp st
  else if alive_test =? ALIVE_TEST_TCP_ACK_SERVICE
  then tcp (set_tcp_flag TH_ACK st)
  else if alive_test =? ALIVE_TEST_TCP_SYN_SERVICE
  then tcp (set_tcp_flag TH_SYN st)
  else if alive_test =? ALIVE_TEST_ICMP
  then icmp st
  else if alive_test =? ALIVE_TEST_CONSIDER_ALIVE
  then ping_loop e (fun key _ => handle_scan_restrictions e key) targets st
  else st.

(** From the start of the sniffer thread to its end: the pings, the wait for
    the last replies, the end of the capture loop. *)
Definition scan_detect (e : environment) (alive_test : alive_test_t)
  (w : world) : Z * world :=
  let '(number_of_targets_checked, w) := scan_methods e alive_test (0, w) in
  (number_of_targets_checked, sniffer_drain e w).

(** Send error message if max_alive_hosts was reached. *)
Definition scan_errmsg (e : environment)
  (number_of_targets number_of_targets_checked : Z) (w : world) : world :=
  if max_alive_hosts_reached (scan_restrictions w) then
    if kb_conn_errmsg e then
      let not_checked :=
        if number_of_targets_checked >=? number_of_targets then 0
        else int_wrap (number_of_targets - number_of_targets_checked) in
      if errmsg_push_ok e then emit (KbPush (ResultErrMsg not_checked)) w
      else emit (Log WarnErrMsgNotSent) w
    else emit (Log WarnErrMsgNotSent) w
  else w.

Definition scan (e : environment) (alive_test : alive_test_t) (w : world)
  : Z * world :=
  let number_of_targets :=
    int_wrap (Z.of_nat (size (targethosts (hosts_data w)))) in
  if negb (pcap_open_ok e) then (-2, emit (Log WarnPcapHandle) w)
  else
    let '(number_of_targets_checked, w) := scan_detect e alive_test w in
    let w := scan_errmsg e number_of_targets number_of_targets_checked w in
    (* Send info about dead hosts to ospd-openvas. *)
    let '(_, w) := send_dead_hosts_to_ospd_openvas e w in
    (0, w).

(** ** Initialisation *)

Definition set_all_needed_sockets (e : environment) (alive_test : alive_test_t)
  : boreas_error_t :=
  let icmp :=
    if negb (Z.land alive_test ALIVE_TEST_ICMP =? 0) then
      if negb (set_socket e ICMPV4 =? 0) then set_socket e ICMPV4
      else if negb (set_socket e ICMPV6 =? 0) then set_socket e ICMPV6
      else NO_ERROR
    else NO_ERROR in
  let tcp :=
    if negb (Z.land alive_test ALIVE_TEST_TCP_ACK_SERVICE =? 0)
       || negb (Z.land alive_test ALIVE_TEST_TCP_SYN_SERVICE =? 0) then
      if negb (set_socket e TCPV4 =? 0) then set_socket e TCPV4
      else if negb (set_socket e TCPV6 =? 0) then set_socket e TCPV6
      else if negb (set_socket e UDPV4 =? 0) then set_socket e UDPV4
      else if negb (set_socket e UDPV6 =? 0) then set_socket e UDPV6
      else NO_ERROR
    else NO_ERROR in
  let arp :=
    if negb (Z.land alive_test ALIVE_TEST_ARP =? 0) then
      if negb (set_socket e ARPV4 =? 0) then set_socket e ARPV4
      else if negb (set_socket e ARPV6 =? 0) then set_socket e ARPV6
      else NO_ERROR
    else NO_ERROR in
  if negb (icmp =? 0) then icmp
  else if negb (tcp =? 0) then tcp
  else arp.

(** The ports [start, end] in ascending order. *)
Definition ports_between (range_start range_end : Z) : list Z :=
  map (fun i => range_start + Z.of_nat i)
    (seq 0 (Z.to_nat (range_end - range_start + 1))).

Definition fill_ports_array (ports_array : list Z) (range : range_t) : list Z :=
  (* If range should be excluded do not use it. *)
  if range_exclude range then ports_array
  (* Only single port in range. *)
  else if (range_end range =? 0) || (range_start range =? range_end range)
  then ports_array ++ [range_start range]
  else ports_array ++ ports_between (range_start range) (range_end range).

(** The port list of the TCP pings. *)
Definition init_ports (e : environment) : list log_msg * list Z :=
  let port_list := "80,137,587,3128,8081"%string in
  let '(logs, port_list) :=
    if negb (validate_port_range e port_list =? 0)
    then
      (* Using global port range instead. *)
      ([WarnInvalidPortRange], prefs_get e "port_range")
    else ([], Some port_list) in
  match port_list with
  | Some l => (logs, fold_left fill_ports_array (port_range_ranges e l) [])
  | None => (logs ++ [WarnEmptyPortList], [])
  end.

(** Scan restrictions. max_scan_hosts and max_alive_hosts related. *)
Definition init_scan_restrictions (e : environment) : scan_restrictions_t :=
  let max_scan_hosts :=
    match prefs_get e "max_scan_hosts" with
    | Some pref_str => atoi pref_str
    | None => INT_MAX
    end in
  let max_alive_hosts :=
    match prefs_get e "max_alive_hosts" with
    | Some pref_str => atoi pref_str
    | None => INT_MAX
    end in
  let max_alive_hosts :=
    if max_alive_hosts <? max_scan_hosts then max_scan_hosts
    else max_alive_hosts in
  mk_scan_restrictions max_scan_hosts max_alive_hosts 0 false false.

(** put all hosts we want to check in hashtable *)
Definition init_targethosts (hosts : list gvm_host_t) : gmap string gvm_host_t :=
  fold_left (fun t host => <[host_value_str host := host]> t) hosts ∅.

Definition alive_detection_init (e : environment) (hosts : list gvm_host_t)
  (alive_test : alive_test_t) (w : world) : boreas_error_t * world :=
  let error := set_all_needed_sockets e alive_test in
  if negb (error =? 0) then (error, w)
  else if negb (kb_conn_scanner e) then (-7, w)
  else
    let w :=
      set_hosts_data (mk_hosts_data ∅ (init_targethosts hosts) ∅) w in
    let '(logs, ports) := init_ports e in
    let w := fold_left (fun w m => emit (Log m) w) logs w in
    let w := set_scanner (mk_scanner (tcp_flag (scanner w)) ports) w in
    let w := set_restrictions (init_scan_restrictions e) w in
    (error, w).

(** ** The lifecycle *)

(** The globals as the loader leaves them, and the frames to come. *)
Definition world_at_start (e : environment) : world :=
  mk_world (mk_scan_restrictions 0 0 0 false false) (mk_hosts_data ∅ ∅ ∅)
    (mk_scanner 0 []) false 0 (arrivals e) [].

(** The finish signal of an exit path, with the warning when it fails. *)
Definition finish_or_warn (e : environment) (w : world) : world :=
  let '(fin_err, w) := put_finish_signal_on_queue e w in
  if fin_err =? 0 then w else emit (Log WarnNoFinishSignal) w.

(** [alive_detection_free] closes the sockets and destroys the tables; it
    writes nothing to the queue and is the last thing a run does, so the
    world returned is the one it finds. *)
Definition start_alive_detection (e : environment) (hosts_to_test : list gvm_host_t)
  : world :=
  let w := world_at_start e in
  let '(alive_test_err, alive_test) := alive_test_methods e in
  if negb (alive_test_err =? 0)
  then finish_or_warn e (emit (Log (WarnAliveTestMethods alive_test_err)) w)
  else
    let '(init_err, w) := alive_detection_init e hosts_to_test alive_test w in
    if negb (init_err =? 0)
    then finish_or_warn e (emit (Log (WarnInit init_err)) w)
    else
      (* Start the scan. *)
      let '(ret, w) := scan e alive_test w in
      let w := if ret <? 0 then emit (Log WarnScanError) w else w in
      (* Put finish signal on queue: pthread_cleanup_pop (1). *)
      (put_finish_signal_on_queue e w).2.

(** ** What a run leaves behind *)

(** The items pushed on the key-value store, in order. *)
Definition kb_items (tr : list event) : list kb_item :=
  omap (fun ev => match ev with KbPush i => Some i | _ => None end) tr.

(** The addresses put on the alive detection queue, in order. *)
Definition queue_hosts (tr : list event) : list string :=
  omap (fun ev => match ev with KbPush (QueueHost a) => Some a | _ => None end)
    tr.

(** How often [addr_str] was put on the queue. *)
Definition publish_count (addr_str : string) (tr : list event) : nat :=
  length (filter (fun a => a = addr_str) (queue_hosts tr)).

(** How often the finish signal was put on the queue. *)
Definition finish_count (tr : list event) : nat :=
  length (filter (fun i => i = QueueFinish) (kb_items tr)).

(** The dead host counts reported. *)
Definition dead_counts (tr : list event) : list Z :=
  omap (fun ev =>
          match ev with KbPush (ResultDeadHost n) => Some n | _ => None end) tr.

(** The pings sent, in order. *)
Definition pings_of (tr : list event) : list ping :=
  omap (fun ev => match ev with Ping p => Some p | _ => None end) tr.

(** The caps of the restriction record. *)
Definition caps (w : world) : Z * Z :=
  (max_scan_hosts (scan_restrictions w), max_alive_hosts (scan_restrictions w)).

Definition targets_of (w : world) : gset string :=
  dom (targethosts (hosts_data w)).

Definition alive_seen (w : world) : gset string := alivehosts (hosts_data w).

Definition deferred_publish (w : world) : gset string :=
  alivehosts_not_to_be_sent_to_openvas (hosts_data w).

(** The strings [exclude] reads behind the keys of that table. *)
Definition deferred_read (e : environment) (w : world) : gset string :=
  set_map (deferred_key_str e) (deferred_publish w).

(** The method bitset of a run. *)
Definition alive_test_of (e : environment) : alive_test_t :=
  (alive_test_methods e).2.

(** Only one thread calls the restriction controller: the method set is not
    CONSIDER_ALIVE, so that the sender sends pings and the sniffer alone
    calls it, or no frame is captured, so that the sender alone does. *)
Definition one_controller_thread (e : environment) : Prop :=
  alive_test_of e <> ALIVE_TEST_CONSIDER_ALIVE \/ concat (arrivals e) = [].

(** The world a run scans from: what [alive_detection_init] leaves. *)
Definition init_world (e : environment) (hosts : list gvm_host_t) : world :=
  (alive_detection_init e hosts (alive_test_of e) (world_at_start e)).2.

(** Does the run get through [get_alive_test_methods] and
    [alive_detection_init]. *)
Definition initialised (e : environment) (hosts : list gvm_host_t) : bool :=
  ((alive_test_methods e).1 =? 0)
  && ((alive_detection_init e hosts (alive_test_of e)
         (world_at_start e)).1 =? 0).

(** Does the run end before the sniffer is started: no method set, a failed
    initialisation, or no capture handle. *)
Definition aborts (e : environment) (hosts : list gvm_host_t) : bool :=
  negb (initialised e hosts) || negb (pcap_open_ok e).

(** The world of a run when the sniffer has been joined, before the
    reports are sent; for a run that aborts, the world it aborts in. *)
Definition detection_world (e : environment) (hosts : list gvm_host_t) : world :=
  if aborts e hosts then world_at_start e
  else (scan_detect e (alive_test_of e) (init_world e hosts)).2.

(** *** Invariants of a run *)

(** The static flag of [put_finish_signal_on_queue] tells whether the
    finish signal is on the queue. *)
Definition fin_inv (w : world) : Prop :=
  finish_count (out w)
  = if fin_msg_already_on_queue w then 1%nat else 0%nat.

(** Until max_scan_hosts is reached no push of the finish signal has been
    attempted; from then on one has, and the flag tells how it went. *)
Definition attempts_inv (e : environment) (w : world) : Prop :=
  if max_scan_hosts_reached (scan_restrictions w)
  then fin_attempts w = 1%nat
       /\ fin_msg_already_on_queue w = finish_push_ok e 0%nat
  else fin_attempts w = 0%nat /\ fin_msg_already_on_queue w = false.

(** [alive_hosts_count] is the number of targets in the alive table plus
    [k], the number of hosts the sender itself has handed to the restriction
    controller. *)
Definition count_inv (T : gmap string gvm_host_t) (k : Z) (w : world) : Prop :=
  targethosts (hosts_data w) = T
  /\ alive_hosts_count (scan_restrictions w)
     = Z.of_nat (size (alive_seen w ∩ dom T)) + k.

(** The targets in the alive table are those on the queue together with
    the deferred ones, and nothing is on the queue twice. *)
Definition publish_inv (w : world) : Prop :=
  NoDup (queue_hosts (out w))
  /\ (forall a, a ∈ queue_hosts (out w) -> a ∉ deferred_publish w)
  /\ (forall a, a ∈ queue_hosts (out w) \/ a ∈ deferred_publish w
                <-> a ∈ alive_seen w ∩ targets_of w).


(** *** The order of the senders *)

Definition method_of (p : ping) : method :=
  match p with
  | send_tcp_v4 _ _ _ | send_tcp_v6 _ _ _ => TCP
  | send_icmp_v4 _ | send_icmp_v6 ICMPV6 _ => ICMP
  | send_icmp_v6 _ _ | send_arp_v4 _ => ARP
  end.

(** The order TCP, ICMP, ARP. *)
Definition rank (m : method) : nat :=
  match m with TCP => 0 | ICMP => 1 | ARP => 2 end.

(** The order of the combination ICMP with TCP-ACK: ICMP first. *)
Definition rank_icmp_first (m : method) : nat :=
  match m with ICMP => 0 | TCP => 1 | ARP => 2 end.

Definition in_order (rk : method -> nat) (ms : list method) : Prop :=
  StronglySorted (fun a b => (rk a <= rk b)%nat) ms.

(** The nine combinations [scan] compares [alive_test] with. *)
Definition supported_alive_tests : list alive_test_t :=
  [ Z.lor (Z.lor ALIVE_TEST_TCP_ACK_SERVICE ALIVE_TEST_ICMP) ALIVE_TEST_ARP;
    Z.lor ALIVE_TEST_TCP_ACK_SERVICE ALIVE_TEST_ARP;
    Z.lor ALIVE_TEST_ICMP ALIVE_TEST_ARP;
    Z.lor ALIVE_TEST_ICMP ALIVE_TEST_TCP_ACK_SERVICE;
    ALIVE_TEST_ARP;
    ALIVE_TEST_TCP_ACK_SERVICE;
    ALIVE_TEST_TCP_SYN_SERVICE;
    ALIVE_TEST_ICMP;
    ALIVE_TEST_CONSIDER_ALIVE ].

(** The methods of a combination in the order their loops stand in [scan],
    with the TCP flag of the combination. *)
Definition sender_order (alive_test : alive_test_t) : list method :=
  if alive_test =? 7 (* TCP_ACK | ICMP | ARP *) then [TCP; ICMP; ARP]
  else if alive_test =? 5 (* TCP_ACK | ARP *) then [TCP; ARP]
  else if alive_test =? 6 (* ICMP | ARP *) then [ICMP; ARP]
  else if alive_test =? 3 (* ICMP | TCP_ACK *) then [ICMP; TCP]
  else if alive_test =? 4 (* ARP *) then [ARP]
  else if alive_test =? 1 (* TCP_ACK *) then [TCP]
  else if alive_test =? 16 (* TCP_SYN *) then [TCP]
  else if alive_test =? 2 (* ICMP *) then [ICMP]
  else [].

Definition tcp_flag_of (alive_test : alive_test_t) : Z :=
  if alive_test =? 16 (* TCP_SYN *) then TH_SYN else TH_ACK.

(** The ping one method sends to one target. *)
Definition ping_for (flag : Z) (tcp_ports : list Z) (m : method)
  (value : gvm_host_t) : ping :=
  let dst6 := (gvm_host_get_addr6 m value).2 in
  let v6 := negb (IN6_IS_ADDR_V4MAPPED dst6) in
  match m with
  | TCP => if v6 then send_tcp_v6 flag tcp_ports dst6
           else send_tcp_v4 flag tcp_ports (s6_addr32_3 dst6)
  | ICMP => if v6 then send_icmp_v6 ICMPV6 dst6
            else send_icmp_v4 (s6_addr32_3 dst6)
  | ARP => if v6 then send_icmp_v6 ARPV6 dst6
           else send_arp_v4 (s6_addr32_3 dst6)
  end.

(** The ping of one method to the address [dst6]. *)
Definition ping_to (flag : Z) (tcp_ports : list Z) (m : method) (dst6 : Z)
  : ping :=
  let v6 := negb (IN6_IS_ADDR_V4MAPPED dst6) in
  match m with
  | TCP => if v6 then send_tcp_v6 flag tcp_ports dst6
           else send_tcp_v4 flag tcp_ports (s6_addr32_3 dst6)
  | ICMP => if v6 then send_icmp_v6 ICMPV6 dst6
            else send_icmp_v4 (s6_addr32_3 dst6)
  | ARP => if v6 then send_icmp_v6 ARPV6 dst6
           else send_arp_v4 (s6_addr32_3 dst6)
  end.

(** The body of the loop of one method. *)
Definition send_by (m : method) (key : string) (value : gvm_host_t)
  (w : world) : world :=
  match m with
  | TCP => send_tcp value w
  | ICMP => send_icmp value w
  | ARP => send_arp value w
  end.

(** The pings of a sequence of loops: the loop of the i-th method got
    through the first [ns !! i] targets. *)
Definition segments (flag : Z) (tcp_ports : list Z)
  (targets : list (string * gvm_host_t)) (ms : list method) (ns : list nat)
  : list ping :=
  concat
    (zip_with
       (fun m n => map (fun kv => ping_for flag tcp_ports m kv.2)
                     (take n targets))
       ms ns).

(** What the sniffer and the restriction controller leave alone. *)
Definition sender_frame (w w' : world) : Prop :=
  scanner w' = scanner w
  /\ targethosts (hosts_data w') = targethosts (hosts_data w)
  /\ pings_of (out w') = pings_of (out w)
  /\ dead_counts (out w') = dead_counts (out w)
  /\ (max_alive_hosts_reached (scan_restrictions w) = true ->
      max_alive_hosts_reached (scan_restrictions w') = true).

(** The sender has gone through the loops of the methods [ms], starting
    with the pings [P0] and the dead host reports [D0] on the trace. *)
Definition shaped (flag : Z) (P0 : list ping) (D0 : list Z)
  (tcp_ports : list Z) (T : gmap string gvm_host_t) (ms : list method)
  (st : Z * world) : Prop :=
  exists ns,
    length ms = length ns
    /\ pings_of (out st.2)
       = P0 ++ segments flag tcp_ports (map_to_list T) ms ns
    /\ ports (scanner st.2) = tcp_ports
    /\ targethosts (hosts_data st.2) = T
    /\ dead_counts (out st.2) = D0
    /\ (max_alive_hosts_reached (scan_restrictions st.2) = false ->
        ns = replicate (length ms) (length (map_to_list T))).

(** *** The default ports *)

Definition default_port_list : string := "80,137,587,3128,8081".

Definition single_port (port : Z) : range_t := mk_range port port false.

(** The ports a TCP ping goes to. *)
Definition ping_tcp_ports (p : ping) : option (list Z) :=
  match p with
  | send_tcp_v4 _ tcp_ports _ | send_tcp_v6 _ tcp_ports _ => Some tcp_ports
  | _ => None
  end.

(** The same environment with other preferences. *)
Definition with_prefs (some_prefs : gmap string string) (e : environment)
  : environment :=
  mk_env some_prefs (alive_test_methods e) (set_socket e)
    (validate_port_range e) (port_range_ranges e) (kb_conn_scanner e)
    (kb_conn_errmsg e) (kb_conn_dead_hosts e) (errmsg_push_ok e)
    (finish_push_ok e) (pcap_open_ok e) (arrivals e) (deferred_key_str e).

(** *** Concrete runs *)

(** An IPv4 host and an IPv4 reply. *)
Definition ipv4_host (addr_str : string) (a : Z) : gvm_host_t :=
  mk_host addr_str (Z.lor (Z.shiftl 65535 32) a) 0 (fun _ => 0).

Definition ipv4_reply (addr_str : string) : packet :=
  mk_packet 4 addr_str "::" "0.0.0.0".

(** A port list parser for the concrete runs: it knows the default list and
    reads everything else as the one port 22. *)
Definition example_port_ranges (l : string) : list range_t :=
  if bool_decide (l = default_port_list)
  then map single_port [80; 137; 587; 3128; 8081]
  else [single_port 22].

(** An environment in which every call succeeds. *)
Definition example_env (alive_test : alive_test_t)
  (some_prefs : list (string * string)) (frames : list (list packet))
  : environment :=
  mk_env (list_to_map some_prefs) (NO_ERROR, alive_test) (fun _ => NO_ERROR)
    (fun _ => 0) example_port_ranges true true true true (fun _ => true) true
    frames (fun key => key).

(** The same with a queue that refuses the finish signal. *)
Definition queue_down_env (alive_test_err : boreas_error_t) : environment :=
  mk_env ∅ (alive_test_err, 0) (fun _ => NO_ERROR) (fun _ => 0)
    example_port_ranges true true true true (fun _ => false) true []
    (fun key => key).

(** A queue that refuses the first push of the finish signal and takes
    the later ones. *)
Definition second_push_env (alive_test : alive_test_t)
  (some_prefs : list (string * string)) (frames : list (list packet))
  : environment :=
  mk_env (list_to_map some_prefs) (NO_ERROR, alive_test) (fun _ => NO_ERROR)
    (fun _ => 0) example_port_ranges true true true true
    (fun n => negb (Nat.eqb n 0)) true frames (fun key => key).

(** A host [gvm_host_get_addr6] has no address for; the senders find
    [garbage] in their dst6. *)
Definition unresolved_host (addr_str : string) (garbage : Z) : gvm_host_t :=
  mk_host addr_str 0 (-1) (fun _ => garbage).

Definition three_hosts : list gvm_host_t :=
  [ipv4_host "10.0.0.1" 167772161; ipv4_host "10.0.0.2" 167772162;
   ipv4_host "10.0.0.3" 167772163].

Definition one_host : list gvm_host_t := [ipv4_host "10.0.0.1" 167772161].


(** *** The caps at work *)

(** While max_scan_hosts is not reached, every host counted is on the
    queue; once it is reached, the queue holds max_scan_hosts addresses. *)
Definition scan_cap_inv (w : world) : Prop :=
  let r := scan_restrictions w in
  max_scan_hosts r <= INT_MAX
  /\ if max_scan_hosts_reached r
     then Z.of_nat (length (queue_hosts (out w))) = max_scan_hosts r
     else Z.of_nat (length (queue_hosts (out w))) = alive_hosts_count r
          /\ alive_hosts_count r < max_scan_hosts r.

(** The counter stays below max_alive_hosts until it reaches it. *)
Definition alive_cap_inv (w : world) : Prop :=
  let r := scan_restrictions w in
  max_alive_hosts r <= INT_MAX
  /\ if max_alive_hosts_reached r
     then alive_hosts_count r = max_alive_hosts r
     else 0 <= alive_hosts_count r < max_alive_hosts r.

(** No address is put on the queue behind the finish signal. *)
Definition no_host_after_finish (tr : list event) : Prop :=
  forall tr1 tr2, tr = tr1 ++ KbPush QueueFinish :: tr2 -> queue_hosts tr2 = [].

Definition finish_order_inv (w : world) : Prop :=
  (finish_count (out w) = 0%nat
   \/ max_scan_hosts_reached (scan_restrictions w) = true)
  /\ no_host_after_finish (out w).

(** The addresses on the queue and the deferred ones are targets. *)
Definition targets_only_inv (T : gmap string gvm_host_t) (w : world) : Prop :=
  targethosts (hosts_data w) = T
  /\ (forall a, a ∈ queue_hosts (out w) -> a ∈ dom T)
  /\ deferred_publish w ⊆ dom T.

(** The source addresses of a list of frames. *)
Definition reply_sources (frames : list packet) : gset string :=
  list_to_set (sniffed_addr_str <$> frames).

(** The ERRMSG results of a trace. *)
Definition errmsgs (tr : list event) : list Z :=
  omap (fun ev =>
          match ev with KbPush (ResultErrMsg n) => Some n | _ => None end) tr.

(** The alive table and the frames still to come make up the source
    addresses [S] of all frames, as long as the sniffer processes frames. *)
Definition sources_inv (S : gset string) (w : world) : Prop :=
  alive_seen w ∪ reply_sources (concat (pending w)) ⊆ S
  /\ (max_alive_hosts_reached (scan_restrictions w) = false ->
      S ⊆ alive_seen w ∪ reply_sources (concat (pending w))).

(** *** Sockets *)

(** The sockets the methods of [alive_test] need, in the order
    [set_all_needed_sockets] sets them. *)
Definition needed_sockets (alive_test : alive_test_t) : list socket_type :=
  (if negb (Z.land alive_test ALIVE_TEST_ICMP =? 0)
   then [ICMPV4; ICMPV6] else [])
  ++ (if negb (Z.land alive_test ALIVE_TEST_TCP_ACK_SERVICE =? 0)
         || negb (Z.land alive_test ALIVE_TEST_TCP_SYN_SERVICE =? 0)
      then [TCPV4; TCPV6; UDPV4; UDPV6] else [])
  ++ (if negb (Z.land alive_test ALIVE_TEST_ARP =? 0)
      then [ARPV4; ARPV6] else []).

(** [set_all_needed_sockets] with the sockets it has set when it returns:
    [if ((error = set_socket (kind, ...)) != 0) return error;] for one
    socket after the other. *)
Definition set_socket_or_return (e : environment) (kind : socket_type)
  (st : boreas_error_t * list socket_type) : boreas_error_t * list socket_type :=
  if negb (st.1 =? 0) then st
  else if negb (set_socket e kind =? 0) then (set_socket e kind, st.2)
  else (NO_ERROR, st.2 ++ [kind]).

Definition sockets_set (e : environment) (alive_test : alive_test_t)
  : boreas_error_t * list socket_type :=
  let st := (NO_ERROR, []) in
  let st :=
    if negb (Z.land alive_test ALIVE_TEST_ICMP =? 0) then
      set_socket_or_return e ICMPV6 (set_socket_or_return e ICMPV4 st)
    else st in
  let st :=
    if negb (Z.land alive_test ALIVE_TEST_TCP_ACK_SERVICE =? 0)
       || negb (Z.land alive_test ALIVE_TEST_TCP_SYN_SERVICE =? 0) then
      set_socket_or_return e UDPV6
        (set_socket_or_return e UDPV4
           (set_socket_or_return e TCPV6 (set_socket_or_return e TCPV4 st)))
    else st in
  if negb (Z.land alive_test ALIVE_TEST_ARP =? 0) then
    set_socket_or_return e ARPV6 (set_socket_or_return e ARPV4 st)
  else st.

(** One close() of [alive_detection_free]: a failure sets the error, and the
    function goes on. *)
Definition close_socket (close_result : socket_type -> Z)
  (BOREAS_CLEANUP_ERROR : boreas_error_t) (kind : socket_type)
  (st : boreas_error_t * list socket_type) : boreas_error_t * list socket_type :=
  (if negb (close_result kind =? 0) then BOREAS_CLEANUP_ERROR else st.1,
   st.2 ++ [kind]).

(** [alive_detection_free]: the error it writes to [*error] and the sockets
    it calls close() on, in order.  [close_result] is what close() returns
    for the socket of a kind, [kb_lnk_reset_result] what kb_lnk_reset()
    returns; BOREAS_CLEANUP_ERROR is a constant of boreas_error.h.

    The three tables are destroyed before the error is written.  They were
    made with g_free for their keys.  The alive table and the target table
    own theirs (g_strdup, gvm_host_value_str); the table of the hosts not to
    be sent holds the pointers [handle_scan_restrictions] was handed: keys of
    the target table, freed the line before, or the buffer of [got_packet].
    g_free on such a key is no valid call of free(): when that table is not
    empty the function does not get to write its error (the C library ends
    the process), which is the result [None]. *)
Definition alive_detection_free (e : environment)
  (close_result : socket_type -> Z) (kb_lnk_reset_result : Z)
  (BOREAS_CLEANUP_ERROR : boreas_error_t) (w : world)
  : option boreas_error_t * list socket_type :=
  let close := close_socket close_result BOREAS_CLEANUP_ERROR in
  let st := (NO_ERROR, []) in
  let '(alive_test_err, alive_test) := alive_test_methods e in
  let st :=
    if negb (alive_test_err =? 0) then (BOREAS_CLEANUP_ERROR, st.2)
    else
      let st :=
        if negb (Z.land alive_test ALIVE_TEST_ICMP =? 0)
        then close ICMPV6 (close ICMPV4 st)
        else st in
      let st :=
        if negb (Z.land alive_test ALIVE_TEST_TCP_ACK_SERVICE =? 0)
           || negb (Z.land alive_test ALIVE_TEST_TCP_SYN_SERVICE =? 0)
        then close UDPV6 (close UDPV4 (close TCPV6 (close TCPV4 st)))
        else st in
      if negb (Z.land alive_test ALIVE_TEST_ARP =? 0)
      then close ARPV6 (close ARPV4 st)
      else st in
  let st :=
    if negb (kb_lnk_reset_result =? 0) then (BOREAS_CLEANUP_ERROR, st.2)
    else st in
  (* g_hash_table_destroy (hosts_data.alivehosts_not_to_be_sent_to_openvas) *)
  if bool_decide (alivehosts_not_to_be_sent_to_openvas (hosts_data w) = ∅)
  then (Some st.1, st.2)
  else (None, st.2).

(** The error of the first socket of [kinds] that [set_socket] fails on. *)
Definition first_error (e : environment) (kinds : list socket_type)
  : boreas_error_t :=
  fold_right
    (fun kind err =>
       if negb (set_socket e kind =? 0) then set_socket e kind else err)
    NO_ERROR kinds.
(** * Properties *)

Set Warnings "-clear-no-such-hyp".

#[local] Arguments int_wrap : simpl never.
#[local] Arguments int_incr : simpl never.
#[local] Arguments kb_items : simpl never.
#[local] Arguments queue_hosts : simpl never.
#[local] Arguments pings_of : simpl never.
#[local] Arguments dead_counts : simpl never.

(** ** Arithmetic of [int] *)

Lemma int_wrap_small x : - 2 ^ 31 <= x < 2 ^ 31 -> int_wrap x = x.
Proof.
  intros Hx. unfold int_wrap.
  rewrite Z.mod_small by lia. lia.
Qed.

Lemma int_incr_small x : 0 <= x < INT_MAX -> int_incr x = x + 1.
Proof.
  unfold INT_MAX. intros Hx. unfold int_incr. apply int_wrap_small. lia.
Qed.

(** ** The projections of a trace *)

Lemma kb_items_app tr1 tr2 : kb_items (tr1 ++ tr2) = kb_items tr1 ++ kb_items tr2.
Proof. apply omap_app. Qed.

Lemma queue_hosts_app tr1 tr2 :
  queue_hosts (tr1 ++ tr2) = queue_hosts tr1 ++ queue_hosts tr2.
Proof. apply omap_app. Qed.

Lemma pings_of_app tr1 tr2 : pings_of (tr1 ++ tr2) = pings_of tr1 ++ pings_of tr2.
Proof. apply omap_app. Qed.

Lemma dead_counts_app tr1 tr2 :
  dead_counts (tr1 ++ tr2) = dead_counts tr1 ++ dead_counts tr2.
Proof. apply omap_app. Qed.

Lemma finish_count_app tr1 tr2 :
  finish_count (tr1 ++ tr2) = (finish_count tr1 + finish_count tr2)%nat.
Proof.
  unfold finish_count. by rewrite kb_items_app, filter_app, length_app.
Qed.

Lemma publish_count_app a tr1 tr2 :
  publish_count a (tr1 ++ tr2)
  = (publish_count a tr1 + publish_count a tr2)%nat.
Proof.
  unfold publish_count. by rewrite queue_hosts_app, filter_app, length_app.
Qed.

Lemma publish_count_not_elem a tr :
  a ∉ queue_hosts tr -> publish_count a tr = 0%nat.
Proof.
  unfold publish_count. induction (queue_hosts tr) as [|b l IH]; [done|].
  intros Hn. apply not_elem_of_cons in Hn as [Hne Hn].
  rewrite filter_cons. destruct (decide (b = a)); [congruence|]. by apply IH.
Qed.

Lemma publish_count_NoDup a tr :
  NoDup (queue_hosts tr) -> (publish_count a tr <= 1)%nat.
Proof.
  unfold publish_count. induction 1 as [|b l Hb Hl IH]; [simpl; lia|].
  rewrite filter_cons. destruct (decide (b = a)) as [->|]; [|done].
  simpl. fold (publish_count a tr).
  assert (length (filter (fun x => x = a) l) = 0%nat) as ->; [|lia].
  clear IH Hl. induction l as [|c l IH]; [done|].
  apply not_elem_of_cons in Hb as [Hne Hb]. rewrite filter_cons.
  destruct (decide (c = a)); [congruence|]. by apply IH.
Qed.

(** ** The restriction controller, field by field *)

Lemma handle_scan_restrictions_fields e a w :
  let r := scan_restrictions w in
  let h := hosts_data w in
  let c' := int_incr (alive_hosts_count r) in
  let cap_now := negb (max_scan_hosts_reached r) && (c' =? max_scan_hosts r) in
  let w' := handle_scan_restrictions e a w in
  scan_restrictions w'
  = mk_scan_restrictions (max_scan_hosts r) (max_alive_hosts r) c'
      (max_scan_hosts_reached r || cap_now)
      (max_alive_hosts_reached r || (c' =? max_alive_hosts r))
  /\ hosts_data w'
     = mk_hosts_data (alivehosts h) (targethosts h)
         (if max_scan_hosts_reached r
          then {[a]} ∪ alivehosts_not_to_be_sent_to_openvas h
          else alivehosts_not_to_be_sent_to_openvas h)
  /\ scanner w' = scanner w
  /\ pending w' = pending w
  /\ fin_msg_already_on_queue w'
     = fin_msg_already_on_queue w
       || (cap_now && finish_push_ok e (fin_attempts w))
  /\ out w'
     = out w
       ++ (if max_scan_hosts_reached r then [] else [KbPush (QueueHost a)])
       ++ (if cap_now then
             if fin_msg_already_on_queue w then []
             else if finish_push_ok e (fin_attempts w)
                  then [KbPush QueueFinish]
                  else [Log (DebugFinishSignalError (-1))]
           else []).
Proof.
  destruct w as [[ms ma c sr ar] [A T D] sc fin att pend tr].
  unfold handle_scan_restrictions.
  cbn -[int_incr union singleton put_finish_signal_on_queue].
  destruct sr, ar, fin;
    cbn -[int_incr union singleton put_finish_signal_on_queue];
    try (destruct (int_incr c =? ms);
         cbn -[int_incr union singleton put_finish_signal_on_queue]);
    unfold put_finish_signal_on_queue;
    cbn -[int_incr union singleton];
    try (destruct (finish_push_ok e att); cbn -[int_incr union singleton]);
    destruct (int_incr c =? ma);
    cbn -[int_incr union singleton];
    rewrite ?app_nil_r, <- ?app_assoc; done.
Qed.

(** ** The callback, case by case *)

Lemma got_packet_stopped e p w :
  max_alive_hosts_reached (scan_restrictions w) = true -> got_packet e p w = w.
Proof. intros H. unfold got_packet. by rewrite H. Qed.

Lemma got_packet_handled e p w :
  max_alive_hosts_reached (scan_restrictions w) = false ->
  sniffed_addr_str p ∉ alive_seen w ->
  is_Some (targethosts (hosts_data w) !! sniffed_addr_str p) ->
  got_packet e p w
  = handle_scan_restrictions e (sniffed_addr_str p)
      (alivehosts_add (sniffed_addr_str p) w).2.
Proof.
  intros Hr Hnew Ht. unfold got_packet, alivehosts_add, targethosts_contains.
  rewrite Hr. cbn. unfold alive_seen in Hnew.
  rewrite bool_decide_eq_true_2 by done.
  by rewrite bool_decide_eq_true_2 by done.
Qed.

Lemma got_packet_ignored e p w :
  max_alive_hosts_reached (scan_restrictions w) = false ->
  sniffed_addr_str p ∈ alive_seen w
  \/ targethosts (hosts_data w) !! sniffed_addr_str p = None ->
  got_packet e p w = (alivehosts_add (sniffed_addr_str p) w).2.
Proof.
  intros Hr Hc. unfold got_packet, alivehosts_add, targethosts_contains.
  rewrite Hr. cbn. unfold alive_seen in Hc.
  destruct Hc as [Hin | Hnone].
  - rewrite bool_decide_eq_false_2; [done|]. by intros Hn.
  - rewrite (bool_decide_eq_false_2 (is_Some _)).
    + by rewrite andb_false_r.
    + rewrite Hnone. by intros [? ?].
Qed.

(** The three cases are all there is. *)
Lemma got_packet_cases e p w :
  got_packet e p w = w
  \/ (max_alive_hosts_reached (scan_restrictions w) = false
      /\ (sniffed_addr_str p ∈ alive_seen w
          \/ targethosts (hosts_data w) !! sniffed_addr_str p = None)
      /\ got_packet e p w = (alivehosts_add (sniffed_addr_str p) w).2)
  \/ (max_alive_hosts_reached (scan_restrictions w) = false
      /\ (sniffed_addr_str p ∉ alive_seen w)
      /\ is_Some (targethosts (hosts_data w) !! sniffed_addr_str p)
      /\ got_packet e p w
         = handle_scan_restrictions e (sniffed_addr_str p)
             (alivehosts_add (sniffed_addr_str p) w).2).
Proof.
  destruct (max_alive_hosts_reached (scan_restrictions w)) eqn:Hr.
  { left. by apply got_packet_stopped. }
  destruct (decide (sniffed_addr_str p ∈ alive_seen w)) as [Hin|Hnew].
  { right; left. repeat split; auto. apply got_packet_ignored; auto. }
  destruct (targethosts (hosts_data w) !! sniffed_addr_str p) eqn:Ht.
  - right; right. assert (is_Some (Some g)) as Hs by by eexists.
    repeat split; try done. by apply got_packet_handled.
  - right; left. repeat split; auto. apply got_packet_ignored; auto.
Qed.

(** ** Properties kept by the sniffer and by the sender loops *)

Section preservation.
Variable e : environment.
Variable I : world -> Prop.
Hypothesis I_pending : forall p w, I w -> I (set_pending p w).
Hypothesis I_got_packet : forall p w, I w -> I (got_packet e p w).

Lemma sniff_preserves batch w : I w -> I (sniff e batch w).
Proof.
  unfold sniff. revert w.
  induction batch as [|p batch IH]; intros w Hw; cbn; [done|].
  apply IH. by apply I_got_packet.
Qed.

Lemma sniffer_turn_preserves w : I w -> I (sniffer_turn e w).
Proof.
  intros Hw. unfold sniffer_turn. destruct (pending w); [done|].
  apply sniff_preserves. by apply I_pending.
Qed.

Lemma sniffer_drain_preserves w : I w -> I (sniffer_drain e w).
Proof.
  intros Hw. unfold sniffer_drain.
  assert (I (set_pending [] w)) as Hw' by by apply I_pending.
  revert Hw'. generalize (set_pending [] w). clear Hw.
  induction (pending w) as [|b l IH]; intros w' Hw'; cbn; [done|].
  apply IH. by apply sniff_preserves.
Qed.

Lemma ping_loop_preserves body targets st :
  (forall key value w, I w -> I (body key value w)) ->
  I st.2 -> I (ping_loop e body targets st).2.
Proof.
  intros Hbody. revert st.
  induction targets as [|[key value] targets IH]; intros [n w] Hw; cbn;
    [done|].
  cbn in Hw. apply sniffer_turn_preserves in Hw.
  destruct (max_alive_hosts_reached (scan_restrictions (sniffer_turn e w)));
    [done|].
  apply IH. cbn. by apply Hbody.
Qed.

Hypothesis I_scanner : forall sc w, I w -> I (set_scanner sc w).
Hypothesis I_ping : forall p w, I w -> I (emit (Ping p) w).
Hypothesis I_warn : forall w, I w -> I (emit (Log WarnNoAddr6) w).

Lemma warn_no_addr6_preserves value w : I w -> I (warn_no_addr6 value w).
Proof. intros Hw. unfold warn_no_addr6. case_match; [by apply I_warn|done]. Qed.

Lemma send_tcp_preserves value w : I w -> I (send_tcp value w).
Proof.
  intros Hw%(warn_no_addr6_preserves value).
  unfold send_tcp, gvm_host_get_addr6, warn_no_addr6 in *.
  destruct (host_get_addr6_ret value <? 0) eqn:Hret;
    cbn beta iota zeta; rewrite Hret; destruct (negb _); by apply I_ping.
Qed.

Lemma send_icmp_preserves value w : I w -> I (send_icmp value w).
Proof.
  intros Hw%(warn_no_addr6_preserves value).
  unfold send_icmp, gvm_host_get_addr6, warn_no_addr6 in *.
  destruct (host_get_addr6_ret value <? 0) eqn:Hret;
    cbn beta iota zeta; rewrite Hret; destruct (negb _); by apply I_ping.
Qed.

Lemma send_arp_preserves value w : I w -> I (send_arp value w).
Proof.
  intros Hw%(warn_no_addr6_preserves value).
  unfold send_arp, gvm_host_get_addr6, warn_no_addr6 in *.
  destruct (host_get_addr6_ret value <? 0) eqn:Hret;
    cbn beta iota zeta; rewrite Hret; destruct (negb _); by apply I_ping.
Qed.

Lemma set_tcp_flag_preserves flag st : I st.2 -> I (set_tcp_flag flag st).2.
Proof. intros Hw. unfold set_tcp_flag. cbn. by apply I_scanner. Qed.

(** The sender loops keep [I]; for the combination CONSIDER_ALIVE the
    restriction controller has to keep it on its own. *)
Lemma scan_methods_preserves alive_test st :
  (alive_test = ALIVE_TEST_CONSIDER_ALIVE ->
   forall key w, I w -> I (handle_scan_restrictions e key w)) ->
  I st.2 -> I (scan_methods e alive_test st).2.
Proof.
  intros Hca Hw. unfold scan_methods.
  pose proof send_tcp_preserves. pose proof send_icmp_preserves.
  pose proof send_arp_preserves. pose proof set_tcp_flag_preserves.
  repeat (case_match;
          [repeat (first [apply ping_loop_preserves; [by auto|]
                         | apply set_tcp_flag_preserves]); try done |]);
    try done.
  apply ping_loop_preserves; [|done].
  intros key _ w' Hw'. apply Hca; [|done]. by apply Z.eqb_eq.
Qed.

Lemma scan_detect_preserves alive_test w :
  (alive_test = ALIVE_TEST_CONSIDER_ALIVE ->
   forall key w, I w -> I (handle_scan_restrictions e key w)) ->
  I w -> I (scan_detect e alive_test w).2.
Proof.
  intros Hca Hw. unfold scan_detect.
  pose proof (scan_methods_preserves alive_test (0, w) Hca Hw) as Hm.
  destruct (scan_methods e alive_test (0, w)) as [n w']. cbn in *.
  by apply sniffer_drain_preserves.
Qed.
End preservation.

(** ** The caps are written once *)

Lemma caps_handle_scan_restrictions e a w :
  caps (handle_scan_restrictions e a w) = caps w.
Proof.
  unfold caps.
  by destruct (handle_scan_restrictions_fields e a w) as [-> _].
Qed.

Lemma caps_got_packet e p w : caps (got_packet e p w) = caps w.
Proof.
  destruct (got_packet_cases e p w) as [-> | [(_ & _ & ->) | (_ & _ & _ & ->)]];
    [done | done |].
  by rewrite caps_handle_scan_restrictions.
Qed.

Lemma caps_scan_detect e alive_test w :
  caps (scan_detect e alive_test w).2 = caps w.
Proof.
  apply (scan_detect_preserves e (fun w' => caps w' = caps w)); try done.
  - intros p w' <-. apply caps_got_packet.
  - intros _ key w' <-. apply caps_handle_scan_restrictions.
Qed.

Lemma caps_scan_errmsg e n m w : caps (scan_errmsg e n m w) = caps w.
Proof. unfold scan_errmsg. by repeat case_match. Qed.

Lemma caps_send_dead_hosts e w :
  caps (send_dead_hosts_to_ospd_openvas e w).2 = caps w.
Proof. unfold send_dead_hosts_to_ospd_openvas. by case_match. Qed.

Lemma caps_scan e alive_test w : caps (scan e alive_test w).2 = caps w.
Proof.
  unfold scan. destruct (negb (pcap_open_ok e)); [done|].
  pose proof (caps_scan_detect e alive_test w) as Hd.
  destruct (scan_detect e alive_test w) as [n w1]. cbn in Hd.
  pose proof (caps_send_dead_hosts e
                (scan_errmsg e
                   (int_wrap (Z.of_nat (size (targethosts (hosts_data w)))))
                   n w1)) as Hs.
  destruct (send_dead_hosts_to_ospd_openvas e _) as [m w2]. cbn in *.
  by rewrite Hs, caps_scan_errmsg.
Qed.

Lemma caps_put_finish e w : caps (put_finish_signal_on_queue e w).2 = caps w.
Proof. unfold put_finish_signal_on_queue. by repeat case_match. Qed.

Lemma caps_finish_or_warn e w : caps (finish_or_warn e w) = caps w.
Proof.
  unfold finish_or_warn. pose proof (caps_put_finish e w) as H.
  destruct (put_finish_signal_on_queue e w) as [err w']. cbn in H.
  by case_match.
Qed.

Lemma init_caps_normalised e :
  max_scan_hosts (init_scan_restrictions e)
  <= max_alive_hosts (init_scan_restrictions e).
Proof.
  unfold init_scan_restrictions. cbn.
  destruct (Z.ltb_spec
              match prefs_get e "max_alive_hosts" with
              | Some pref_str => atoi pref_str
              | None => INT_MAX
              end
              match prefs_get e "max_scan_hosts" with
              | Some pref_str => atoi pref_str
              | None => INT_MAX
              end); lia.
Qed.

Lemma alive_detection_init_ok e hosts alive_test w :
  (alive_detection_init e hosts alive_test w).1 = 0 ->
  let w' := (alive_detection_init e hosts alive_test w).2 in
  scan_restrictions w' = init_scan_restrictions e
  /\ hosts_data w' = mk_hosts_data ∅ (init_targethosts hosts) ∅
  /\ scanner w' = mk_scanner (tcp_flag (scanner w)) (init_ports e).2
  /\ fin_msg_already_on_queue w' = fin_msg_already_on_queue w
  /\ pending w' = pending w
  /\ out w' = out w ++ map Log (init_ports e).1.
Proof.
  unfold alive_detection_init.
  destruct (negb (set_all_needed_sockets e alive_test =? 0)) eqn:Hs.
  { cbn. intros Herr. rewrite Herr in Hs. done. }
  destruct (negb (kb_conn_scanner e)); [done|].
  destruct (init_ports e) as [logs ps]. cbn. intros _.
  assert (forall w0, let w1 := fold_left (fun w m => emit (Log m) w) logs w0 in
            scan_restrictions w1 = scan_restrictions w0
            /\ hosts_data w1 = hosts_data w0 /\ scanner w1 = scanner w0
            /\ fin_msg_already_on_queue w1 = fin_msg_already_on_queue w0
            /\ pending w1 = pending w0
            /\ out w1 = out w0 ++ map Log logs) as Hlogs.
  { induction logs as [|m logs IH]; intros w0; cbn.
    - by rewrite app_nil_r.
    - destruct (IH (emit (Log m) w0)) as (-> & -> & -> & -> & -> & ->).
      cbn. by rewrite <- app_assoc. }
  destruct (Hlogs (set_hosts_data
                     (mk_hosts_data ∅ (init_targethosts hosts) ∅) w))
    as (H1 & H2 & H3 & H4 & H5 & H6).
  cbn in *. by rewrite H2, H3, H4, H5, H6.
Qed.

Lemma alive_detection_init_failed e hosts alive_test w :
  (alive_detection_init e hosts alive_test w).1 <> 0 ->
  (alive_detection_init e hosts alive_test w).2 = w.
Proof.
  unfold alive_detection_init.
  destruct (negb (set_all_needed_sockets e alive_test =? 0)) eqn:Hs; [done|].
  destruct (negb (kb_conn_scanner e)); [done|].
  destruct (init_ports e) as [logs ps]. cbn. intros Hne.
  apply negb_false_iff, Z.eqb_eq in Hs. done.
Qed.

(** The shape of a run, by the way it ends. *)
Lemma start_alive_detection_unfold e hosts :
  start_alive_detection e hosts
  = if negb ((alive_test_methods e).1 =? 0) then
      finish_or_warn e
        (emit (Log (WarnAliveTestMethods (alive_test_methods e).1))
           (world_at_start e))
    else if negb (initialised e hosts) then
      finish_or_warn e
        (emit (Log (WarnInit
                      (alive_detection_init e hosts (alive_test_of e)
                         (world_at_start e)).1))
           (world_at_start e))
    else
      let '(ret, w) := scan e (alive_test_of e) (init_world e hosts) in
      (put_finish_signal_on_queue e
         (if ret <? 0 then emit (Log WarnScanError) w else w)).2.
Proof.
  unfold start_alive_detection, initialised, init_world, alive_test_of.
  destruct (alive_test_methods e) as [err alive_test]. cbn.
  destruct (err =? 0); cbn; [|done].
  pose proof (alive_detection_init_failed e hosts alive_test
                (world_at_start e)) as Hf.
  destruct (alive_detection_init e hosts alive_test (world_at_start e))
    as [ierr w1]. cbn in *.
  destruct (Z.eqb_spec ierr 0) as [->|Hne]; cbn; [done|].
  by rewrite Hf.
Qed.

(** C5: [alive_detection_init] takes max_scan_hosts as it is configured
    (INT_MAX when the preference is not set) and max_alive_hosts as the
    larger of the configured max_alive_hosts and max_scan_hosts: a
    configured max_alive_hosts below max_scan_hosts is raised to
    max_scan_hosts, any other is kept (configured 5 and 3 give 5 and 5).
    So max_alive_hosts >= max_scan_hosts after the normalisation; neither
    the callback, nor the restriction controller, nor the scan as a whole
    writes the two caps, so a run that was initialised ends with the
    normalised caps and every run ends with
    max_alive_hosts >= max_scan_hosts.  That max_alive_hosts_reached implies
    max_scan_hosts_reached is not part of it: the run of one replying host
    with max_scan_hosts 0 and max_alive_hosts 1 ends with the first flag set
    and the second not. *)
Theorem caps_normalised_and_kept e hosts :
  let configured name :=
    match prefs_get e name with
    | Some pref_str => atoi pref_str
    | None => INT_MAX
    end in
  let r0 := init_scan_restrictions e in
  let w := start_alive_detection e hosts in
  max_scan_hosts r0 = configured "max_scan_hosts"%string
  /\ max_alive_hosts r0
     = Z.max (configured "max_alive_hosts"%string)
         (configured "max_scan_hosts"%string)
  /\ (configured "max_alive_hosts"%string
      < configured "max_scan_hosts"%string ->
      max_alive_hosts r0 = configured "max_scan_hosts"%string)
  /\ (configured "max_scan_hosts"%string
      <= configured "max_alive_hosts"%string ->
      max_alive_hosts r0 = configured "max_alive_hosts"%string)
  /\ max_scan_hosts r0 <= max_alive_hosts r0
  /\ (forall p w0, caps (got_packet e p w0) = caps w0)
  /\ (forall a w0, caps (handle_scan_restrictions e a w0) = caps w0)
  /\ (forall alive_test w0, caps (scan e alive_test w0).2 = caps w0)
  /\ caps w
     = (if initialised e hosts then (max_scan_hosts r0, max_alive_hosts r0)
        else (0, 0))
  /\ max_scan_hosts (scan_restrictions w)
     <= max_alive_hosts (scan_restrictions w)
  /\ caps
       (start_alive_detection
          (example_env ALIVE_TEST_ICMP
             [("max_scan_hosts", "5"); ("max_alive_hosts", "3")]%string [])
          one_host)
     = (5, 5)
  /\ (let w1 :=
        start_alive_detection
          (example_env ALIVE_TEST_ICMP
             [("max_scan_hosts", "0"); ("max_alive_hosts", "1")]%string
             [[ipv4_reply "10.0.0.1"]])
          one_host in
      max_alive_hosts_reached (scan_restrictions w1) = true
      /\ max_scan_hosts_reached (scan_restrictions w1) = false).
Proof.
  cbn zeta.
  assert (caps (start_alive_detection e hosts)
          = (if initialised e hosts
             then (max_scan_hosts (init_scan_restrictions e),
                   max_alive_hosts (init_scan_restrictions e))
             else (0, 0))) as Hcaps.
  { rewrite start_alive_detection_unfold.
    unfold initialised at 2.
    destruct ((alive_test_methods e).1 =? 0) eqn:Ha; cbn.
    2:{ by rewrite caps_finish_or_warn. }
    unfold initialised.
    rewrite Ha. cbn.
    destruct (Z.eqb_spec
                (alive_detection_init e hosts (alive_test_of e)
                   (world_at_start e)).1 0) as [Hi|Hi]; cbn.
    2:{ by rewrite caps_finish_or_warn. }
    pose proof (caps_scan e (alive_test_of e) (init_world e hosts)) as Hs.
    destruct (scan e (alive_test_of e) (init_world e hosts)) as [ret w1].
    cbn in Hs. rewrite caps_put_finish.
    assert (caps (if ret <? 0 then emit (Log WarnScanError) w1 else w1)
            = caps w1) as -> by by case_match.
    rewrite Hs. unfold init_world, caps.
    by destruct (alive_detection_init_ok e hosts (alive_test_of e)
                   (world_at_start e) Hi) as [-> _]. }
  assert (max_alive_hosts (init_scan_restrictions e)
          = Z.max
              match prefs_get e "max_alive_hosts" with
              | Some pref_str => atoi pref_str
              | None => INT_MAX
              end
              match prefs_get e "max_scan_hosts" with
              | Some pref_str => atoi pref_str
              | None => INT_MAX
              end) as Hmax.
  { unfold init_scan_restrictions. cbn [max_alive_hosts]. cbn zeta.
    destruct (Z.ltb_spec
                match prefs_get e "max_alive_hosts" with
                | Some pref_str => atoi pref_str
                | None => INT_MAX
                end
                match prefs_get e "max_scan_hosts" with
                | Some pref_str => atoi pref_str
                | None => INT_MAX
                end); lia. }
  split; [done|].
  split; [exact Hmax|].
  split; [rewrite Hmax; lia|].
  split; [rewrite Hmax; lia|].
  split; [apply init_caps_normalised|].
  split; [intros; apply caps_got_packet|].
  split; [intros; apply caps_handle_scan_restrictions|].
  split; [intros; apply caps_scan|].
  split; [done|].
  split; [|split; by vm_compute].
  pose proof (init_caps_normalised e) as Hn.
  unfold caps in Hcaps.
  destruct (initialised e hosts);
    apply pair_equal_spec in Hcaps as [-> ->]; [exact Hn | lia].
Qed.

(** ** The finish signal *)

Lemma fin_inv_frame w w' tr :
  out w' = out w ++ tr ->
  finish_count tr = 0%nat ->
  fin_msg_already_on_queue w' = fin_msg_already_on_queue w ->
  fin_inv w -> fin_inv w'.
Proof.
  unfold fin_inv. intros -> Htr ->. rewrite finish_count_app, Htr. lia.
Qed.

Lemma fin_inv_emit ev w :
  ev <> KbPush QueueFinish -> fin_inv w -> fin_inv (emit ev w).
Proof.
  intros Hne. apply (fin_inv_frame w _ [ev]); [done| |done].
  destruct ev as [[]| |]; done.
Qed.

Lemma fin_inv_put_finish e w :
  fin_inv w -> fin_inv (put_finish_signal_on_queue e w).2.
Proof.
  unfold put_finish_signal_on_queue, fin_inv.
  destruct (fin_msg_already_on_queue w) eqn:Hf;
    cbn [snd out fin_msg_already_on_queue]; [by rewrite Hf|].
  destruct (finish_push_ok e (fin_attempts w));
    cbn [snd out fin_msg_already_on_queue].
  - intros H. rewrite finish_count_app, H. done.
  - done.
Qed.

Lemma fin_inv_handle_scan_restrictions e a w :
  fin_inv w -> fin_inv (handle_scan_restrictions e a w).
Proof.
  destruct (handle_scan_restrictions_fields e a w)
    as (_ & _ & _ & _ & Hfin & Hout).
  unfold fin_inv. rewrite Hfin, Hout, !finish_count_app. intros ->.
  destruct (max_scan_hosts_reached (scan_restrictions w)); cbn;
    [by destruct (fin_msg_already_on_queue w)|].
  destruct (int_incr (alive_hosts_count (scan_restrictions w))
            =? max_scan_hosts (scan_restrictions w)); cbn;
    destruct (fin_msg_already_on_queue w); cbn; try done.
  by destruct (finish_push_ok e (fin_attempts w)).
Qed.

Lemma fin_inv_got_packet e p w : fin_inv w -> fin_inv (got_packet e p w).
Proof.
  destruct (got_packet_cases e p w) as [-> | [(_ & _ & ->) | (_ & _ & _ & ->)]];
    [done | done |].
  intros H. by apply fin_inv_handle_scan_restrictions.
Qed.

Lemma fin_inv_scan e alive_test w :
  fin_inv w -> fin_inv (scan e alive_test w).2.
Proof.
  intros Hw. unfold scan.
  destruct (negb (pcap_open_ok e)); [by apply fin_inv_emit|].
  assert (fin_inv (scan_detect e alive_test w).2) as Hd.
  { apply (scan_detect_preserves e fin_inv); try done.
    - apply fin_inv_got_packet.
    - intros p w'. by apply fin_inv_emit.
    - intros w'. by apply fin_inv_emit.
    - intros _. apply fin_inv_handle_scan_restrictions. }
  destruct (scan_detect e alive_test w) as [n w1]. cbn in Hd.
  assert (fin_inv (scan_errmsg e
                     (int_wrap (Z.of_nat (size (targethosts (hosts_data w)))))
                     n w1)) as He.
  { unfold scan_errmsg. repeat case_match; try done; by apply fin_inv_emit. }
  revert He. generalize (scan_errmsg e
      (int_wrap (Z.of_nat (size (targethosts (hosts_data w))))) n w1).
  intros w2 Hw2. unfold send_dead_hosts_to_ospd_openvas.
  destruct (negb (kb_conn_dead_hosts e)); cbn; [done|].
  by apply fin_inv_emit.
Qed.

Lemma kb_items_logs logs : kb_items (map Log logs) = [].
Proof. induction logs as [|m logs IH]; [done|exact IH]. Qed.

Lemma fin_inv_init_world e hosts : fin_inv (init_world e hosts).
Proof.
  unfold init_world.
  destruct (Z.eq_dec (alive_detection_init e hosts (alive_test_of e)
                        (world_at_start e)).1 0) as [Hi|Hi].
  - destruct (alive_detection_init_ok e hosts _ _ Hi)
      as (_ & _ & _ & Hf & _ & Ho).
    apply (fin_inv_frame (world_at_start e) _ _ Ho); [|done|done].
    unfold finish_count. by rewrite kb_items_logs.
  - by rewrite alive_detection_init_failed.
Qed.

Lemma fin_inv_finish_or_warn e w : fin_inv w -> fin_inv (finish_or_warn e w).
Proof.
  intros Hw. unfold finish_or_warn.
  pose proof (fin_inv_put_finish e w Hw) as H.
  destruct (put_finish_signal_on_queue e w) as [err w']. cbn in H.
  case_match; [done|]. by apply fin_inv_emit.
Qed.

Lemma fin_inv_start e hosts : fin_inv (start_alive_detection e hosts).
Proof.
  rewrite start_alive_detection_unfold.
  destruct (negb ((alive_test_methods e).1 =? 0)).
  { apply fin_inv_finish_or_warn. by apply fin_inv_emit. }
  destruct (negb (initialised e hosts)).
  { apply fin_inv_finish_or_warn. by apply fin_inv_emit. }
  pose proof (fin_inv_scan e (alive_test_of e) (init_world e hosts)
                (fin_inv_init_world e hosts)) as Hs.
  destruct (scan e (alive_test_of e) (init_world e hosts)) as [ret w1].
  apply fin_inv_put_finish.
  destruct (ret <? 0); [by apply fin_inv_emit | done].
Qed.

(** The finish signal is never on the queue twice, whatever the queue
    does. *)
Lemma finish_signal_at_most_once e hosts :
  (finish_count (out (start_alive_detection e hosts)) <= 1)%nat.
Proof.
  rewrite (fin_inv_start e hosts). case_match; lia.
Qed.

(** After the last call of [put_finish_signal_on_queue] the flag is set
    when the queue takes the signal. *)
Lemma put_finish_sets_flag e w :
  (forall n, finish_push_ok e n = true) ->
  fin_msg_already_on_queue (put_finish_signal_on_queue e w).2 = true
  /\ (put_finish_signal_on_queue e w).1 = 0.
Proof.
  intros Hq. unfold put_finish_signal_on_queue.
  destruct (fin_msg_already_on_queue w) eqn:Hf; [done|].
  by rewrite Hq.
Qed.


(** C2: when the callback finds a source address that is new to the alive
    table and is a target (and max_alive_hosts was not reached before), the
    restriction controller (1) adds one to alive_hosts_count, (2) puts the
    address on the queue if max_scan_hosts was not reached, and into the
    table of hosts not to be sent otherwise, (3) if max_scan_hosts was not
    reached and the count now equals it, sets max_scan_hosts_reached and puts
    the finish signal on the queue after the address, a failure of which
    leaves only a debug message, and (4) sets max_alive_hosts_reached if the
    count equals max_alive_hosts. *)
Theorem restriction_controller_steps e p w :
  let a := sniffed_addr_str p in
  let r := scan_restrictions w in
  max_alive_hosts_reached r = false ->
  a ∉ alive_seen w ->
  is_Some (targethosts (hosts_data w) !! a) ->
  0 <= alive_hosts_count r < INT_MAX ->
  let w' := got_packet e p w in
  let r' := scan_restrictions w' in
  let cap_now :=
    negb (max_scan_hosts_reached r)
    && (alive_hosts_count r + 1 =? max_scan_hosts r) in
  alive_hosts_count r' = alive_hosts_count r + 1
  /\ deferred_publish w'
     = (if max_scan_hosts_reached r then {[a]} ∪ deferred_publish w
        else deferred_publish w)
  /\ max_scan_hosts_reached r' = max_scan_hosts_reached r || cap_now
  /\ max_alive_hosts_reached r'
     = (alive_hosts_count r + 1 =? max_alive_hosts r)
  /\ out w'
     = out w
       ++ (if max_scan_hosts_reached r then [] else [KbPush (QueueHost a)])
       ++ (if cap_now then
             if fin_msg_already_on_queue w then []
             else if finish_push_ok e (fin_attempts w)
                  then [KbPush QueueFinish]
                  else [Log (DebugFinishSignalError (-1))]
           else [])
  /\ alive_seen w' = {[a]} ∪ alive_seen w
  /\ targethosts (hosts_data w') = targethosts (hosts_data w)
  /\ caps w' = caps w.
Proof.
  cbn zeta. intros Hr Hnew Ht Hc.
  rewrite (got_packet_handled e p w Hr Hnew Ht).
  destruct (handle_scan_restrictions_fields e (sniffed_addr_str p)
              (alivehosts_add (sniffed_addr_str p) w).2)
    as (Hsr & Hhd & _ & _ & _ & Hout).
  unfold deferred_publish, alive_seen, caps.
  rewrite Hsr, Hhd, Hout. unfold alivehosts_add, set_hosts_data.
  cbn -[int_incr union singleton].
  rewrite (int_incr_small _ Hc), Hr. done.
Qed.

Lemma restriction_controller_steps_witness :
  let e := example_env ALIVE_TEST_ICMP [("max_scan_hosts", "1")]%string [] in
  let p := ipv4_reply "10.0.0.1" in
  let w := init_world e three_hosts in
  let w' := got_packet e p w in
  alive_hosts_count (scan_restrictions w') = 1
  /\ max_scan_hosts_reached (scan_restrictions w') = true
  /\ out w' = [KbPush (QueueHost "10.0.0.1"); KbPush QueueFinish].
Proof.
  pose proof
    (restriction_controller_steps
       (example_env ALIVE_TEST_ICMP [("max_scan_hosts", "1")]%string [])
       (ipv4_reply "10.0.0.1")
       (init_world
          (example_env ALIVE_TEST_ICMP [("max_scan_hosts", "1")]%string [])
          three_hosts)) as H.
  cbn zeta in H.
  destruct H as (H1 & _ & H3 & _ & H5 & _).
  - reflexivity.
  - apply (bool_decide_unpack _). vm_compute. exact I.
  - apply (bool_decide_unpack _). vm_compute. exact I.
  - vm_compute. split; [intros Hx; discriminate Hx | reflexivity].
  - cbn zeta. rewrite H1, H3, H5. vm_compute. repeat split.
Defined.

(** ** The pings of a scan *)

Lemma sender_frame_refl w : sender_frame w w.
Proof. by unfold sender_frame. Qed.

Lemma sender_frame_trans w1 w2 w3 :
  sender_frame w1 w2 -> sender_frame w2 w3 -> sender_frame w1 w3.
Proof.
  unfold sender_frame.
  intros (H1 & H2 & H3 & H4 & H5) (G1 & G2 & G3 & G4 & G5).
  rewrite G1, G2, G3, G4. repeat split; auto.
Qed.

Lemma sender_frame_handle_scan_restrictions e a w :
  sender_frame w (handle_scan_restrictions e a w).
Proof.
  destruct (handle_scan_restrictions_fields e a w)
    as (Hsr & Hhd & Hsc & _ & _ & Hout).
  unfold sender_frame. rewrite Hsr, Hhd, Hsc, Hout. cbn.
  rewrite !pings_of_app, !dead_counts_app.
  repeat split.
  - repeat case_match; by rewrite ?app_nil_r.
  - repeat case_match; by rewrite ?app_nil_r.
  - by intros ->.
Qed.

Lemma sender_frame_got_packet e p w : sender_frame w (got_packet e p w).
Proof.
  destruct (got_packet_cases e p w) as [-> | [(_ & _ & ->) | (_ & _ & _ & ->)]].
  - apply sender_frame_refl.
  - by unfold sender_frame.
  - eapply sender_frame_trans; [|apply sender_frame_handle_scan_restrictions].
    by unfold sender_frame.
Qed.

Lemma sender_frame_sniffer_turn e w : sender_frame w (sniffer_turn e w).
Proof.
  apply (sniffer_turn_preserves e (sender_frame w)).
  - intros p w' H. eapply sender_frame_trans; [exact H|]. by unfold sender_frame.
  - intros p w' H. eapply sender_frame_trans; [exact H|].
    apply sender_frame_got_packet.
  - apply sender_frame_refl.
Qed.

Lemma sender_frame_sniffer_drain e w : sender_frame w (sniffer_drain e w).
Proof.
  apply (sniffer_drain_preserves e (sender_frame w)).
  - intros p w' H. eapply sender_frame_trans; [exact H|]. by unfold sender_frame.
  - intros p w' H. eapply sender_frame_trans; [exact H|].
    apply sender_frame_got_packet.
  - apply sender_frame_refl.
Qed.

(** A sender warns when the host has no address, and pings. *)
Lemma send_by_ping m key value w :
  send_by m key value w
  = emit (Ping (ping_for (tcp_flag (scanner w)) (ports (scanner w)) m value))
      (warn_no_addr6 value w).
Proof.
  unfold send_by, send_tcp, send_icmp, send_arp, ping_for, warn_no_addr6,
    gvm_host_get_addr6.
  destruct m; destruct (host_get_addr6_ret value <? 0) eqn:Hret;
    cbn beta iota zeta; rewrite ?Hret; cbn [snd]; by destruct (negb _).
Qed.

Lemma warn_no_addr6_fields value w :
  let w' := warn_no_addr6 value w in
  scan_restrictions w' = scan_restrictions w
  /\ hosts_data w' = hosts_data w
  /\ scanner w' = scanner w
  /\ pending w' = pending w
  /\ fin_msg_already_on_queue w' = fin_msg_already_on_queue w
  /\ fin_attempts w' = fin_attempts w
  /\ kb_items (out w') = kb_items (out w)
  /\ pings_of (out w') = pings_of (out w)
  /\ out w'
     = out w
       ++ (if host_get_addr6_ret value <? 0 then [Log WarnNoAddr6] else []).
Proof.
  unfold warn_no_addr6. destruct (host_get_addr6_ret value <? 0); cbn [emit].
  - unfold emit. cbn [scan_restrictions hosts_data scanner pending
                      fin_msg_already_on_queue fin_attempts out].
    rewrite kb_items_app, pings_of_app.
    change (kb_items [Log WarnNoAddr6]) with (@nil kb_item).
    change (pings_of [Log WarnNoAddr6]) with (@nil ping).
    by rewrite !app_nil_r.
  - by rewrite app_nil_r.
Qed.

Lemma method_of_ping_for flag tcp_ports m value :
  method_of (ping_for flag tcp_ports m value) = m.
Proof. unfold ping_for. destruct m; by destruct (negb _). Qed.

(** One loop: it pings a prefix of the targets, all of them unless
    max_alive_hosts was reached. *)
Lemma ping_loop_shape e m targets st :
  let st' := ping_loop e (send_by m) targets st in
  exists n,
    (n <= length targets)%nat
    /\ pings_of (out st'.2)
       = pings_of (out st.2)
         ++ map (fun kv => ping_for (tcp_flag (scanner st.2))
                             (ports (scanner st.2)) m kv.2)
              (take n targets)
    /\ scanner st'.2 = scanner st.2
    /\ targethosts (hosts_data st'.2) = targethosts (hosts_data st.2)
    /\ dead_counts (out st'.2) = dead_counts (out st.2)
    /\ (max_alive_hosts_reached (scan_restrictions st'.2) = false ->
        n = length targets)
    /\ (max_alive_hosts_reached (scan_restrictions st.2) = true ->
        max_alive_hosts_reached (scan_restrictions st'.2) = true).
Proof.
  cbn zeta. revert st.
  induction targets as [|[key value] targets IH]; intros [c w]; cbn.
  { exists 0%nat. by rewrite app_nil_r. }
  destruct (sender_frame_sniffer_turn e w) as (Hsc & Ht & Hp & Hd & Hm).
  destruct (max_alive_hosts_reached (scan_restrictions (sniffer_turn e w)))
    eqn:Hr.
  { exists 0%nat. cbn. rewrite Hr, app_nil_r. repeat split; try done. lia. }
  destruct (IH (int_incr c, send_by m key value (sniffer_turn e w)))
    as (n & Hn & Hpings & Hsc' & Ht' & Hd' & Hfull & Hmono).
  exists (S n). rewrite send_by_ping in *.
  destruct (warn_no_addr6_fields value (sniffer_turn e w))
    as (_ & Hwh & Hwsc & _ & _ & _ & _ & Hwp & Hwo).
  cbn zeta in Hwh, Hwsc, Hwp, Hwo. cbn in *.
  rewrite !Hsc in *.
  rewrite Hpings, Hsc', Ht', Hd', Hwsc, Hwh, Ht, pings_of_app,
    dead_counts_app, Hwp, Hwo, dead_counts_app, Hd, Hp.
  assert (dead_counts (if host_get_addr6_ret value <? 0
                       then [Log WarnNoAddr6] else []) = []) as ->
      by by case_match.
  rewrite <- !app_assoc, !app_nil_r. cbn. repeat split; try done.
  - lia.
  - intros H. f_equal. by apply Hfull.
  - intros H. by apply Hm in H.
Qed.

Lemma segments_snoc flag tcp_ports targets ms ns m n :
  length ms = length ns ->
  segments flag tcp_ports targets (ms ++ [m]) (ns ++ [n])
  = segments flag tcp_ports targets ms ns
    ++ map (fun kv => ping_for flag tcp_ports m kv.2) (take n targets).
Proof.
  intros Hl. unfold segments.
  rewrite zip_with_app by done. rewrite concat_app. cbn.
  by rewrite app_nil_r.
Qed.

Lemma segments_cons flag tcp_ports targets m ms n ns :
  segments flag tcp_ports targets (m :: ms) (n :: ns)
  = map (fun kv => ping_for flag tcp_ports m kv.2) (take n targets)
    ++ segments flag tcp_ports targets ms ns.
Proof. reflexivity. Qed.

Lemma method_of_segment flag tcp_ports m (l : list (string * gvm_host_t)) x :
  x ∈ map method_of (map (fun kv => ping_for flag tcp_ports m kv.2) l) ->
  x = m.
Proof.
  rewrite map_map. intros (kv & -> & _)%list_elem_of_fmap.
  apply method_of_ping_for.
Qed.

Lemma method_of_segments_elem flag tcp_ports targets ms ns x :
  x ∈ map method_of (segments flag tcp_ports targets ms ns) -> x ∈ ms.
Proof.
  revert ns. induction ms as [|m ms IH]; intros [|n ns]; try by inversion 1.
  rewrite segments_cons, map_app.
  intros [Hx | Hx]%elem_of_app.
  - apply method_of_segment in Hx as ->. by left.
  - right. by apply (IH ns).
Qed.

Lemma method_of_segments flag tcp_ports targets ms ns :
  forall rk,
    StronglySorted (fun a b => (rk a <= rk b)%nat) ms ->
    in_order rk (map method_of (segments flag tcp_ports targets ms ns)).
Proof.
  intros rk. unfold in_order. revert ns.
  induction ms as [|m ms IH]; intros [|n ns] Hs; try by constructor.
  apply StronglySorted_inv in Hs as [Hs Hall].
  rewrite segments_cons, map_app. apply StronglySorted_app_2.
  - intros x1 x2 ->%method_of_segment Hx2%method_of_segments_elem.
    rewrite Forall_forall in Hall. by apply Hall.
  - induction (take n targets) as [|kv l IHl]; [constructor|].
    cbn. constructor; [done|]. apply Forall_forall.
    intros x ->%method_of_segment. by rewrite method_of_ping_for.
  - by apply IH.
Qed.

Lemma ping_for_flag_irrelevant f1 p1 f2 p2 m value :
  m <> TCP -> ping_for f1 p1 m value = ping_for f2 p2 m value.
Proof. by destruct m. Qed.

Lemma shaped_start flag tcp_ports st :
  ports (scanner st.2) = tcp_ports ->
  shaped flag (pings_of (out st.2)) (dead_counts (out st.2)) tcp_ports
    (targethosts (hosts_data st.2)) [] st.
Proof.
  intros Hp. exists []. unfold segments. cbn. by rewrite app_nil_r.
Qed.

Lemma shaped_flag flag f P0 D0 tcp_ports T ms st :
  shaped flag P0 D0 tcp_ports T ms st ->
  shaped flag P0 D0 tcp_ports T ms (set_tcp_flag f st).
Proof.
  intros (ns & H1 & H2 & H3 & H4 & H5 & H6). exists ns.
  destruct st as [c w]. by cbn in *.
Qed.

Lemma shaped_loop e flag P0 D0 tcp_ports T ms m st :
  shaped flag P0 D0 tcp_ports T ms st ->
  (m = TCP -> tcp_flag (scanner st.2) = flag) ->
  shaped flag P0 D0 tcp_ports T (ms ++ [m])
    (ping_loop e (send_by m) (map_to_list T) st).
Proof.
  intros (ns & Hl & Hp & Hports & HT & Hd & Hfull) Hflag.
  destruct (ping_loop_shape e m (map_to_list T) st)
    as (n & Hn & Hp' & Hsc & HT' & Hd' & Hfull' & Hmono).
  exists (ns ++ [n]).
  rewrite Hp', Hp, Hsc, HT', Hd', segments_snoc, !length_app by done.
  cbn. rewrite <- app_assoc. repeat split; try done.
  - lia.
  - do 2 f_equal. apply map_ext. intros kv.
    destruct (decide (m = TCP)) as [->|Hne].
    + by rewrite Hflag, Hports.
    + by apply ping_for_flag_irrelevant.
  - intros Hr. rewrite Hfull' by done.
    rewrite Hfull.
    + rewrite Nat.add_1_r. by rewrite replicate_S_end.
    + destruct (max_alive_hosts_reached (scan_restrictions st.2)) eqn:Hr0;
        [|done].
      rewrite Hmono in Hr; done.
Qed.

Lemma scan_methods_numerals e alive_test st :
  scan_methods e alive_test st
  = let targets := map_to_list (targethosts (hosts_data st.2)) in
    let loop m := ping_loop e (send_by m) targets in
    if alive_test =? 7
    then loop ARP (loop ICMP (loop TCP (set_tcp_flag TH_ACK st)))
    else if alive_test =? 5 then loop ARP (loop TCP (set_tcp_flag TH_ACK st))
    else if alive_test =? 6 then loop ARP (loop ICMP st)
    else if alive_test =? 3 then loop TCP (set_tcp_flag TH_ACK (loop ICMP st))
    else if alive_test =? 4 then loop ARP st
    else if alive_test =? 1 then loop TCP (set_tcp_flag TH_ACK st)
    else if alive_test =? 16 then loop TCP (set_tcp_flag TH_SYN st)
    else if alive_test =? 2 then loop ICMP st
    else if alive_test =? 8
    then ping_loop e (fun key _ => handle_scan_restrictions e key) targets st
    else st.
Proof. reflexivity. Qed.

(** The case analysis of [scan]: the eight combinations that ping, in the
    order of the comparisons. *)
Ltac alive_test_cases alive_test tac :=
  destruct (Z.eqb_spec alive_test 7) as [->|?]; [tac|];
  destruct (Z.eqb_spec alive_test 5) as [->|?]; [tac|];
  destruct (Z.eqb_spec alive_test 6) as [->|?]; [tac|];
  destruct (Z.eqb_spec alive_test 3) as [->|?]; [tac|];
  destruct (Z.eqb_spec alive_test 4) as [->|?]; [tac|];
  destruct (Z.eqb_spec alive_test 1) as [->|?]; [tac|];
  destruct (Z.eqb_spec alive_test 16) as [->|?]; [tac|];
  destruct (Z.eqb_spec alive_test 2) as [->|?]; [tac|].

Ltac shaped_loops e :=
  cbn [Z.eqb Pos.eqb];
  repeat first
    [ apply (shaped_loop e _ _ _ _ _ []); [|done]
    | apply (shaped_loop e _ _ _ _ _ [_]); [|done]
    | apply (shaped_loop e _ _ _ _ _ [_; _]); [|done]
    | apply shaped_flag ].

(** The pings of the sender loops, for every combination but
    CONSIDER_ALIVE. *)
Lemma scan_methods_shape e alive_test st :
  alive_test <> ALIVE_TEST_CONSIDER_ALIVE ->
  shaped (tcp_flag_of alive_test) (pings_of (out st.2))
    (dead_counts (out st.2)) (ports (scanner st.2))
    (targethosts (hosts_data st.2)) (sender_order alive_test)
    (scan_methods e alive_test st).
Proof.
  intros Hca. rewrite scan_methods_numerals. cbn zeta.
  unfold sender_order, tcp_flag_of.
  pose proof (shaped_start TH_ACK (ports (scanner st.2)) st eq_refl) as Ha.
  pose proof (shaped_start TH_SYN (ports (scanner st.2)) st eq_refl) as Hs.
  alive_test_cases alive_test ltac:(by shaped_loops e).
  destruct (Z.eqb_spec alive_test 8) as [->|?]; [done|].
  done.
Qed.

Lemma sender_frame_consider_alive_loop e targets st :
  sender_frame st.2
    (ping_loop e (fun key _ => handle_scan_restrictions e key) targets st).2.
Proof.
  apply (ping_loop_preserves e (sender_frame st.2)).
  - intros p w' H. eapply sender_frame_trans; [exact H|]. by unfold sender_frame.
  - intros p w' H. eapply sender_frame_trans; [exact H|].
    apply sender_frame_got_packet.
  - intros key _ w' H. eapply sender_frame_trans; [exact H|].
    apply sender_frame_handle_scan_restrictions.
  - apply sender_frame_refl.
Qed.

(** The combination CONSIDER_ALIVE sends no ping. *)
Lemma scan_methods_shape_all e alive_test st :
  shaped (tcp_flag_of alive_test) (pings_of (out st.2))
    (dead_counts (out st.2)) (ports (scanner st.2))
    (targethosts (hosts_data st.2)) (sender_order alive_test)
    (scan_methods e alive_test st).
Proof.
  destruct (decide (alive_test = ALIVE_TEST_CONSIDER_ALIVE)) as [->|Hca];
    [|by apply scan_methods_shape].
  rewrite scan_methods_numerals. cbn.
  destruct (sender_frame_consider_alive_loop e
              (map_to_list (targethosts (hosts_data st.2))) st)
    as (Hsc & HT & Hp & Hd & _).
  exists []. unfold segments. cbn. rewrite app_nil_r, Hsc. done.
Qed.

Lemma segments_full flag tcp_ports targets ms :
  segments flag tcp_ports targets ms (replicate (length ms) (length targets))
  = flat_map
      (fun m => map (fun kv => ping_for flag tcp_ports m kv.2) targets) ms.
Proof.
  unfold segments. induction ms as [|m ms IH]; [done|].
  cbn. rewrite IH. by rewrite firstn_all.
Qed.

Lemma sender_order_sorted alive_test :
  StronglySorted
    (fun a b =>
       ((if (alive_test =? 3)%Z then rank_icmp_first else rank) a
        <= (if (alive_test =? 3)%Z then rank_icmp_first else rank) b)%nat)
    (sender_order alive_test).
Proof.
  unfold sender_order.
  alive_test_cases alive_test ltac:(cbn; repeat constructor; cbn; lia).
  constructor.
Qed.

(** ** A run that gets to scan *)

Lemma init_world_fields e hosts :
  initialised e hosts = true ->
  let w := init_world e hosts in
  scan_restrictions w = init_scan_restrictions e
  /\ hosts_data w = mk_hosts_data ∅ (init_targethosts hosts) ∅
  /\ ports (scanner w) = (init_ports e).2
  /\ fin_msg_already_on_queue w = false
  /\ pending w = arrivals e
  /\ out w = map Log (init_ports e).1.
Proof.
  unfold initialised. intros [_ Hi%Z.eqb_eq]%andb_true_iff.
  destruct (alive_detection_init_ok e hosts _ _ Hi)
    as (H1 & H2 & H3 & H4 & H5 & H6).
  unfold init_world. cbn zeta. rewrite H1, H2, H3, H4, H5, H6. done.
Qed.

Lemma not_aborts e hosts :
  aborts e hosts = false ->
  initialised e hosts = true /\ pcap_open_ok e = true.
Proof.
  unfold aborts. intros [H1 H2]%orb_false_iff.
  by apply negb_false_iff in H1, H2.
Qed.

(** The run that gets to scan: the detection, the ERRMSG, the dead host
    report, the finish signal. *)
Lemma start_alive_detection_scans e hosts :
  aborts e hosts = false ->
  let w1 := detection_world e hosts in
  let n := (scan_detect e (alive_test_of e) (init_world e hosts)).1 in
  let T := init_targethosts hosts in
  start_alive_detection e hosts
  = (put_finish_signal_on_queue e
       (send_dead_hosts_to_ospd_openvas e
          (scan_errmsg e (int_wrap (Z.of_nat (size T))) n w1)).2).2.
Proof.
  intros Ha. destruct (not_aborts e hosts Ha) as [Hi Hp].
  cbn zeta. unfold detection_world. rewrite Ha.
  rewrite start_alive_detection_unfold.
  assert (((alive_test_methods e).1 =? 0) = true) as ->.
  { unfold initialised in Hi. by apply andb_true_iff in Hi as [? _]. }
  rewrite Hi. cbn. unfold scan. rewrite Hp. cbn.
  destruct (init_world_fields e hosts Hi) as (_ & -> & _).
  destruct (scan_detect e (alive_test_of e) (init_world e hosts)) as [n w1].
  cbn. by destruct (send_dead_hosts_to_ospd_openvas e _).
Qed.

Lemma projections_logs logs :
  pings_of (map Log logs) = [] /\ queue_hosts (map Log logs) = []
  /\ dead_counts (map Log logs) = [].
Proof. induction logs; done. Qed.

(** The run that aborts sends no ping and reports no host. *)
Lemma start_alive_detection_aborts e hosts :
  aborts e hosts = true ->
  let w := start_alive_detection e hosts in
  pings_of (out w) = [] /\ queue_hosts (out w) = []
  /\ dead_counts (out w) = [].
Proof.
  intros Ha. cbn zeta. rewrite start_alive_detection_unfold.
  destruct (negb ((alive_test_methods e).1 =? 0)).
  { unfold finish_or_warn, put_finish_signal_on_queue. cbn.
    by destruct (finish_push_ok e 0). }
  destruct (initialised e hosts) eqn:Hi; cbn.
  2:{ unfold finish_or_warn, put_finish_signal_on_queue. cbn.
      by destruct (finish_push_ok e 0). }
  unfold aborts in Ha. rewrite Hi in Ha. cbn in Ha.
  unfold scan. rewrite Ha. cbn.
  destruct (init_world_fields e hosts Hi) as (_ & _ & _ & Hf & _ & Ho).
  destruct (projections_logs (init_ports e).1) as (H1 & H2 & H3).
  unfold put_finish_signal_on_queue. cbn. rewrite Hf, Ho.
  destruct (finish_push_ok e _); cbn;
    rewrite ?pings_of_app, ?queue_hosts_app, ?dead_counts_app, H1, H2, H3;
    done.
Qed.

(** The reports after the detection add no ping and no address. *)
Lemma reports_frame e n m w :
  let w' :=
    (put_finish_signal_on_queue e
       (send_dead_hosts_to_ospd_openvas e (scan_errmsg e n m w)).2).2 in
  pings_of (out w') = pings_of (out w)
  /\ queue_hosts (out w') = queue_hosts (out w)
  /\ scan_restrictions w' = scan_restrictions w.
Proof.
  cbn zeta.
  unfold put_finish_signal_on_queue, send_dead_hosts_to_ospd_openvas,
    scan_errmsg.
  repeat case_match; cbn;
    rewrite ?pings_of_app, ?queue_hosts_app; cbn;
    rewrite ?pings_of_app, ?queue_hosts_app; cbn;
    rewrite ?pings_of_app, ?queue_hosts_app; cbn;
    by rewrite ?app_nil_r.
Qed.

(** The pings of a run that gets to scan. *)
Lemma pings_of_run e hosts :
  aborts e hosts = false ->
  shaped (tcp_flag_of (alive_test_of e)) [] [] (init_ports e).2
    (init_targethosts hosts) (sender_order (alive_test_of e))
    (0, detection_world e hosts).
Proof.
  intros Ha. destruct (not_aborts e hosts Ha) as [Hi Hp].
  destruct (init_world_fields e hosts Hi) as (_ & Hh & Hports & _ & _ & Ho).
  pose proof (scan_methods_shape_all e (alive_test_of e)
                (0, init_world e hosts)) as Hs.
  cbn in Hs. rewrite Hh, Hports, Ho in Hs. cbn in Hs.
  destruct (projections_logs (init_ports e).1) as (H1 & _ & H3).
  rewrite H1, H3 in Hs.
  unfold detection_world, scan_detect. rewrite Ha.
  destruct (scan_methods e (alive_test_of e) (0, init_world e hosts))
    as [n w1].
  destruct Hs as (ns & G1 & G2 & G3 & G4 & G5 & G6). cbn in *.
  destruct (sender_frame_sniffer_drain e w1) as (Hsc & HT & Hpi & Hd & Hm).
  exists ns. cbn. rewrite Hsc, HT, Hpi, Hd. repeat split; try done.
  intros Hr. apply G6.
  destruct (max_alive_hosts_reached (scan_restrictions w1)); [|done].
  by rewrite Hm in Hr.
Qed.

(** C8: in every run the pings leave method after method, and a method is
    finished with before the next one starts: in the order TCP, ICMP, ARP for
    every combination of methods except ICMP with TCP-ACK, which pings ICMP
    first and TCP second; when max_alive_hosts was not reached, each method
    of the combination has pinged every target. *)
Theorem sender_order_of_scan e hosts :
  let alive_test := alive_test_of e in
  let w := start_alive_detection e hosts in
  in_order
    (if alive_test =? Z.lor ALIVE_TEST_ICMP ALIVE_TEST_TCP_ACK_SERVICE
     then rank_icmp_first else rank)
    (map method_of (pings_of (out w)))
  /\ (aborts e hosts = false ->
      max_alive_hosts_reached (scan_restrictions w) = false ->
      pings_of (out w)
      = flat_map
          (fun m =>
             map (fun kv =>
                    ping_for (tcp_flag_of alive_test) (init_ports e).2 m kv.2)
               (map_to_list (init_targethosts hosts)))
          (sender_order alive_test)).
Proof.
  cbn zeta. destruct (aborts e hosts) eqn:Ha.
  { destruct (start_alive_detection_aborts e hosts Ha) as (-> & _).
    split; [constructor|done]. }
  rewrite (start_alive_detection_scans e hosts Ha). cbn zeta.
  match goal with |- context [scan_errmsg e ?n ?m ?w] =>
    destruct (reports_frame e n m w) as (-> & _ & ->) end.
  destruct (pings_of_run e hosts Ha) as (ns & _ & Hp & _ & _ & _ & Hfull).
  cbn in Hp, Hfull. rewrite Hp. split.
  - apply method_of_segments, sender_order_sorted.
  - intros _ Hr. rewrite (Hfull Hr). apply segments_full.
Qed.

(** The combination ICMP with TCP-ACK pings ICMP first: the order TCP, ICMP,
    ARP does not hold for it. *)
Lemma icmp_before_tcp :
  let e :=
    example_env (Z.lor ALIVE_TEST_ICMP ALIVE_TEST_TCP_ACK_SERVICE) [] [] in
  let ms := map method_of (pings_of (out (start_alive_detection e one_host))) in
  ms = [ICMP; TCP] /\ ~ in_order rank ms.
Proof.
  cbn zeta.
  assert (map method_of
            (pings_of
               (out (start_alive_detection
                       (example_env
                          (Z.lor ALIVE_TEST_ICMP ALIVE_TEST_TCP_ACK_SERVICE)
                          [] []) one_host))) = [ICMP; TCP]) as ->
      by by vm_compute.
  split; [done|]. unfold in_order. intros Hs.
  apply StronglySorted_inv in Hs as [_ Hall].
  apply Forall_cons in Hall as [Hle _]. cbn in Hle. lia.
Qed.

(** ** The dead host report *)

Lemma exclude_all (A D : gset string) : set_fold exclude A D = A ∖ D.
Proof.
  apply (set_fold_ind_L (fun acc X => acc = A ∖ X)).
  - by rewrite difference_empty_L.
  - intros x X r _ ->. unfold exclude. set_solver.
Qed.

Lemma count_dead_spec (A : gset string) targets c :
  0 <= c -> c + Z.of_nat (length targets) < 2 ^ 31 ->
  count_dead A targets c
  = c + Z.of_nat (length (filter (fun kv => kv.1 ∉ A) targets)).
Proof.
  revert c. induction targets as [|[k v] targets IH]; intros c Hc Hb.
  { cbn. lia. }
  rewrite filter_cons. cbn [count_dead fst]. rewrite length_cons in Hb.
  destruct (decide (k ∈ A)) as [Hin|Hnin].
  - rewrite bool_decide_eq_true_2 by done.
    destruct (decide (k ∉ A)); [done|]. apply IH; lia.
  - rewrite bool_decide_eq_false_2 by done.
    destruct (decide (k ∉ A)); [|done].
    rewrite IH.
    + rewrite int_incr_small by (unfold INT_MAX; lia).
      rewrite length_cons. lia.
    + rewrite int_incr_small by (unfold INT_MAX; lia). lia.
    + rewrite int_incr_small by (unfold INT_MAX; lia). lia.
Qed.

Lemma length_filter_keys {V} (A : gset string) (l : list (string * V)) :
  NoDup l.*1 ->
  length (filter (fun kv => kv.1 ∉ A) l)
  = size ((list_to_set l.*1 : gset string) ∖ A).
Proof.
  induction l as [|[k v] l IH]; intros Hnd.
  { cbn. by rewrite difference_disjoint_L, size_empty by set_solver. }
  rewrite fmap_cons in Hnd. apply NoDup_cons in Hnd as [Hk Hnd].
  rewrite filter_cons, fmap_cons, list_to_set_cons. cbn [fst].
  assert (k ∉ (list_to_set l.*1 : gset string)) as Hk'
      by by rewrite elem_of_list_to_set.
  destruct (decide (k ∉ A)) as [Hnin|Hin].
  - rewrite length_cons, IH by done.
    replace (({[k]} ∪ list_to_set l.*1) ∖ A)
      with ({[k]} ∪ ((list_to_set l.*1 : gset string) ∖ A)) by set_solver.
    pose proof (size_union (C:=gset string) {[k]} (list_to_set l.*1 ∖ A))
      as Hu.
    rewrite Hu by set_solver. by rewrite size_singleton.
  - rewrite IH by done. f_equal. apply dec_stable in Hin. set_solver.
Qed.

(** The loop counts the targets that are not in the alive table. *)
Lemma count_dead_targets (A : gset string) (T : gmap string gvm_host_t) :
  Z.of_nat (size T) < 2 ^ 31 ->
  count_dead A (map_to_list T) 0
  = Z.of_nat (size (dom T)) - Z.of_nat (size (dom T ∩ A)).
Proof.
  intros Hb. rewrite count_dead_spec; [|lia|by rewrite length_map_to_list].
  rewrite length_filter_keys by apply NoDup_fst_map_to_list.
  rewrite <- (leibniz_equiv _ _ (dom_alt T)).
  rewrite size_difference_alt.
  pose proof (subseteq_size (dom T ∩ A) (dom T)) as Hle.
  assert (dom T ∩ A ⊆ dom T) as Hs by set_solver.
  apply Hle in Hs. lia.
Qed.

Lemma size_init_targethosts hosts :
  (size (init_targethosts hosts) <= length hosts)%nat.
Proof.
  unfold init_targethosts.
  assert (forall t : gmap string gvm_host_t,
            (size (fold_left (fun t host => <[host_value_str host := host]> t)
                     hosts t) <= size t + length hosts)%nat) as H.
  { induction hosts as [|h hosts IH]; intros t; cbn [fold_left length]; [lia|].
    etrans; [apply IH|]. rewrite map_size_insert.
    destruct (t !! host_value_str h); cbn; lia. }
  specialize (H ∅). by rewrite map_size_empty in H.
Qed.

(** The dead host report of a world. *)
Lemma send_dead_hosts_out e w :
  kb_conn_dead_hosts e = true ->
  Z.of_nat (size (targethosts (hosts_data w))) < 2 ^ 31 ->
  out (send_dead_hosts_to_ospd_openvas e w).2
  = out w
    ++ [KbPush
          (ResultDeadHost
             (Z.of_nat (size (targets_of w))
              - Z.of_nat
                  (size (targets_of w
                         ∩ (alive_seen w ∖ deferred_read e w)))))].
Proof.
  intros Hk Hb. unfold send_dead_hosts_to_ospd_openvas. rewrite Hk.
  cbn [negb snd out emit set_hosts_data].
  rewrite exclude_all, count_dead_targets by done. done.
Qed.

Lemma none_alive_excluded (T X : gset string) : T ∩ (∅ ∖ X) = ∅.
Proof. set_solver. Qed.

Lemma deferred_read_empty e w :
  deferred_publish w = ∅ -> deferred_read e w = ∅.
Proof. unfold deferred_read. intros ->. apply set_map_empty. Qed.

(** ** Frames that do not come *)

Lemma sniff_nothing e batches w :
  concat batches = [] ->
  fold_left (fun w batch => sniff e batch w) batches w = w.
Proof.
  revert w. induction batches as [|b batches IH]; intros w Hc; [done|].
  cbn in Hc. apply app_eq_nil in Hc as [-> Hc]. cbn. by apply IH.
Qed.

Lemma sender_order_unsupported alive_test :
  alive_test ∉ supported_alive_tests -> sender_order alive_test = [].
Proof.
  intros Hn. unfold sender_order.
  alive_test_cases alive_test
    ltac:(exfalso; apply Hn; unfold supported_alive_tests; cbn; set_solver).
  done.
Qed.

Lemma scan_methods_unsupported e alive_test st :
  alive_test ∉ supported_alive_tests -> scan_methods e alive_test st = st.
Proof.
  intros Hn. rewrite scan_methods_numerals. cbn zeta.
  alive_test_cases alive_test
    ltac:(exfalso; apply Hn; unfold supported_alive_tests; cbn; set_solver).
  destruct (Z.eqb_spec alive_test 8) as [->|?]; [|done].
  exfalso; apply Hn; unfold supported_alive_tests; cbn; set_solver.
Qed.

(** C10: for a combination of methods that is none of the nine [scan]
    compares with, no ping is sent; a host can then only be found alive
    through a frame the sniffer captures all the same.  When the run gets to
    scan, no frame is captured, the result store is reached and the queue
    takes the finish signal, no host is in the alive table, the run reports
    every target as dead and then puts the finish signal on the queue. *)
Theorem unsupported_combination e hosts :
  alive_test_of e ∉ supported_alive_tests ->
  let w := start_alive_detection e hosts in
  pings_of (out w) = []
  /\ (aborts e hosts = false ->
      concat (arrivals e) = [] ->
      kb_conn_dead_hosts e = true ->
      (forall n, finish_push_ok e n = true) ->
      Z.of_nat (length hosts) < 2 ^ 31 ->
      alive_seen (detection_world e hosts) = ∅
      /\ alive_hosts_count (scan_restrictions w) = 0
      /\ kb_items (out w)
         = [ResultDeadHost (Z.of_nat (size (init_targethosts hosts)));
            QueueFinish]).
Proof.
  intros Hun. cbn zeta. split.
  { destruct (aborts e hosts) eqn:Ha.
    - by destruct (start_alive_detection_aborts e hosts Ha) as (-> & _).
    - rewrite (start_alive_detection_scans e hosts Ha). cbn zeta.
      match goal with |- context [scan_errmsg e ?n ?m ?w] =>
        destruct (reports_frame e n m w) as (-> & _) end.
      destruct (pings_of_run e hosts Ha) as (ns & Hl & Hpi & _).
      cbn [snd] in Hpi. rewrite Hpi.
      rewrite sender_order_unsupported by done. done. }
  intros Ha Hfr Hkb Hq Hsmall.
  destruct (not_aborts e hosts Ha) as [Hi Hp].
  destruct (init_world_fields e hosts Hi)
    as (Hsr & Hhd & Hports & Hfin & Hpend & Hout).
  assert (detection_world e hosts = set_pending [] (init_world e hosts))
    as Hdw.
  { unfold detection_world, scan_detect. rewrite Ha.
    rewrite scan_methods_unsupported by done. cbn.
    unfold sniffer_drain. rewrite Hpend. by apply sniff_nothing. }
  rewrite (start_alive_detection_scans e hosts Ha). cbn zeta.
  rewrite Hdw. unfold alive_seen. cbn. rewrite Hhd. cbn.
  split; [done|].
  unfold scan_errmsg. cbn. rewrite Hsr. cbn.
  pose proof (size_init_targethosts hosts) as Hsz.
  match goal with |- context [send_dead_hosts_to_ospd_openvas e ?w0] =>
    pose proof (send_dead_hosts_out e w0 Hkb) as Hd;
    pose proof (caps_send_dead_hosts e w0) as Hc end.
  unfold send_dead_hosts_to_ospd_openvas in *. rewrite Hkb in *.
  cbn in Hd, Hc |- *. rewrite Hhd in Hd |- *. cbn in Hd |- *.
  unfold put_finish_signal_on_queue. cbn. rewrite Hfin, Hq, Hsr. cbn.
  split; [done|].
  rewrite Hd by lia. rewrite Hout, !kb_items_app, kb_items_logs. cbn.
  unfold targets_of, alive_seen, deferred_publish. cbn. rewrite Hhd.
  cbn [targethosts alivehosts alivehosts_not_to_be_sent_to_openvas].
  rewrite size_dom, none_alive_excluded.
  rewrite size_empty. rewrite Z.sub_0_r. done.
Qed.

Lemma unsupported_combination_witness :
  let e :=
    example_env (Z.lor ALIVE_TEST_TCP_SYN_SERVICE ALIVE_TEST_ICMP) [] [] in
  let w := start_alive_detection e three_hosts in
  pings_of (out w) = []
  /\ alive_seen (detection_world e three_hosts) = ∅
  /\ alive_hosts_count (scan_restrictions w) = 0
  /\ kb_items (out w)
     = [ResultDeadHost (Z.of_nat (size (init_targethosts three_hosts)));
        QueueFinish].
Proof.
  cbn zeta.
  destruct (unsupported_combination
              (example_env (Z.lor ALIVE_TEST_TCP_SYN_SERVICE ALIVE_TEST_ICMP)
                 [] [])
              three_hosts) as [Hpings Hrest].
  - apply (bool_decide_unpack _). vm_compute. exact I.
  - split; [exact Hpings|]. apply Hrest.
    + reflexivity.
    + reflexivity.
    + reflexivity.
    + intros n. reflexivity.
    + reflexivity.
Defined.

(** TCP-SYN together with ICMP is none of the nine combinations and sends
    no ping; a frame from a target that the sniffer captures all the same
    marks the target alive: it is put on the queue and is not reported
    dead. *)
Lemma unsolicited_reply_found_alive :
  let e :=
    example_env (Z.lor ALIVE_TEST_TCP_SYN_SERVICE ALIVE_TEST_ICMP) []
      [[ipv4_reply "10.0.0.1"]] in
  let w := start_alive_detection e three_hosts in
  (alive_test_of e ∉ supported_alive_tests)
  /\ out w
     = [KbPush (QueueHost "10.0.0.1"); KbPush (ResultDeadHost 2);
        KbPush QueueFinish]
  /\ alive_seen (detection_world e three_hosts) = {["10.0.0.1"%string]}
  /\ size (init_targethosts three_hosts) = 3%nat.
Proof.
  cbn zeta. split.
  { apply (bool_decide_unpack _). vm_compute. exact I. }
  split; [by vm_compute|]. split; [|by vm_compute].
  apply (bool_decide_unpack _). vm_compute. exact I.
Qed.

(** ** Counting the alive targets *)

Lemma alivehosts_add_fields a w :
  let w' := (alivehosts_add a w).2 in
  scan_restrictions w' = scan_restrictions w
  /\ alive_seen w' = {[a]} ∪ alive_seen w
  /\ targethosts (hosts_data w') = targethosts (hosts_data w)
  /\ deferred_publish w' = deferred_publish w
  /\ fin_msg_already_on_queue w' = fin_msg_already_on_queue w
  /\ out w' = out w.
Proof. done. Qed.

Lemma handle_scan_restrictions_queue_hosts e a w :
  queue_hosts (out (handle_scan_restrictions e a w))
  = queue_hosts (out w)
    ++ (if max_scan_hosts_reached (scan_restrictions w) then [] else [a]).
Proof.
  destruct (handle_scan_restrictions_fields e a w) as (_ & _ & _ & _ & _ & ->).
  rewrite !queue_hosts_app. f_equal.
  assert (forall tr : list event,
            tr = [] \/ tr = [KbPush QueueFinish]
            \/ tr = [Log (DebugFinishSignalError (-1))] ->
            queue_hosts tr = []) as Hn.
  { by intros tr [-> | [-> | ->]]. }
  rewrite (Hn (if _ && _ then _ else _)).
  - rewrite app_nil_r. by case_match.
  - repeat case_match; auto.
Qed.

Lemma size_alive_targets_new (A D : gset string) a :
  a ∉ A -> a ∈ D ->
  size (({[a]} ∪ A) ∩ D) = S (size (A ∩ D))
  /\ (S (size (A ∩ D)) <= size D)%nat.
Proof.
  intros Hnew Hin.
  assert (({[a]} ∪ A) ∩ D = {[a]} ∪ (A ∩ D)) as Heq by set_solver.
  rewrite Heq.
  pose proof (size_union (C:=gset string) {[a]} (A ∩ D)) as Hu.
  assert (size ({[a]} ∪ (A ∩ D)) <= size D)%nat as Hle
      by (apply subseteq_size; set_solver).
  rewrite Hu, size_singleton in * by set_solver. split; [done|]. exact Hle.
Qed.

Lemma count_inv_handle_scan_restrictions T k e a w :
  0 <= alive_hosts_count (scan_restrictions w) < INT_MAX ->
  count_inv T k w -> count_inv T (k + 1) (handle_scan_restrictions e a w).
Proof.
  intros Hc [HT Hcount].
  destruct (handle_scan_restrictions_fields e a w) as (Hsr & Hhd & _).
  unfold count_inv, alive_seen. rewrite Hsr, Hhd.
  cbn [targethosts alivehosts alive_hosts_count].
  rewrite int_incr_small by done. unfold alive_seen in Hcount. split; [done|].
  lia.
Qed.

Lemma count_inv_got_packet T k e p w :
  0 <= k -> Z.of_nat (size T) + k < 2 ^ 31 ->
  count_inv T k w -> count_inv T k (got_packet e p w).
Proof.
  intros Hk Hb [HT Hcount].
  destruct (got_packet_cases e p w)
    as [-> | [(Hr & Hwhy & ->) | (Hr & Hnew & Ht & ->)]]; [done | |].
  - destruct (alivehosts_add_fields (sniffed_addr_str p) w)
      as (Hsr & Ha & Ht' & _).
    cbn zeta in *. split; [by rewrite Ht'|].
    rewrite Hsr, Hcount, Ha. do 3 f_equal.
    destruct Hwhy as [Hin | Hnone]; [set_solver|].
    rewrite HT in Hnone. apply not_elem_of_dom in Hnone. set_solver.
  - destruct (alivehosts_add_fields (sniffed_addr_str p) w)
      as (Hsr & Ha & Ht' & _).
    cbn zeta in *. rewrite HT in Ht. apply elem_of_dom in Ht.
    destruct (size_alive_targets_new (alive_seen w) (dom T) _ Hnew Ht)
      as [Hsize Hle].
    rewrite size_dom in Hle.
    pose proof (count_inv_handle_scan_restrictions T (k - 1) e
                  (sniffed_addr_str p)
                  (alivehosts_add (sniffed_addr_str p) w).2) as Hh.
    replace (k - 1 + 1) with k in Hh by lia. apply Hh.
    + rewrite Hsr, Hcount. unfold INT_MAX. lia.
    + split; [by rewrite Ht'|]. rewrite Hsr, Hcount, Ha, Hsize. lia.
Qed.

(** ** What is on the queue *)

Lemma publish_inv_got_packet e p w :
  publish_inv w -> publish_inv (got_packet e p w).
Proof.
  intros (Hnd & Hdisj & Hiff).
  destruct (got_packet_cases e p w)
    as [-> | [(Hr & Hwhy & ->) | (Hr & Hnew & Ht & ->)]]; [done | |].
  - destruct (alivehosts_add_fields (sniffed_addr_str p) w)
      as (_ & Ha & Ht' & Hd & _ & Ho).
    cbn zeta in *. unfold publish_inv, targets_of in *.
    rewrite Ho, Hd, Ha, Ht'. repeat split; try done.
    + intros H. apply Hiff in H.
      destruct Hwhy as [Hin | Hnone]; set_solver.
    + intros H. apply Hiff.
      destruct Hwhy as [Hin | Hnone]; [set_solver|].
      apply not_elem_of_dom in Hnone. set_solver.
  - pose proof (handle_scan_restrictions_queue_hosts e (sniffed_addr_str p)
                  (alivehosts_add (sniffed_addr_str p) w).2) as Hq.
    destruct (handle_scan_restrictions_fields e (sniffed_addr_str p)
                (alivehosts_add (sniffed_addr_str p) w).2)
      as (_ & Hhd & _).
    apply elem_of_dom in Ht.
    assert (sniffed_addr_str p ∉ queue_hosts (out w)) as HnQ.
    { intros H. assert (sniffed_addr_str p ∈ alive_seen w ∩ targets_of w)
        by (apply Hiff; by left). set_solver. }
    assert (sniffed_addr_str p ∉ deferred_publish w) as HnD.
    { intros H. assert (sniffed_addr_str p ∈ alive_seen w ∩ targets_of w)
        by (apply Hiff; by right). set_solver. }
    unfold publish_inv, targets_of, alive_seen, deferred_publish in *.
    rewrite Hq, Hhd. clear Hq Hhd. unfold alivehosts_add.
    cbn [snd set_hosts_data hosts_data scan_restrictions out alivehosts
         targethosts alivehosts_not_to_be_sent_to_openvas].
    generalize dependent (sniffed_addr_str p). intros a0 Hnew Ht HnQ HnD.
    generalize dependent (queue_hosts (out w)). intros Q Hnd Hdisj Hiff HnQ.
    destruct (max_scan_hosts_reached (scan_restrictions w)).
    + rewrite app_nil_r. repeat split; try done.
      * intros a Ha. specialize (Hdisj a Ha). set_solver.
      * intros H. pose proof (Hiff a) as [H1 H2]. set_solver.
      * intros H. pose proof (Hiff a) as [H1 H2].
        destruct (decide (a = a0)) as [->|Hne]; [right; set_solver|].
        destruct H2 as [H2 | H2]; [set_solver | by left | right; set_solver].
    + repeat split.
      * apply NoDup_app. repeat split; [done | | apply NoDup_singleton].
        intros x Hx ->%list_elem_of_singleton. done.
      * intros a [Ha | ->%list_elem_of_singleton]%elem_of_app; [|done].
        by apply Hdisj.
      * intros H. pose proof (Hiff a) as [H1 H2].
        destruct H as [[H | ->%list_elem_of_singleton]%elem_of_app | H];
          set_solver.
      * intros H. pose proof (Hiff a) as [H1 H2].
        destruct (decide (a = a0)) as [->|Hne].
        { left. apply elem_of_app. right. by apply list_elem_of_singleton. }
        destruct H2 as [H2 | H2]; [set_solver | left | by right].
        apply elem_of_app. by left.
Qed.

Lemma publish_inv_ping p w : publish_inv w -> publish_inv (emit (Ping p) w).
Proof.
  unfold publish_inv, emit, targets_of, alive_seen, deferred_publish.
  cbn [out hosts_data]. rewrite queue_hosts_app.
  change (queue_hosts [Ping p]) with (@nil string). by rewrite app_nil_r.
Qed.

Lemma publish_inv_log m w : publish_inv w -> publish_inv (emit (Log m) w).
Proof.
  unfold publish_inv, emit, targets_of, alive_seen, deferred_publish.
  cbn [out hosts_data]. rewrite queue_hosts_app.
  change (queue_hosts [Log m]) with (@nil string). by rewrite app_nil_r.
Qed.

(** The counter and the queue of a run that does not consider every host
    alive, when the sniffer has been joined. *)
Lemma detection_invariants e hosts :
  alive_test_of e <> ALIVE_TEST_CONSIDER_ALIVE ->
  Z.of_nat (length hosts) < 2 ^ 31 ->
  aborts e hosts = false ->
  count_inv (init_targethosts hosts) 0 (detection_world e hosts)
  /\ publish_inv (detection_world e hosts).
Proof.
  intros Hca Hsmall Ha. destruct (not_aborts e hosts Ha) as [Hi Hp].
  destruct (init_world_fields e hosts Hi) as (Hsr & Hhd & _ & _ & _ & Ho).
  pose proof (size_init_targethosts hosts) as Hsz.
  unfold detection_world. rewrite Ha.
  apply (scan_detect_preserves e
           (fun w => count_inv (init_targethosts hosts) 0 w /\ publish_inv w)).
  - by intros p w.
  - intros p w [H1 H2]. split.
    + apply count_inv_got_packet; [done | lia | done].
    + by apply publish_inv_got_packet.
  - by intros sc w.
  - intros p w [H1 H2]. split; [done|]. by apply publish_inv_ping.
  - intros w [H1 H2]. split; [done|]. by apply publish_inv_log.
  - done.
  - destruct (projections_logs (init_ports e).1) as (_ & Hq & _).
    unfold count_inv, publish_inv, alive_seen, deferred_publish, targets_of.
    rewrite Hsr, Hhd, Ho, Hq. cbn [targethosts alivehosts alive_hosts_count
      alivehosts_not_to_be_sent_to_openvas init_scan_restrictions].
    repeat split; try done.
    + replace (∅ ∩ dom (init_targethosts hosts)) with (∅ : gset string)
        by set_solver. by rewrite size_empty.
    + apply NoDup_nil_2.
    + intros [H | H]; [by apply elem_of_nil in H | set_solver].
    + set_solver.
Qed.

Lemma aborted_count e hosts :
  aborts e hosts = true ->
  alive_hosts_count (scan_restrictions (start_alive_detection e hosts)) = 0.
Proof.
  intros Ha. rewrite start_alive_detection_unfold.
  destruct (negb ((alive_test_methods e).1 =? 0)).
  { unfold finish_or_warn, put_finish_signal_on_queue. cbn.
    by destruct (finish_push_ok e 0). }
  destruct (initialised e hosts) eqn:Hi; cbn.
  2:{ unfold finish_or_warn, put_finish_signal_on_queue. cbn.
      by destruct (finish_push_ok e 0). }
  unfold aborts in Ha. rewrite Hi in Ha. cbn in Ha.
  unfold scan. rewrite Ha. cbn.
  destruct (init_world_fields e hosts Hi) as (Hsr & _ & _ & Hf & _).
  unfold put_finish_signal_on_queue. cbn. rewrite Hf, Hsr.
  by destruct (finish_push_ok e _).
Qed.

(** C4: in every run whose method set is not CONSIDER_ALIVE, no address is
    put on the queue more than once, and alive_hosts_count is the number of
    distinct targets in the alive table, the table of the addresses seen as
    the source of a reply. *)
Theorem publish_once_and_count e hosts :
  alive_test_of e <> ALIVE_TEST_CONSIDER_ALIVE ->
  Z.of_nat (length hosts) < 2 ^ 31 ->
  let w := start_alive_detection e hosts in
  let wd := detection_world e hosts in
  (forall a, (publish_count a (out w) <= 1)%nat)
  /\ alive_hosts_count (scan_restrictions w)
     = Z.of_nat (size (alive_seen wd ∩ targets_of wd)).
Proof.
  intros Hca Hsmall. cbn zeta. destruct (aborts e hosts) eqn:Ha.
  { destruct (start_alive_detection_aborts e hosts Ha) as (_ & Hq & _).
    rewrite (aborted_count e hosts Ha). unfold detection_world.
    rewrite Ha. split.
    - intros a. unfold publish_count. rewrite Hq. cbn. lia.
    - unfold alive_seen. cbn.
      replace (∅ ∩ targets_of (world_at_start e)) with (∅ : gset string)
        by set_solver.
      by rewrite size_empty. }
  destruct (detection_invariants e hosts Hca Hsmall Ha)
    as ([HT Hcount] & Hnd & _).
  rewrite (start_alive_detection_scans e hosts Ha). cbn zeta.
  match goal with |- context [scan_errmsg e ?n ?m ?w] =>
    destruct (reports_frame e n m w) as (_ & Hq & Hsr) end.
  rewrite Hsr. split.
  - intros a. apply publish_count_NoDup. by rewrite Hq.
  - rewrite Hcount. unfold targets_of. rewrite HT. lia.
Qed.

Lemma publish_once_and_count_witness :
  let e :=
    example_env ALIVE_TEST_ICMP [("max_scan_hosts", "1")]%string
      [[ipv4_reply "10.0.0.1"]; [ipv4_reply "10.0.0.3"; ipv4_reply "10.0.0.1"]]
  in
  let w := start_alive_detection e three_hosts in
  let wd := detection_world e three_hosts in
  (forall a, (publish_count a (out w) <= 1)%nat)
  /\ alive_hosts_count (scan_restrictions w)
     = Z.of_nat (size (alive_seen wd ∩ targets_of wd)).
Proof.
  apply (publish_once_and_count
           (example_env ALIVE_TEST_ICMP [("max_scan_hosts", "1")]%string
              [[ipv4_reply "10.0.0.1"];
               [ipv4_reply "10.0.0.3"; ipv4_reply "10.0.0.1"]])
           three_hosts).
  - intros H. discriminate H.
  - reflexivity.
Defined.

(** With the method set CONSIDER_ALIVE the sender hands the targets to the
    restriction controller itself.  A target counts as alive although no
    reply from it was seen; and when the sniffer does capture a frame from
    it, the target is handled a second time and is on the queue twice. *)
Lemma consider_alive_counts_and_repeats :
  let e0 := example_env ALIVE_TEST_CONSIDER_ALIVE [] [] in
  let e1 :=
    example_env ALIVE_TEST_CONSIDER_ALIVE [] [[]; [ipv4_reply "10.0.0.1"]] in
  (alive_hosts_count (scan_restrictions (start_alive_detection e0 one_host))
   = 1
   /\ alive_seen (detection_world e0 one_host) = ∅)
  /\ publish_count "10.0.0.1" (out (start_alive_detection e1 one_host))
     = 2%nat.
Proof.
  cbn zeta. split; [split|]; [by vm_compute | | by vm_compute].
  apply (bool_decide_unpack _). vm_compute. exact I.
Qed.

(** ** The dead host count of a run *)

Lemma scan_errmsg_frame e n m w :
  let w' := scan_errmsg e n m w in
  hosts_data w' = hosts_data w
  /\ scan_restrictions w' = scan_restrictions w
  /\ fin_msg_already_on_queue w' = fin_msg_already_on_queue w
  /\ dead_counts (out w') = dead_counts (out w)
  /\ queue_hosts (out w') = queue_hosts (out w)
  /\ finish_count (out w') = finish_count (out w).
Proof.
  cbn zeta. unfold scan_errmsg.
  repeat case_match; cbn [emit hosts_data scan_restrictions out
                          fin_msg_already_on_queue];
    rewrite ?dead_counts_app, ?queue_hosts_app, ?finish_count_app;
    repeat split; try done;
    try (by rewrite app_nil_r); cbn; lia.
Qed.

Lemma put_finish_dead_counts e w :
  dead_counts (out (put_finish_signal_on_queue e w).2) = dead_counts (out w).
Proof.
  unfold put_finish_signal_on_queue.
  repeat case_match; cbn [snd out]; rewrite ?dead_counts_app; try done.
  by rewrite app_nil_r.
Qed.

(** The addresses on the queue are the alive targets that were not
    deferred. *)
Lemma published_are_alive_targets w :
  publish_inv w ->
  length (queue_hosts (out w))
  = size (targets_of w ∩ (alive_seen w ∖ deferred_publish w))
  /\ deferred_publish w ⊆ alive_seen w.
Proof.
  intros (Hnd & Hdisj & Hiff). split.
  - rewrite <- (size_list_to_set (C:=gset string)) by done. f_equal.
    apply set_eq. intros a. rewrite elem_of_list_to_set.
    pose proof (Hiff a) as [H1 H2]. specialize (Hdisj a). set_solver.
  - intros a Ha. pose proof (Hiff a) as [H1 _]. set_solver.
Qed.

(** C3: in a run that gets to scan and reaches the result store, and in
    which no alive target was withheld from the queue (the table of hosts
    not to be sent is empty when the sniffer is joined, as it is whenever
    max_scan_hosts was not reached), the dead host count reported is the
    number of targets minus the number of targets in the alive table:
    |targets| - |targets ∩ alive_seen|, so that reply sources that are no
    targets do not lower it.  If the method set is not CONSIDER_ALIVE this is
    |targets| minus the number of addresses put on the queue, and if every
    address in the alive table is a target it is
    |targets| - (|alive_seen| - |deferred|). *)
Theorem dead_count_published e hosts :
  aborts e hosts = false ->
  kb_conn_dead_hosts e = true ->
  Z.of_nat (length hosts) < 2 ^ 31 ->
  deferred_publish (detection_world e hosts) = ∅ ->
  let w := start_alive_detection e hosts in
  let wd := detection_world e hosts in
  let T := targets_of wd in
  let A := alive_seen wd in
  let D := deferred_publish wd in
  let dead := Z.of_nat (size T) - Z.of_nat (size (T ∩ A)) in
  dead_counts (out w) = [dead]
  /\ (alive_test_of e <> ALIVE_TEST_CONSIDER_ALIVE ->
      dead = Z.of_nat (size T) - Z.of_nat (length (queue_hosts (out w))))
  /\ (A ⊆ T ->
      dead = Z.of_nat (size T) - (Z.of_nat (size A) - Z.of_nat (size D))).
Proof.
  intros Ha Hkb Hsmall HD. cbn zeta.
  pose proof (size_init_targethosts hosts) as Hsz.
  destruct (pings_of_run e hosts Ha) as (ns & _ & _ & _ & HT & Hd0 & _).
  cbn [snd] in HT, Hd0.
  rewrite (start_alive_detection_scans e hosts Ha). cbn zeta.
  split; [|split].
  - rewrite put_finish_dead_counts.
    match goal with |- context [scan_errmsg e ?n ?m ?w] =>
      destruct (scan_errmsg_frame e n m w) as (Hhd & _ & _ & Hd & _);
      pose proof (send_dead_hosts_out e (scan_errmsg e n m w) Hkb) as Hout;
      pose proof (deferred_read_empty e (scan_errmsg e n m w)) as Hread
    end.
    cbn zeta in Hhd, Hd. rewrite Hhd, HT in Hout.
    rewrite Hout by lia. rewrite dead_counts_app, Hd, Hd0.
    rewrite Hread by (unfold deferred_publish in *; by rewrite Hhd).
    unfold targets_of, alive_seen. rewrite Hhd.
    by rewrite difference_empty_L.
  - intros Hca.
    destruct (detection_invariants e hosts Hca Hsmall Ha) as (_ & Hpub).
    destruct (published_are_alive_targets _ Hpub) as [Hlen _].
    match goal with |- context [scan_errmsg e ?n ?m ?w] =>
      destruct (reports_frame e n m w) as (_ & -> & _) end.
    by rewrite Hlen, HD, difference_empty_L.
  - intros Hsub. rewrite HD, size_empty.
    replace (targets_of (detection_world e hosts)
             ∩ alive_seen (detection_world e hosts))
      with (alive_seen (detection_world e hosts)) by set_solver.
    lia.
Qed.

Lemma dead_count_published_witness :
  let e :=
    example_env ALIVE_TEST_ICMP [("max_scan_hosts", "2")]%string
      [[ipv4_reply "10.0.0.1"]; [ipv4_reply "10.0.0.99"]] in
  let w := start_alive_detection e three_hosts in
  let wd := detection_world e three_hosts in
  dead_counts (out w)
  = [Z.of_nat (size (targets_of wd))
     - Z.of_nat (size (targets_of wd ∩ alive_seen wd))]
  /\ dead_counts (out w) = [2].
Proof.
  cbn zeta.
  destruct (dead_count_published
              (example_env ALIVE_TEST_ICMP [("max_scan_hosts", "2")]%string
                 [[ipv4_reply "10.0.0.1"]; [ipv4_reply "10.0.0.99"]])
              three_hosts) as (H & _).
  - reflexivity.
  - reflexivity.
  - reflexivity.
  - apply (bool_decide_unpack _). vm_compute. exact I.
  - split; [exact H | by vm_compute].
Defined.

(** The formula of the claim subtracts every address of the alive table,
    also one that is no target: a reply from 10.0.0.99 while the only target
    10.0.0.1 stays silent. *)
Lemma dead_count_ignores_non_targets :
  let e := example_env ALIVE_TEST_ICMP [] [[ipv4_reply "10.0.0.99"]] in
  let w := start_alive_detection e one_host in
  let wd := detection_world e one_host in
  dead_counts (out w) = [1]
  /\ Z.of_nat (size (targets_of wd))
     - (Z.of_nat (size (alive_seen wd))
        - Z.of_nat (size (deferred_publish wd))) = 0.
Proof. by vm_compute. Qed.

(** ** max_scan_hosts at 0 *)













(** C7: the method set CONSIDER_ALIVE with two targets and no caps.  Both
    targets are handed to the restriction controller and put on the queue,
    no ping is sent; they are not put into the alive table, and the run
    reports both of them as dead. *)
Theorem consider_alive_reported_dead :
  let e := example_env ALIVE_TEST_CONSIDER_ALIVE [] [] in
  let hosts :=
    [ipv4_host "10.0.0.9" 167772169; ipv4_host "10.0.0.10" 167772170] in
  let w := start_alive_detection e hosts in
  out w
  = [KbPush (QueueHost "10.0.0.9"); KbPush (QueueHost "10.0.0.10");
     KbPush (ResultDeadHost 2); KbPush QueueFinish]
  /\ alive_hosts_count (scan_restrictions w) = 2
  /\ alive_seen (detection_world e hosts) = ∅.
Proof.
  cbn zeta. split; [by vm_compute|]. split; [by vm_compute|].
  apply (bool_decide_unpack _). vm_compute. exact I.
Qed.

(** ** The ports of the TCP pings *)

Lemma init_ports_cases e :
  (init_ports e).2
  = if validate_port_range e default_port_list =? 0
    then fold_left fill_ports_array (port_range_ranges e default_port_list) []
    else
      match prefs_get e "port_range" with
      | Some l => fold_left fill_ports_array (port_range_ranges e l) []
      | None => []
      end.
Proof.
  unfold init_ports, default_port_list.
  destruct (validate_port_range e "80,137,587,3128,8081" =? 0); cbn [negb];
    [done|].
  by destruct (prefs_get e "port_range").
Qed.

Lemma segments_elem flag tcp_ports targets ms ns p :
  p ∈ segments flag tcp_ports targets ms ns ->
  exists m value, p = ping_for flag tcp_ports m value.
Proof.
  revert ns. induction ms as [|m ms IH]; intros [|n ns]; try by inversion 1.
  rewrite segments_cons. intros [Hp | Hp]%elem_of_app.
  - apply list_elem_of_fmap in Hp as (kv & -> & _). eauto.
  - by apply (IH ns).
Qed.

Lemma ping_for_tcp_ports flag tcp_ports m value :
  ping_tcp_ports (ping_for flag tcp_ports m value) = None
  \/ ping_tcp_ports (ping_for flag tcp_ports m value) = Some tcp_ports.
Proof. unfold ping_for. destruct m; destruct (negb _); auto. Qed.

(** C9: the port list of the TCP pings is what the hard-coded list
    "80,137,587,3128,8081" expands to, the sequence 80, 137, 587, 3128, 8081
    in this order, and every TCP ping of a run goes to these ports.  No
    preference is read for a list of the user: as long as the hard-coded list
    validates, the ports are the same under all preferences.  Only a
    hard-coded list that does not validate is replaced, by the global port
    range of the preference port_range. *)
Theorem tcp_ports_of_init e :
  let expand l :=
    fold_left fill_ports_array (port_range_ranges e l) [] in
  (init_ports e).2
  = (if validate_port_range e default_port_list =? 0
     then expand default_port_list
     else match prefs_get e "port_range" with
          | Some l => expand l
          | None => []
          end)
  /\ (port_range_ranges e default_port_list
      = map single_port [80; 137; 587; 3128; 8081] ->
      expand default_port_list = [80; 137; 587; 3128; 8081])
  /\ (forall some_prefs,
        validate_port_range e default_port_list = 0 ->
        (init_ports (with_prefs some_prefs e)).2 = (init_ports e).2)
  /\ (forall hosts p,
        p ∈ pings_of (out (start_alive_detection e hosts)) ->
        ping_tcp_ports p = None
        \/ ping_tcp_ports p = Some (init_ports e).2).
Proof.
  cbn zeta. split; [apply init_ports_cases|]. split; [by intros ->|]. split.
  - intros some_prefs Hv. rewrite !init_ports_cases.
    cbn [with_prefs validate_port_range port_range_ranges]. by rewrite Hv.
  - intros hosts p. destruct (aborts e hosts) eqn:Ha.
    { destruct (start_alive_detection_aborts e hosts Ha) as (-> & _).
      by intros ?%elem_of_nil. }
    rewrite (start_alive_detection_scans e hosts Ha). cbn zeta.
    match goal with |- context [scan_errmsg e ?n ?m ?w] =>
      destruct (reports_frame e n m w) as (-> & _) end.
    destruct (pings_of_run e hosts Ha) as (ns & _ & Hp & _).
    cbn [snd] in Hp. rewrite Hp. cbn [app].
    intros (m & value & ->)%segments_elem. apply ping_for_tcp_ports.
Qed.

(** A run with TCP-ACK pings whose preferences carry the port list "22",
    as the global port range and under a name of its own: the pings go to
    the hard-coded ports all the same, although "22" expands to the port
    22. *)
Lemma user_ports_do_not_override :
  let e :=
    example_env ALIVE_TEST_TCP_ACK_SERVICE
      [("port_range", "22"); ("alive_test_ports", "22")]%string [] in
  fold_left fill_ports_array (port_range_ranges e "22") [] = [22]
  /\ (init_ports e).2 = [80; 137; 587; 3128; 8081]
  /\ pings_of (out (start_alive_detection e one_host))
     = [send_tcp_v4 TH_ACK [80; 137; 587; 3128; 8081] 167772161].
Proof. by vm_compute. Qed.

(** * More of the engine *)

#[local] Arguments errmsgs : simpl never.

(** ** Sender loops whose bodies only run below the alive cap *)

Section guarded.
Variable e : environment.
Variable I : world -> Prop.
Hypothesis I_pending : forall p w, I w -> I (set_pending p w).
Hypothesis I_got_packet : forall p w, I w -> I (got_packet e p w).

Lemma ping_loop_preserves_guarded body targets st :
  (forall key value w,
      (key, value) ∈ targets ->
      max_alive_hosts_reached (scan_restrictions w) = false ->
      I w -> I (body key value w)) ->
  I st.2 -> I (ping_loop e body targets st).2.
Proof.
  revert st.
  induction targets as [|[key value] targets IH]; intros [n w] Hbody Hw;
    cbn [ping_loop]; [done|].
  cbn [snd] in Hw.
  apply (sniffer_turn_preserves e I I_pending I_got_packet) in Hw.
  destruct (max_alive_hosts_reached (scan_restrictions (sniffer_turn e w)))
    eqn:Hr; [done|].
  apply IH.
  - intros k v w' Hin. apply Hbody. by right.
  - cbn [snd]. apply Hbody; [by left | done | done].
Qed.

Hypothesis I_scanner : forall sc w, I w -> I (set_scanner sc w).
Hypothesis I_ping :
  forall p w,
    max_alive_hosts_reached (scan_restrictions w) = false ->
    I w -> I (emit (Ping p) w).
Hypothesis I_warn :
  forall w,
    max_alive_hosts_reached (scan_restrictions w) = false ->
    I w -> I (emit (Log WarnNoAddr6) w).

Lemma scan_methods_preserves_guarded alive_test st :
  (alive_test = ALIVE_TEST_CONSIDER_ALIVE ->
   forall key value w,
     targethosts (hosts_data st.2) !! key = Some value ->
     max_alive_hosts_reached (scan_restrictions w) = false ->
     I w -> I (handle_scan_restrictions e key w)) ->
  I st.2 -> I (scan_methods e alive_test st).2.
Proof.
  intros Hca Hw. rewrite scan_methods_numerals. cbn zeta.
  assert (forall m targets st',
            I st'.2 -> I (ping_loop e (send_by m) targets st').2) as Hloop.
  { intros m targets st' Hst'. apply ping_loop_preserves_guarded; [|done].
    intros key value w _ Hr Hi. rewrite send_by_ping.
    apply I_ping; unfold warn_no_addr6; case_match; try done.
    by apply I_warn. }
  assert (forall flag st', I st'.2 -> I (set_tcp_flag flag st').2) as Hflag.
  { intros flag st' Hst'. by apply I_scanner. }
  alive_test_cases alive_test ltac:(by repeat first [apply Hloop | apply Hflag]).
  destruct (Z.eqb_spec alive_test 8) as [->|?]; [|done].
  apply ping_loop_preserves_guarded; [|done].
  intros key value w Hin Hr Hi. apply (Hca eq_refl key value); try done.
  by apply elem_of_map_to_list.
Qed.

Lemma scan_detect_preserves_guarded alive_test w :
  (alive_test = ALIVE_TEST_CONSIDER_ALIVE ->
   forall key value w',
     targethosts (hosts_data w) !! key = Some value ->
     max_alive_hosts_reached (scan_restrictions w') = false ->
     I w' -> I (handle_scan_restrictions e key w')) ->
  I w -> I (scan_detect e alive_test w).2.
Proof.
  intros Hca Hw. unfold scan_detect.
  pose proof (scan_methods_preserves_guarded alive_test (0, w) Hca Hw) as Hm.
  destruct (scan_methods e alive_test (0, w)) as [n w1]. cbn [snd] in *.
  by apply (sniffer_drain_preserves e I I_pending I_got_packet).
Qed.
End guarded.

(** ** Integers in range *)

Lemma int_wrap_range x : - 2 ^ 31 <= int_wrap x <= INT_MAX.
Proof.
  unfold int_wrap, INT_MAX.
  pose proof (Z.mod_pos_bound (x + 2 ^ 31) (2 ^ 32)). lia.
Qed.

Lemma atoi_range s : - 2 ^ 31 <= atoi s <= INT_MAX.
Proof. unfold atoi. repeat case_match; apply int_wrap_range. Qed.

Lemma init_caps_range e :
  max_scan_hosts (init_scan_restrictions e) <= INT_MAX
  /\ max_alive_hosts (init_scan_restrictions e) <= INT_MAX.
Proof.
  assert (forall o : option string,
            match o with Some pref_str => atoi pref_str | None => INT_MAX end
            <= INT_MAX) as Hle.
  { intros [s|]; [apply atoi_range | lia]. }
  pose proof (Hle (prefs_get e "max_scan_hosts")) as H1.
  pose proof (Hle (prefs_get e "max_alive_hosts")) as H2.
  unfold init_scan_restrictions.
  cbn [max_scan_hosts max_alive_hosts]. cbn zeta.
  split; [exact H1|].
  destruct (_ <? _); [exact H1 | exact H2].
Qed.

(** The restrictions of a run that aborts are those it started with. *)
Lemma aborted_restrictions e hosts :
  aborts e hosts = true ->
  let r := scan_restrictions (start_alive_detection e hosts) in
  alive_hosts_count r = 0
  /\ max_scan_hosts_reached r = false
  /\ max_alive_hosts_reached r = false.
Proof.
  intros Ha. cbn zeta. rewrite start_alive_detection_unfold.
  destruct (negb ((alive_test_methods e).1 =? 0)).
  { unfold finish_or_warn, put_finish_signal_on_queue. cbn.
    by destruct (finish_push_ok e 0). }
  destruct (initialised e hosts) eqn:Hi; cbn [negb].
  2:{ unfold finish_or_warn, put_finish_signal_on_queue. cbn.
      by destruct (finish_push_ok e 0). }
  unfold aborts in Ha. rewrite Hi in Ha. cbn in Ha.
  unfold scan. rewrite Ha. cbn.
  destruct (init_world_fields e hosts Hi) as (Hsr & _ & _ & Hf & _).
  unfold put_finish_signal_on_queue. cbn. rewrite Hf, Hsr.
  by destruct (finish_push_ok e _).
Qed.

(** ** max_scan_hosts bounds the queue *)

Lemma scan_cap_inv_frame w w' :
  scan_restrictions w' = scan_restrictions w ->
  queue_hosts (out w') = queue_hosts (out w) ->
  scan_cap_inv w -> scan_cap_inv w'.
Proof. unfold scan_cap_inv. by intros -> ->. Qed.

Lemma scan_cap_inv_handle_scan_restrictions e a w :
  scan_cap_inv w -> scan_cap_inv (handle_scan_restrictions e a w).
Proof.
  unfold scan_cap_inv. cbn zeta. intros [Hmax Hinv].
  destruct (handle_scan_restrictions_fields e a w) as (Hsr & _).
  cbn zeta in Hsr.
  rewrite Hsr, handle_scan_restrictions_queue_hosts.
  cbn [max_scan_hosts max_scan_hosts_reached alive_hosts_count].
  split; [done|].
  destruct (max_scan_hosts_reached (scan_restrictions w)).
  - cbn [orb]. by rewrite app_nil_r.
  - destruct Hinv as [Hlen Hlt].
    rewrite int_incr_small by lia. cbn [negb andb orb].
    rewrite length_app. cbn [length].
    destruct (Z.eqb_spec (alive_hosts_count (scan_restrictions w) + 1)
                (max_scan_hosts (scan_restrictions w))); lia.
Qed.

Lemma scan_cap_inv_got_packet e p w :
  scan_cap_inv w -> scan_cap_inv (got_packet e p w).
Proof.
  intros Hinv.
  destruct (got_packet_cases e p w)
    as [-> | [(_ & _ & ->) | (_ & _ & _ & ->)]]; [done | done |].
  by apply scan_cap_inv_handle_scan_restrictions.
Qed.

Lemma scan_cap_inv_ping p w : scan_cap_inv w -> scan_cap_inv (emit (Ping p) w).
Proof.
  apply scan_cap_inv_frame; [done|].
  unfold emit. cbn [out]. rewrite queue_hosts_app.
  change (queue_hosts [Ping p]) with (@nil string). by rewrite app_nil_r.
Qed.

Lemma scan_cap_inv_log m w : scan_cap_inv w -> scan_cap_inv (emit (Log m) w).
Proof.
  apply scan_cap_inv_frame; [done|].
  unfold emit. cbn [out]. rewrite queue_hosts_app.
  change (queue_hosts [Log m]) with (@nil string). by rewrite app_nil_r.
Qed.

Lemma scan_cap_detection e hosts :
  1 <= max_scan_hosts (init_scan_restrictions e) ->
  aborts e hosts = false ->
  scan_cap_inv (detection_world e hosts).
Proof.
  intros H1 Ha. destruct (not_aborts e hosts Ha) as [Hi Hp].
  destruct (init_world_fields e hosts Hi) as (Hsr & _ & _ & _ & _ & Ho).
  unfold detection_world. rewrite Ha.
  apply (scan_detect_preserves e scan_cap_inv).
  - done.
  - intros p w. apply scan_cap_inv_got_packet.
  - done.
  - intros p w. apply scan_cap_inv_ping.
  - intros w. apply scan_cap_inv_log.
  - intros _ key w. apply scan_cap_inv_handle_scan_restrictions.
  - destruct (projections_logs (init_ports e).1) as (_ & Hq & _).
    unfold scan_cap_inv. rewrite Hsr, Ho, Hq.
    cbn [max_scan_hosts_reached alive_hosts_count init_scan_restrictions
         length].
    split; [apply init_caps_range | lia].
Qed.

Lemma detection_caps e hosts :
  aborts e hosts = false ->
  max_scan_hosts (scan_restrictions (detection_world e hosts))
  = max_scan_hosts (init_scan_restrictions e)
  /\ max_alive_hosts (scan_restrictions (detection_world e hosts))
     = max_alive_hosts (init_scan_restrictions e).
Proof.
  intros Ha. destruct (not_aborts e hosts Ha) as [Hi Hp].
  destruct (init_world_fields e hosts Hi) as (Hsr & _).
  unfold detection_world. rewrite Ha.
  pose proof (caps_scan_detect e (alive_test_of e) (init_world e hosts)) as Hc.
  unfold caps in Hc. rewrite Hsr in Hc. by injection Hc as -> ->.
Qed.

(** X1: with a max_scan_hosts of at least one, a run in which one thread
    only calls the restriction controller (the method set is not exactly
    CONSIDER_ALIVE, or no frame is captured) puts at most max_scan_hosts
    addresses on the queue; it puts exactly max_scan_hosts there when the cap
    was reached, and as many as alive_hosts_count counts otherwise. *)
Theorem at_most_max_scan_hosts_published e hosts :
  one_controller_thread e ->
  1 <= max_scan_hosts (init_scan_restrictions e) ->
  let w := start_alive_detection e hosts in
  let published := Z.of_nat (length (queue_hosts (out w))) in
  published <= max_scan_hosts (init_scan_restrictions e)
  /\ (max_scan_hosts_reached (scan_restrictions w) = true ->
      published = max_scan_hosts (init_scan_restrictions e))
  /\ (max_scan_hosts_reached (scan_restrictions w) = false ->
      published = alive_hosts_count (scan_restrictions w)).
Proof.
  intros _ H1. cbn zeta.
  destruct (aborts e hosts) eqn:Ha.
  - destruct (start_alive_detection_aborts e hosts Ha) as (_ & -> & _).
    destruct (aborted_restrictions e hosts Ha) as (-> & -> & _).
    cbn [length]. repeat split; (lia || done).
  - pose proof (scan_cap_detection e hosts H1 Ha) as [_ Hinv].
    destruct (detection_caps e hosts Ha) as [Hms _].
    rewrite (start_alive_detection_scans e hosts Ha). cbn zeta.
    destruct (reports_frame e
                (int_wrap (Z.of_nat (size (init_targethosts hosts))))
                (scan_detect e (alive_test_of e) (init_world e hosts)).1
                (detection_world e hosts)) as (_ & -> & ->).
    cbn zeta in Hinv. rewrite Hms in Hinv.
    destruct (max_scan_hosts_reached
                (scan_restrictions (detection_world e hosts)));
      repeat split; (lia || done).
Qed.

Lemma at_most_max_scan_hosts_published_witness :
  let e :=
    example_env ALIVE_TEST_CONSIDER_ALIVE [("max_scan_hosts", "2")]%string []
  in
  let w := start_alive_detection e three_hosts in
  let published := Z.of_nat (length (queue_hosts (out w))) in
  published <= max_scan_hosts (init_scan_restrictions e)
  /\ (max_scan_hosts_reached (scan_restrictions w) = true ->
      published = max_scan_hosts (init_scan_restrictions e))
  /\ (max_scan_hosts_reached (scan_restrictions w) = false ->
      published = alive_hosts_count (scan_restrictions w)).
Proof.
  apply (at_most_max_scan_hosts_published
           (example_env ALIVE_TEST_CONSIDER_ALIVE
              [("max_scan_hosts", "2")]%string [])
           three_hosts).
  - right. reflexivity.
  - vm_compute. intros Hx. discriminate Hx.
Defined.

(** ** max_alive_hosts bounds the counter *)

Lemma alive_cap_inv_handle_scan_restrictions e a w :
  max_alive_hosts_reached (scan_restrictions w) = false ->
  alive_cap_inv w -> alive_cap_inv (handle_scan_restrictions e a w).
Proof.
  unfold alive_cap_inv. cbn zeta. intros Hr [Hmax Hinv].
  destruct (handle_scan_restrictions_fields e a w) as (Hsr & _).
  cbn zeta in Hsr. rewrite Hsr. rewrite Hr in *.
  cbn [max_alive_hosts max_alive_hosts_reached alive_hosts_count orb].
  rewrite int_incr_small by lia. split; [done|].
  destruct (Z.eqb_spec (alive_hosts_count (scan_restrictions w) + 1)
              (max_alive_hosts (scan_restrictions w))); lia.
Qed.

Lemma alive_cap_inv_got_packet e p w :
  alive_cap_inv w -> alive_cap_inv (got_packet e p w).
Proof.
  intros Hinv.
  destruct (got_packet_cases e p w)
    as [-> | [(_ & _ & ->) | (Hr & _ & _ & ->)]]; [done | done |].
  by apply alive_cap_inv_handle_scan_restrictions.
Qed.

Lemma alive_cap_detection e hosts :
  1 <= max_alive_hosts (init_scan_restrictions e) ->
  aborts e hosts = false ->
  alive_cap_inv (detection_world e hosts).
Proof.
  intros H1 Ha. destruct (not_aborts e hosts Ha) as [Hi Hp].
  destruct (init_world_fields e hosts Hi) as (Hsr & _).
  unfold detection_world. rewrite Ha.
  apply (scan_detect_preserves_guarded e alive_cap_inv).
  - done.
  - intros p w. apply alive_cap_inv_got_packet.
  - done.
  - done.
  - done.
  - intros _ key value w _. apply alive_cap_inv_handle_scan_restrictions.
  - unfold alive_cap_inv. rewrite Hsr.
    cbn [max_alive_hosts_reached alive_hosts_count init_scan_restrictions].
    split; [apply init_caps_range | lia].
Qed.

(** X2: with a max_alive_hosts of at least one, in a run in which one thread
    only calls the restriction controller (the method set is not exactly
    CONSIDER_ALIVE, or no frame is captured) alive_hosts_count ends between 0
    and max_alive_hosts, and max_alive_hosts_reached is set at the end
    exactly when the counter equals max_alive_hosts. *)
Theorem at_most_max_alive_hosts_counted e hosts :
  one_controller_thread e ->
  1 <= max_alive_hosts (init_scan_restrictions e) ->
  let r := scan_restrictions (start_alive_detection e hosts) in
  0 <= alive_hosts_count r <= max_alive_hosts (init_scan_restrictions e)
  /\ (max_alive_hosts_reached r = true
      <-> alive_hosts_count r = max_alive_hosts (init_scan_restrictions e)).
Proof.
  intros _ H1. cbn zeta.
  destruct (aborts e hosts) eqn:Ha.
  - destruct (aborted_restrictions e hosts Ha) as (-> & _ & ->).
    repeat split; (lia || done).
  - pose proof (alive_cap_detection e hosts H1 Ha) as [_ Hinv].
    destruct (detection_caps e hosts Ha) as [_ Hma].
    rewrite (start_alive_detection_scans e hosts Ha). cbn zeta.
    destruct (reports_frame e
                (int_wrap (Z.of_nat (size (init_targethosts hosts))))
                (scan_detect e (alive_test_of e) (init_world e hosts)).1
                (detection_world e hosts)) as (_ & _ & ->).
    cbn zeta in Hinv. rewrite Hma in Hinv.
    destruct (max_alive_hosts_reached
                (scan_restrictions (detection_world e hosts)));
      repeat split; (lia || done).
Qed.

Lemma at_most_max_alive_hosts_counted_witness :
  let e :=
    example_env ALIVE_TEST_CONSIDER_ALIVE
      [("max_scan_hosts", "1"); ("max_alive_hosts", "2")]%string [] in
  let r := scan_restrictions (start_alive_detection e three_hosts) in
  0 <= alive_hosts_count r <= max_alive_hosts (init_scan_restrictions e)
  /\ (max_alive_hosts_reached r = true
      <-> alive_hosts_count r = max_alive_hosts (init_scan_restrictions e)).
Proof.
  apply (at_most_max_alive_hosts_counted
           (example_env ALIVE_TEST_CONSIDER_ALIVE
              [("max_scan_hosts", "1"); ("max_alive_hosts", "2")]%string [])
           three_hosts).
  - right. reflexivity.
  - vm_compute. intros Hx. discriminate Hx.
Defined.

(** ** Nothing is queued behind the finish signal *)

Lemma no_host_after_finish_none tr :
  queue_hosts tr = [] -> no_host_after_finish tr.
Proof.
  intros Hq tr1 tr2 ->. rewrite queue_hosts_app in Hq.
  apply app_eq_nil in Hq as [_ Hq]. exact Hq.
Qed.

Lemma finish_count_split tr1 tr2 :
  (0 < finish_count (tr1 ++ KbPush QueueFinish :: tr2))%nat.
Proof.
  rewrite finish_count_app.
  change (KbPush QueueFinish :: tr2) with ([KbPush QueueFinish] ++ tr2).
  rewrite finish_count_app.
  change (finish_count [KbPush QueueFinish]) with 1%nat. lia.
Qed.

Lemma no_host_after_finish_snoc tr ev :
  no_host_after_finish tr ->
  (queue_hosts [ev] = [] \/ finish_count tr = 0%nat) ->
  no_host_after_finish (tr ++ [ev]).
Proof.
  intros Hinv Hev tr1 tr2 Heq.
  destruct (decide (tr2 = [])) as [->|Hne]; [done|].
  destruct (exists_last Hne) as (tr2' & ev' & ->).
  change (tr1 ++ KbPush QueueFinish :: tr2' ++ [ev'])
    with (tr1 ++ (KbPush QueueFinish :: tr2') ++ [ev']) in Heq.
  rewrite app_assoc in Heq. apply app_inj_tail in Heq as [-> <-].
  rewrite queue_hosts_app, (Hinv tr1 tr2' eq_refl).
  destruct Hev as [Hev | Hev]; [done|].
  pose proof (finish_count_split tr1 tr2'). lia.
Qed.

Lemma no_host_after_finish_app tr tr' :
  no_host_after_finish tr -> queue_hosts tr' = [] ->
  no_host_after_finish (tr ++ tr').
Proof.
  induction tr' as [|ev tr' IH] using rev_ind; intros Hinv Hq.
  - by rewrite app_nil_r.
  - rewrite queue_hosts_app in Hq. apply app_eq_nil in Hq as [Hq1 Hq2].
    rewrite app_assoc. apply no_host_after_finish_snoc; [by apply IH|].
    by left.
Qed.

Lemma finish_order_inv_handle_scan_restrictions e a w :
  finish_order_inv w -> finish_order_inv (handle_scan_restrictions e a w).
Proof.
  unfold finish_order_inv. intros [Hfin Hinv].
  destruct (handle_scan_restrictions_fields e a w)
    as (Hsr & _ & _ & _ & _ & Ho).
  cbn zeta in Hsr, Ho. rewrite Hsr, Ho. cbn [max_scan_hosts_reached].
  destruct (max_scan_hosts_reached (scan_restrictions w)) eqn:Hr.
  - cbn [negb andb orb app]. rewrite app_nil_r. split; [by right | done].
  - destruct Hfin as [Hfin | Hfin]; [|done]. cbn [negb andb orb].
    rewrite app_assoc.
    assert (no_host_after_finish (out w ++ [KbPush (QueueHost a)])) as Hinv'.
    { apply no_host_after_finish_snoc; [done | by right]. }
    destruct (_ =? _).
    + split; [by right|]. apply no_host_after_finish_app; [done|].
      by repeat case_match.
    + rewrite app_nil_r. split; [left | done].
      rewrite finish_count_app, Hfin. done.
Qed.

Lemma finish_order_inv_got_packet e p w :
  finish_order_inv w -> finish_order_inv (got_packet e p w).
Proof.
  intros Hinv.
  destruct (got_packet_cases e p w)
    as [-> | [(_ & _ & ->) | (_ & _ & _ & ->)]]; [done | done |].
  by apply finish_order_inv_handle_scan_restrictions.
Qed.

Lemma finish_order_inv_ping p w :
  finish_order_inv w -> finish_order_inv (emit (Ping p) w).
Proof.
  unfold finish_order_inv, emit. cbn [out scan_restrictions].
  intros [Hfin Hinv]. split.
  - rewrite finish_count_app. change (finish_count [Ping p]) with 0%nat.
    by rewrite Nat.add_0_r.
  - apply no_host_after_finish_snoc; [done | by left].
Qed.

Lemma finish_order_inv_log m w :
  finish_order_inv w -> finish_order_inv (emit (Log m) w).
Proof.
  unfold finish_order_inv, emit. cbn [out scan_restrictions].
  intros [Hfin Hinv]. split.
  - rewrite finish_count_app. change (finish_count [Log m]) with 0%nat.
    by rewrite Nat.add_0_r.
  - apply no_host_after_finish_snoc; [done | by left].
Qed.

Lemma finish_order_detection e hosts :
  aborts e hosts = false ->
  finish_order_inv (detection_world e hosts).
Proof.
  intros Ha. destruct (not_aborts e hosts Ha) as [Hi Hp].
  destruct (init_world_fields e hosts Hi) as (_ & _ & _ & _ & _ & Ho).
  unfold detection_world. rewrite Ha.
  apply (scan_detect_preserves e finish_order_inv).
  - done.
  - intros p w. apply finish_order_inv_got_packet.
  - done.
  - intros p w. apply finish_order_inv_ping.
  - intros w. apply finish_order_inv_log.
  - intros _ key w. apply finish_order_inv_handle_scan_restrictions.
  - destruct (projections_logs (init_ports e).1) as (_ & Hq & _).
    unfold finish_order_inv, finish_count. rewrite Ho, kb_items_logs.
    split; [by left|]. by apply no_host_after_finish_none.
Qed.

(** What the reports and the last finish signal add to the trace. *)
Lemma reports_extend e n m w :
  exists tail,
    out (put_finish_signal_on_queue e
           (send_dead_hosts_to_ospd_openvas e (scan_errmsg e n m w)).2).2
    = out w ++ tail
    /\ queue_hosts tail = [].
Proof.
  assert (exists tail,
             out (put_finish_signal_on_queue e
                    (send_dead_hosts_to_ospd_openvas e
                       (scan_errmsg e n m w)).2).2
             = out w ++ tail) as [tail Htail].
  { assert (exists t1, out (scan_errmsg e n m w) = out w ++ t1) as [t1 H1].
    { unfold scan_errmsg. repeat case_match;
        first [by eexists [_] | exists []; by rewrite app_nil_r]. }
    assert (forall w0, exists t2,
                 out (send_dead_hosts_to_ospd_openvas e w0).2 = out w0 ++ t2)
      as H2.
    { intros w0. unfold send_dead_hosts_to_ospd_openvas. case_match;
        first [by eexists [_] | exists []; by rewrite app_nil_r]. }
    assert (forall w0, exists t3,
                 out (put_finish_signal_on_queue e w0).2 = out w0 ++ t3)
      as H3.
    { intros w0. unfold put_finish_signal_on_queue. repeat case_match;
        first [by eexists [_] | exists []; by rewrite app_nil_r]. }
    destruct (H2 (scan_errmsg e n m w)) as [t2 Ht2].
    destruct (H3 (send_dead_hosts_to_ospd_openvas e (scan_errmsg e n m w)).2)
      as [t3 Ht3].
    exists (t1 ++ t2 ++ t3). rewrite Ht3, Ht2, H1. by rewrite <- !app_assoc. }
  exists tail. split; [done|].
  destruct (reports_frame e n m w) as (_ & Hq & _). cbn zeta in Hq.
  rewrite Htail, queue_hosts_app in Hq.
  rewrite <- (app_nil_r (queue_hosts (out w))) in Hq at 2.
  by apply app_inv_head in Hq.
Qed.

(** X3: in a run in which one thread only calls the restriction controller
    (the method set is not exactly CONSIDER_ALIVE, or no frame is captured)
    no address is put on the queue behind the finish signal: whatever
    follows a finish signal in the trace of the run holds no queue entry for
    a host. *)
Theorem no_host_after_finish_signal e hosts tr1 tr2 :
  one_controller_thread e ->
  out (start_alive_detection e hosts) = tr1 ++ KbPush QueueFinish :: tr2 ->
  queue_hosts tr2 = [].
Proof.
  intros _. revert tr1 tr2.
  change (no_host_after_finish (out (start_alive_detection e hosts))).
  destruct (aborts e hosts) eqn:Ha.
  - apply no_host_after_finish_none.
    by destruct (start_alive_detection_aborts e hosts Ha) as (_ & -> & _).
  - rewrite (start_alive_detection_scans e hosts Ha). cbn zeta.
    destruct (reports_extend e
                (int_wrap (Z.of_nat (size (init_targethosts hosts))))
                (scan_detect e (alive_test_of e) (init_world e hosts)).1
                (detection_world e hosts)) as (tail & -> & Hq).
    apply no_host_after_finish_app; [|done].
    apply (finish_order_detection e hosts Ha).
Qed.

Lemma no_host_after_finish_signal_witness :
  let e :=
    example_env ALIVE_TEST_ICMP [("max_scan_hosts", "1")]%string
      [[ipv4_reply "10.0.0.1"]; [ipv4_reply "10.0.0.3"]] in
  let tr2 :=
    [Ping (send_icmp_v4 167772163); Ping (send_icmp_v4 167772161);
     Ping (send_icmp_v4 167772162); KbPush (ResultDeadHost 2)] in
  out (start_alive_detection e three_hosts)
  = [KbPush (QueueHost "10.0.0.1")] ++ KbPush QueueFinish :: tr2
  /\ queue_hosts tr2 = [].
Proof.
  cbn zeta. split; [vm_compute; reflexivity|].
  apply (no_host_after_finish_signal
           (example_env ALIVE_TEST_ICMP [("max_scan_hosts", "1")]%string
              [[ipv4_reply "10.0.0.1"]; [ipv4_reply "10.0.0.3"]])
           three_hosts [KbPush (QueueHost "10.0.0.1")]).
  - left. vm_compute. intros Hx. discriminate Hx.
  - vm_compute. reflexivity.
Defined.

(** ** The target table *)

Lemma fold_insert_lookup (hosts : list gvm_host_t) (t : gmap string gvm_host_t)
  (k : string) :
  fold_left (fun t host => <[host_value_str host := host]> t) hosts t !! k
  = match last (filter (fun h => host_value_str h = k) hosts) with
    | Some h => Some h
    | None => t !! k
    end.
Proof.
  revert t. induction hosts as [|h hosts IH]; intros t; [done|].
  cbn [fold_left]. rewrite IH, filter_cons.
  destruct (decide (host_value_str h = k)) as [Heq|Hne].
  - rewrite last_cons. destruct (last _); [done|].
    by rewrite Heq, lookup_insert_eq.
  - destruct (last _); [done|]. by rewrite lookup_insert_ne.
Qed.

Lemma init_targethosts_lookup hosts k :
  init_targethosts hosts !! k
  = last (filter (fun h => host_value_str h = k) hosts).
Proof.
  unfold init_targethosts. rewrite fold_insert_lookup.
  by destruct (last _).
Qed.

Lemma dom_init_targethosts hosts :
  dom (init_targethosts hosts) = list_to_set (host_value_str <$> hosts).
Proof.
  apply set_eq. intros k.
  rewrite elem_of_dom, init_targethosts_lookup, elem_of_list_to_set,
    list_elem_of_fmap.
  split.
  - intros [h Hh]. apply last_Some_elem_of in Hh.
    apply list_elem_of_filter in Hh as [Hk Hin]. by exists h.
  - intros (h & -> & Hin).
    assert (h ∈ filter (fun h' => host_value_str h' = host_value_str h) hosts)
      as Hf by by apply list_elem_of_filter.
    destruct (last _) eqn:Hl; [done|].
    apply last_None in Hl. rewrite Hl in Hf. by apply elem_of_nil in Hf.
Qed.

(** ** Only targets are published *)

Lemma targets_only_inv_handle_scan_restrictions T e a w :
  a ∈ dom T ->
  targets_only_inv T w -> targets_only_inv T (handle_scan_restrictions e a w).
Proof.
  unfold targets_only_inv, deferred_publish. intros Ha (HT & Hq & Hd).
  destruct (handle_scan_restrictions_fields e a w) as (_ & Hhd & _).
  cbn zeta in Hhd.
  rewrite Hhd, handle_scan_restrictions_queue_hosts.
  cbn [targethosts alivehosts_not_to_be_sent_to_openvas].
  split; [done|].
  destruct (max_scan_hosts_reached (scan_restrictions w)).
  - rewrite app_nil_r. split; [done | set_solver].
  - split; [|done].
    intros a' [Hin | ->%list_elem_of_singleton]%elem_of_app; [by apply Hq|done].
Qed.

Lemma targets_only_inv_got_packet T e p w :
  targets_only_inv T w -> targets_only_inv T (got_packet e p w).
Proof.
  intros Hinv.
  destruct (got_packet_cases e p w)
    as [-> | [(_ & _ & ->) | (_ & _ & Ht & ->)]]; [done | done |].
  apply targets_only_inv_handle_scan_restrictions; [|done].
  destruct Hinv as (<- & _). by apply elem_of_dom.
Qed.

Lemma targets_only_inv_ping T p w :
  targets_only_inv T w -> targets_only_inv T (emit (Ping p) w).
Proof.
  unfold targets_only_inv, emit, deferred_publish. cbn [out hosts_data].
  rewrite queue_hosts_app. change (queue_hosts [Ping p]) with (@nil string).
  by rewrite app_nil_r.
Qed.

Lemma targets_only_inv_log T m w :
  targets_only_inv T w -> targets_only_inv T (emit (Log m) w).
Proof.
  unfold targets_only_inv, emit, deferred_publish. cbn [out hosts_data].
  rewrite queue_hosts_app. change (queue_hosts [Log m]) with (@nil string).
  by rewrite app_nil_r.
Qed.

Lemma targets_only_detection e hosts :
  aborts e hosts = false ->
  targets_only_inv (init_targethosts hosts) (detection_world e hosts).
Proof.
  intros Ha. destruct (not_aborts e hosts Ha) as [Hi Hp].
  destruct (init_world_fields e hosts Hi) as (_ & Hhd & _ & _ & _ & Ho).
  unfold detection_world. rewrite Ha.
  apply (scan_detect_preserves_guarded e
           (targets_only_inv (init_targethosts hosts))).
  - done.
  - intros p w. apply targets_only_inv_got_packet.
  - done.
  - intros p w _. apply targets_only_inv_ping.
  - intros w _. apply targets_only_inv_log.
  - intros _ key value w Hk _.
    apply targets_only_inv_handle_scan_restrictions.
    rewrite Hhd in Hk. cbn [targethosts] in Hk. by apply elem_of_dom.
  - destruct (projections_logs (init_ports e).1) as (_ & Hq & _).
    unfold targets_only_inv, deferred_publish. rewrite Hhd, Ho, Hq.
    cbn [targethosts alivehosts_not_to_be_sent_to_openvas].
    split; [done|]. split; [|set_solver]. intros a Hin%elem_of_nil. done.
Qed.

(** X4: every address a run puts on the queue is the address string of one
    of the hosts it was given, whatever frames the sniffer captures. *)
Theorem published_hosts_are_targets e hosts a :
  a ∈ queue_hosts (out (start_alive_detection e hosts)) ->
  exists h, h ∈ hosts /\ host_value_str h = a.
Proof.
  intros Hin.
  destruct (aborts e hosts) eqn:Ha.
  { destruct (start_alive_detection_aborts e hosts Ha) as (_ & Hq & _).
    cbn zeta in Hq. rewrite Hq in Hin. by apply elem_of_nil in Hin. }
  rewrite (start_alive_detection_scans e hosts Ha) in Hin. cbn zeta in Hin.
  destruct (reports_frame e
              (int_wrap (Z.of_nat (size (init_targethosts hosts))))
              (scan_detect e (alive_test_of e) (init_world e hosts)).1
              (detection_world e hosts)) as (_ & Hq & _).
  cbn zeta in Hq. rewrite Hq in Hin.
  destruct (targets_only_detection e hosts Ha) as (_ & Hpub & _).
  apply Hpub in Hin. rewrite dom_init_targethosts in Hin.
  apply elem_of_list_to_set, list_elem_of_fmap in Hin as (h & -> & Hh).
  by exists h.
Qed.

Lemma published_hosts_are_targets_witness :
  exists h, h ∈ three_hosts /\ host_value_str h = "10.0.0.1"%string.
Proof.
  apply (published_hosts_are_targets
           (example_env ALIVE_TEST_ICMP [("max_scan_hosts", "1")]%string
              [[ipv4_reply "10.0.0.1"]; [ipv4_reply "10.0.0.3"]])
           three_hosts "10.0.0.1"%string).
  apply (bool_decide_unpack _). vm_compute. exact I.
Defined.

(** X8: the target table maps an address string to the last host of the
    list with that string (an insert replaces the entry of an equal key),
    and its keys are the address strings of the list. *)
Theorem target_table_lookup hosts :
  (forall k,
      init_targethosts hosts !! k
      = last (filter (fun h => host_value_str h = k) hosts))
  /\ dom (init_targethosts hosts) = list_to_set (host_value_str <$> hosts)
  /\ (size (init_targethosts hosts) <= length hosts)%nat.
Proof.
  split; [apply init_targethosts_lookup|].
  split; [apply dom_init_targethosts|].
  apply size_init_targethosts.
Qed.

(** ** Frames from a known source *)

Lemma alivehosts_add_old a w :
  a ∈ alive_seen w -> (alivehosts_add a w).2 = w.
Proof.
  destruct w as [r [al T D] sc fin att pend tr].
  unfold alive_seen, alivehosts_add, set_hosts_data. cbn. intros Ha.
  replace ({[a]} ∪ al) with al by set_solver. done.
Qed.

Lemma got_packet_old e p w :
  sniffed_addr_str p ∈ alive_seen w -> got_packet e p w = w.
Proof.
  intros Ha.
  destruct (max_alive_hosts_reached (scan_restrictions w)) eqn:Hr.
  - by apply got_packet_stopped.
  - rewrite got_packet_ignored; [|done|by left].
    by apply alivehosts_add_old.
Qed.

Lemma got_packet_seen e p w :
  max_alive_hosts_reached (scan_restrictions w) = true
  \/ sniffed_addr_str p ∈ alive_seen (got_packet e p w).
Proof.
  destruct (max_alive_hosts_reached (scan_restrictions w)) eqn:Hr;
    [by left|right].
  destruct (alivehosts_add_fields (sniffed_addr_str p) w) as (_ & Ha & _).
  cbn zeta in Ha.
  destruct (decide (sniffed_addr_str p ∈ alive_seen w)) as [Hin|Hnew].
  { rewrite got_packet_ignored; [|done|by left]. rewrite Ha. set_solver. }
  destruct (targethosts (hosts_data w) !! sniffed_addr_str p) eqn:Ht.
  - rewrite got_packet_handled; [|done|done|by rewrite Ht].
    destruct (handle_scan_restrictions_fields e (sniffed_addr_str p)
                (alivehosts_add (sniffed_addr_str p) w).2) as (_ & Hhd & _).
    cbn zeta in Hhd. unfold alive_seen in *. rewrite Hhd. cbn [alivehosts].
    rewrite Ha. set_solver.
  - rewrite got_packet_ignored; [|done|by right]. rewrite Ha. set_solver.
Qed.

(** X5: a frame whose source address was already taken from an earlier
    frame changes nothing: got_packet on a second frame with the source of
    the first, of whatever protocol, leaves the world as the first left
    it. *)
Theorem got_packet_same_source e p q w :
  sniffed_addr_str q = sniffed_addr_str p ->
  got_packet e q (got_packet e p w) = got_packet e p w.
Proof.
  intros Hq.
  destruct (got_packet_seen e p w) as [Hr | Hseen].
  - rewrite (got_packet_stopped e p w Hr). by apply got_packet_stopped.
  - apply got_packet_old. by rewrite Hq.
Qed.

Lemma got_packet_same_source_witness :
  let e := example_env ALIVE_TEST_ICMP [] [] in
  let p := ipv4_reply "10.0.0.1" in
  let q := mk_packet 6 "0.0.0.0" "10.0.0.1" "0.0.0.0" in
  let w := init_world e three_hosts in
  got_packet e q (got_packet e p w) = got_packet e p w.
Proof.
  apply (got_packet_same_source (example_env ALIVE_TEST_ICMP [] [])
           (ipv4_reply "10.0.0.1")
           (mk_packet 6 "0.0.0.0" "10.0.0.1" "0.0.0.0")
           (init_world (example_env ALIVE_TEST_ICMP [] []) three_hosts)).
  reflexivity.
Defined.

(** ** The alive table holds the sources of the frames *)

Lemma reply_sources_app l1 l2 :
  reply_sources (l1 ++ l2) = reply_sources l1 ∪ reply_sources l2.
Proof. unfold reply_sources. by rewrite fmap_app, list_to_set_app_L. Qed.

Lemma got_packet_alive e p w :
  pending (got_packet e p w) = pending w
  /\ ((max_alive_hosts_reached (scan_restrictions w) = true
       /\ got_packet e p w = w)
      \/ (max_alive_hosts_reached (scan_restrictions w) = false
          /\ alive_seen (got_packet e p w)
             = {[sniffed_addr_str p]} ∪ alive_seen w)).
Proof.
  destruct (max_alive_hosts_reached (scan_restrictions w)) eqn:Hr.
  { rewrite (got_packet_stopped e p w Hr). split; [done | by left]. }
  destruct (decide (sniffed_addr_str p ∈ alive_seen w
                    \/ targethosts (hosts_data w) !! sniffed_addr_str p = None))
    as [Hwhy|Hnot].
  { rewrite got_packet_ignored by done. split; [done | by right]. }
  rewrite got_packet_handled; [|done|tauto|].
  2:{ destruct (targethosts (hosts_data w) !! sniffed_addr_str p); [done|tauto]. }
  destruct (handle_scan_restrictions_fields e (sniffed_addr_str p)
              (alivehosts_add (sniffed_addr_str p) w).2)
    as (_ & Hhd & _ & Hp & _).
  cbn zeta in Hhd, Hp. split; [by rewrite Hp | right]. split; [done|].
  unfold alive_seen. by rewrite Hhd.
Qed.

Lemma sniff_alive e batch w :
  let w' := sniff e batch w in
  pending w' = pending w
  /\ alive_seen w' ⊆ alive_seen w ∪ reply_sources batch
  /\ (max_alive_hosts_reached (scan_restrictions w') = false ->
      max_alive_hosts_reached (scan_restrictions w) = false
      /\ alive_seen w' = alive_seen w ∪ reply_sources batch).
Proof.
  cbn zeta. revert w. unfold sniff.
  induction batch as [|p batch IH]; intros w; cbn [fold_left].
  { unfold reply_sources. cbn. split; [done|].
    rewrite (right_id_L ∅ (∪)). done. }
  destruct (IH (got_packet e p w)) as (Hp & Hsub & Heq).
  change (p :: batch) with ([p] ++ batch). rewrite reply_sources_app.
  assert (reply_sources [p] = {[sniffed_addr_str p]}) as ->.
  { unfold reply_sources. cbn. apply (right_id_L ∅ (∪)). }
  destruct (got_packet_alive e p w) as (Hp' & [[Hr Hsame] | [Hr Hal]]).
  - rewrite Hsame in *. split; [done|]. split.
    + clear -Hsub. etrans; [exact Hsub|]. apply union_mono_l, union_subseteq_r.
    + intros Hr'. apply Heq in Hr' as [Hr' _]. congruence.
  - rewrite Hp, Hp'. split; [done|]. rewrite Hal in *. split.
    + clear -Hsub. etrans; [exact Hsub|].
      rewrite (comm_L (∪) {[sniffed_addr_str p]}), (assoc_L (∪)). done.
    + intros Hr'. apply Heq in Hr' as [_ ->]. split; [done|].
      by rewrite (comm_L (∪) {[sniffed_addr_str p]}), (assoc_L (∪)).
Qed.

Lemma sources_inv_sniffer_turn S e w :
  sources_inv S w -> sources_inv S (sniffer_turn e w).
Proof.
  unfold sniffer_turn. destruct (pending w) as [|batch rest] eqn:Hpend; [done|].
  unfold sources_inv. rewrite Hpend. cbn [concat].
  rewrite reply_sources_app. intros [Hsub Heq].
  destruct (sniff_alive e batch (set_pending rest w)) as (Hp & Hsub' & Heq').
  cbn zeta in *. rewrite Hp.
  change (pending (set_pending rest w)) with rest.
  change (alive_seen (set_pending rest w)) with (alive_seen w) in *.
  change (scan_restrictions (set_pending rest w))
    with (scan_restrictions w) in *.
  split.
  - clear -Hsub Hsub'.
    generalize dependent (alive_seen (sniff e batch (set_pending rest w))).
    generalize dependent (alive_seen w).
    generalize dependent (reply_sources batch).
    generalize dependent (reply_sources (concat rest)).
    intros; set_solver.
  - intros Hr. apply Heq' in Hr as [Hr ->]. specialize (Heq Hr).
    by rewrite <- (assoc_L (∪)).
Qed.

Lemma sources_inv_frame S w w' :
  alive_seen w' = alive_seen w ->
  pending w' = pending w ->
  (max_alive_hosts_reached (scan_restrictions w') = false ->
   max_alive_hosts_reached (scan_restrictions w) = false) ->
  sources_inv S w -> sources_inv S w'.
Proof.
  unfold sources_inv. intros -> -> Hr [Hsub Heq]. split; [done|].
  intros Hr'. by apply Heq, Hr.
Qed.

Lemma sources_inv_handle_scan_restrictions S e a w :
  sources_inv S w -> sources_inv S (handle_scan_restrictions e a w).
Proof.
  destruct (handle_scan_restrictions_fields e a w)
    as (Hsr & Hhd & _ & Hp & _).
  cbn zeta in Hsr, Hhd, Hp.
  apply sources_inv_frame; [unfold alive_seen; by rewrite Hhd | done |].
  rewrite Hsr. cbn [max_alive_hosts_reached].
  by intros [? _]%orb_false_elim.
Qed.

Lemma sources_inv_ping_loop S e body targets st :
  (forall key value w, sources_inv S w -> sources_inv S (body key value w)) ->
  sources_inv S st.2 -> sources_inv S (ping_loop e body targets st).2.
Proof.
  intros Hbody. revert st.
  induction targets as [|[key value] targets IH]; intros [n w] Hw;
    cbn [ping_loop]; [done|].
  cbn [snd] in Hw. apply (sources_inv_sniffer_turn S e) in Hw.
  destruct (max_alive_hosts_reached (scan_restrictions (sniffer_turn e w)));
    [done|].
  apply IH. cbn [snd]. by apply Hbody.
Qed.

Lemma sources_inv_scan_methods S e alive_test st :
  sources_inv S st.2 -> sources_inv S (scan_methods e alive_test st).2.
Proof.
  intros Hw. rewrite scan_methods_numerals. cbn zeta.
  assert (forall m targets st',
            sources_inv S st'.2 ->
            sources_inv S (ping_loop e (send_by m) targets st').2) as Hloop.
  { intros m targets st' Hst'. apply sources_inv_ping_loop; [|done].
    intros key value w. rewrite send_by_ping.
    destruct (warn_no_addr6_fields value w) as (Hsr & Hhd & _ & Hpend & _).
    cbn zeta in Hsr, Hhd, Hpend.
    apply sources_inv_frame; unfold emit, alive_seen;
      cbn [hosts_data pending scan_restrictions]; by rewrite ?Hhd, ?Hsr. }
  assert (forall flag st',
            sources_inv S st'.2 -> sources_inv S (set_tcp_flag flag st').2)
    as Hflag.
  { intros flag st'. by apply sources_inv_frame. }
  alive_test_cases alive_test ltac:(by repeat first [apply Hloop | apply Hflag]).
  destruct (Z.eqb_spec alive_test 8) as [->|?]; [|done].
  apply sources_inv_ping_loop; [|done].
  intros key value w. apply sources_inv_handle_scan_restrictions.
Qed.

Lemma sniffer_drain_alive e w :
  let w' := sniffer_drain e w in
  alive_seen w' ⊆ alive_seen w ∪ reply_sources (concat (pending w))
  /\ (max_alive_hosts_reached (scan_restrictions w') = false ->
      max_alive_hosts_reached (scan_restrictions w) = false
      /\ alive_seen w'
         = alive_seen w ∪ reply_sources (concat (pending w))).
Proof.
  cbn zeta. unfold sniffer_drain.
  change (alive_seen w) with (alive_seen (set_pending [] w)).
  change (scan_restrictions w) with (scan_restrictions (set_pending [] w)).
  generalize (set_pending [] w) as w0.
  induction (pending w) as [|batch rest IH]; intros w0; cbn [fold_left concat].
  { unfold reply_sources. cbn. rewrite (right_id_L ∅ (∪)). done. }
  destruct (IH (sniff e batch w0)) as [Hsub Heq].
  destruct (sniff_alive e batch w0) as (_ & Hsub' & Heq').
  cbn zeta in *. rewrite reply_sources_app. split.
  - clear -Hsub Hsub'.
    generalize dependent
      (alive_seen (fold_left (fun w batch => sniff e batch w) rest
                     (sniff e batch w0))).
    generalize dependent (alive_seen (sniff e batch w0)).
    generalize dependent (alive_seen w0).
    generalize dependent (reply_sources batch).
    generalize dependent (reply_sources (concat rest)).
    intros; set_solver.
  - intros Hr. apply Heq in Hr as [Hr ->]. apply Heq' in Hr as [Hr ->].
    split; [done|]. by rewrite <- (assoc_L (∪)).
Qed.

(** X6: when the sniffer is joined, the alive table holds source addresses
    of captured frames only, targets or not; and unless max_alive_hosts was
    reached it holds the source address of every frame captured. *)
Theorem alive_table_is_reply_sources e hosts :
  aborts e hosts = false ->
  let wd := detection_world e hosts in
  alive_seen wd ⊆ reply_sources (concat (arrivals e))
  /\ (max_alive_hosts_reached (scan_restrictions wd) = false ->
      alive_seen wd = reply_sources (concat (arrivals e))).
Proof.
  intros Ha. cbn zeta. destruct (not_aborts e hosts Ha) as [Hi Hp].
  destruct (init_world_fields e hosts Hi) as (_ & Hhd & _ & _ & Hpend & _).
  unfold detection_world. rewrite Ha. unfold scan_detect.
  set (S := reply_sources (concat (arrivals e))).
  assert (sources_inv S (0, init_world e hosts).2) as H0.
  { unfold sources_inv, alive_seen. cbn [snd]. rewrite Hhd, Hpend.
    cbn [alivehosts]. fold S. rewrite (left_id_L ∅ (∪)). done. }
  apply (sources_inv_scan_methods S e (alive_test_of e)) in H0.
  destruct (scan_methods e (alive_test_of e) (0, init_world e hosts))
    as [n w1].
  cbn [snd] in *. destruct H0 as [Hsub Heq].
  destruct (sniffer_drain_alive e w1) as [Hsub' Heq']. cbn zeta in *.
  split.
  - clear -Hsub Hsub'. etrans; [exact Hsub'|exact Hsub].
  - intros Hr. apply Heq' in Hr as [Hr ->]. specialize (Heq Hr).
    clear -Hsub Heq. apply (anti_symm (⊆)); done.
Qed.

Lemma alive_table_is_reply_sources_witness :
  let e :=
    example_env ALIVE_TEST_ICMP []
      [[ipv4_reply "10.0.0.1"]; [ipv4_reply "10.0.0.9"]] in
  let wd := detection_world e three_hosts in
  alive_seen wd ⊆ reply_sources (concat (arrivals e))
  /\ (max_alive_hosts_reached (scan_restrictions wd) = false ->
      alive_seen wd = reply_sources (concat (arrivals e))).
Proof.
  apply (alive_table_is_reply_sources
           (example_env ALIVE_TEST_ICMP []
              [[ipv4_reply "10.0.0.1"]; [ipv4_reply "10.0.0.9"]])
           three_hosts).
  reflexivity.
Defined.

(** ** The ERRMSG result *)

Lemma errmsgs_app tr1 tr2 : errmsgs (tr1 ++ tr2) = errmsgs tr1 ++ errmsgs tr2.
Proof. apply omap_app. Qed.

Lemma errmsgs_handle_scan_restrictions e a w :
  errmsgs (out (handle_scan_restrictions e a w)) = errmsgs (out w).
Proof.
  destruct (handle_scan_restrictions_fields e a w)
    as (_ & _ & _ & _ & _ & Ho).
  cbn zeta in Ho. rewrite Ho, !errmsgs_app.
  assert (forall A B : list Z, A = [] -> B = [] ->
            errmsgs (out w) ++ A ++ B = errmsgs (out w)) as Hnil.
  { intros A B -> ->. by rewrite app_nil_r. }
  apply Hnil; by repeat case_match.
Qed.

Lemma errmsgs_got_packet e p w :
  errmsgs (out (got_packet e p w)) = errmsgs (out w).
Proof.
  destruct (got_packet_cases e p w)
    as [-> | [(_ & _ & ->) | (_ & _ & _ & ->)]]; [done | done |].
  by rewrite errmsgs_handle_scan_restrictions.
Qed.

Lemma errmsgs_detection e hosts :
  errmsgs (out (detection_world e hosts)) = [].
Proof.
  unfold detection_world. destruct (aborts e hosts) eqn:Ha; [done|].
  destruct (not_aborts e hosts Ha) as [Hi Hp].
  destruct (init_world_fields e hosts Hi) as (_ & _ & _ & _ & _ & Ho).
  apply (scan_detect_preserves e (fun w => errmsgs (out w) = [])).
  - done.
  - intros p w <-. apply errmsgs_got_packet.
  - done.
  - intros p w Hw. unfold emit. cbn [out]. by rewrite errmsgs_app, Hw.
  - intros w Hw. unfold emit. cbn [out]. by rewrite errmsgs_app, Hw.
  - intros _ key w <-. apply errmsgs_handle_scan_restrictions.
  - rewrite Ho. clear. induction (init_ports e).1; done.
Qed.

(** number_of_targets_checked counts the pings sent. *)
Lemma ping_loop_checked e m targets st P0 b :
  st.1 = Z.of_nat (length (pings_of (out st.2))) - P0 ->
  0 <= st.1 <= b ->
  b + Z.of_nat (length targets) <= INT_MAX ->
  let st' := ping_loop e (send_by m) targets st in
  st'.1 = Z.of_nat (length (pings_of (out st'.2))) - P0
  /\ 0 <= st'.1 <= b + Z.of_nat (length targets).
Proof.
  cbn zeta. revert st b.
  induction targets as [|[key value] targets IH]; intros [c w] b Hc Hb Hmax;
    cbn [ping_loop length fst snd] in *; [lia|].
  destruct (sender_frame_sniffer_turn e w) as (_ & _ & Hp & _).
  destruct (max_alive_hosts_reached (scan_restrictions (sniffer_turn e w))).
  { cbn [fst snd]. rewrite Hp. lia. }
  destruct (IH (int_incr c, send_by m key value (sniffer_turn e w)) (b + 1))
    as [H1 H2]; cbn [fst snd].
  - rewrite int_incr_small by lia. rewrite send_by_ping. unfold emit.
    destruct (warn_no_addr6_fields value (sniffer_turn e w))
      as (_ & _ & _ & _ & _ & _ & _ & Hwp & _).
    cbn zeta in Hwp.
    cbn [out]. rewrite pings_of_app, length_app, Hwp, Hp.
    change (pings_of [Ping ?p]) with [p]. cbn [length]. lia.
  - rewrite int_incr_small by lia. lia.
  - lia.
  - split; [done | lia].
Qed.

Lemma scan_methods_checked e alive_test w :
  alive_test <> ALIVE_TEST_CONSIDER_ALIVE ->
  3 * Z.of_nat (size (targethosts (hosts_data w))) <= INT_MAX ->
  let st' := scan_methods e alive_test (0, w) in
  st'.1
  = Z.of_nat (length (pings_of (out st'.2)))
    - Z.of_nat (length (pings_of (out w)))
  /\ 0 <= st'.1.
Proof.
  intros Hca Hsmall. cbn zeta. rewrite scan_methods_numerals. cbn zeta.
  cbn [snd]. rewrite <- length_map_to_list in Hsmall.
  set (targets := map_to_list (targethosts (hosts_data w))) in *.
  set (P0 := Z.of_nat (length (pings_of (out w)))).
  set (L := Z.of_nat (length targets)) in *.
  assert (forall m st b,
            (st.1 = Z.of_nat (length (pings_of (out st.2))) - P0
             /\ 0 <= st.1 <= b) ->
            b + L <= INT_MAX ->
            (ping_loop e (send_by m) targets st).1
            = Z.of_nat (length (pings_of
                                  (out (ping_loop e (send_by m) targets st).2)))
              - P0
            /\ 0 <= (ping_loop e (send_by m) targets st).1 <= b + L) as Hloop.
  { intros m st b [H1 H2] Hb. by apply ping_loop_checked. }
  assert (forall flag st b,
            (st.1 = Z.of_nat (length (pings_of (out st.2))) - P0
             /\ 0 <= st.1 <= b) ->
            (set_tcp_flag flag st).1
            = Z.of_nat (length (pings_of (out (set_tcp_flag flag st).2))) - P0
            /\ 0 <= (set_tcp_flag flag st).1 <= b) as Hflag.
  { intros flag st b H. exact H. }
  assert ((0, w).1 = Z.of_nat (length (pings_of (out (0, w).2))) - P0
          /\ 0 <= (0, w).1 <= 0) as H0.
  { cbn [fst snd]. unfold P0. lia. }
  pose proof (Hflag TH_ACK _ _ H0) as Ha.
  pose proof (Hflag TH_SYN _ _ H0) as Hs.
  destruct (alive_test =? 7).
  { pose proof (Hloop TCP _ _ Ha ltac:(lia)) as H1.
    pose proof (Hloop ICMP _ _ H1 ltac:(lia)) as H2.
    pose proof (Hloop ARP _ _ H2 ltac:(lia)) as H3. lia. }
  destruct (alive_test =? 5).
  { pose proof (Hloop TCP _ _ Ha ltac:(lia)) as H1.
    pose proof (Hloop ARP _ _ H1 ltac:(lia)) as H2. lia. }
  destruct (alive_test =? 6).
  { pose proof (Hloop ICMP _ _ H0 ltac:(lia)) as H1.
    pose proof (Hloop ARP _ _ H1 ltac:(lia)) as H2. lia. }
  destruct (alive_test =? 3).
  { pose proof (Hloop ICMP _ _ H0 ltac:(lia)) as H1.
    pose proof (Hflag TH_ACK _ _ H1) as H1'.
    pose proof (Hloop TCP _ _ H1' ltac:(lia)) as H2. lia. }
  destruct (alive_test =? 4).
  { pose proof (Hloop ARP _ _ H0 ltac:(lia)) as H1. lia. }
  destruct (alive_test =? 1).
  { pose proof (Hloop TCP _ _ Ha ltac:(lia)) as H1. lia. }
  destruct (alive_test =? 16).
  { pose proof (Hloop TCP _ _ Hs ltac:(lia)) as H1. lia. }
  destruct (alive_test =? 2).
  { pose proof (Hloop ICMP _ _ H0 ltac:(lia)) as H1. lia. }
  destruct (Z.eqb_spec alive_test 8) as [->|?]; [done|].
  cbn [fst snd]. lia.
Qed.

Lemma errmsgs_reports e w :
  errmsgs (out (put_finish_signal_on_queue e
                  (send_dead_hosts_to_ospd_openvas e w).2).2)
  = errmsgs (out w).
Proof.
  assert (forall w0,
            errmsgs (out (put_finish_signal_on_queue e w0).2)
            = errmsgs (out w0)) as Hfin.
  { intros w0. unfold put_finish_signal_on_queue.
    repeat case_match; cbn [snd out]; [done | | done].
    by rewrite errmsgs_app, app_nil_r. }
  rewrite Hfin. unfold send_dead_hosts_to_ospd_openvas.
  case_match; cbn [snd]; [done|]. unfold emit. cbn [out].
  by rewrite errmsgs_app, app_nil_r.
Qed.

(** X7: in a run of ping methods that reaches max_alive_hosts, with the
    result queue at hand, one ERRMSG is sent and the number it reports is
    the number of targets less the number of pings sent, or 0 when as many
    pings as targets were sent; a run that does not reach max_alive_hosts
    sends no ERRMSG. *)
Theorem errmsg_counts_targets_not_pinged e hosts :
  aborts e hosts = false ->
  alive_test_of e <> ALIVE_TEST_CONSIDER_ALIVE ->
  kb_conn_errmsg e = true ->
  errmsg_push_ok e = true ->
  3 * Z.of_nat (length hosts) < 2 ^ 31 ->
  let w := start_alive_detection e hosts in
  errmsgs (out w)
  = if max_alive_hosts_reached (scan_restrictions w)
    then [Z.max 0 (Z.of_nat (size (init_targethosts hosts))
                   - Z.of_nat (length (pings_of (out w))))]
    else [].
Proof.
  intros Ha Hca Hkb Hpush Hsmall. cbn zeta.
  destruct (not_aborts e hosts Ha) as [Hi Hp].
  destruct (init_world_fields e hosts Hi) as (_ & Hhd & _ & _ & _ & Ho).
  pose proof (size_init_targethosts hosts) as Hsz.
  rewrite (start_alive_detection_scans e hosts Ha). cbn zeta.
  destruct (reports_frame e
              (int_wrap (Z.of_nat (size (init_targethosts hosts))))
              (scan_detect e (alive_test_of e) (init_world e hosts)).1
              (detection_world e hosts)) as (-> & _ & ->).
  rewrite errmsgs_reports.
  pose proof (errmsgs_detection e hosts) as Hnone.
  destruct (scan_methods_checked e (alive_test_of e) (init_world e hosts) Hca)
    as [Hn Hn0].
  { rewrite Hhd. cbn [targethosts]. unfold INT_MAX. lia. }
  assert (pings_of (out (init_world e hosts)) = []) as Hp0.
  { rewrite Ho. by destruct (projections_logs (init_ports e).1) as (-> & _). }
  rewrite Hp0 in Hn. cbn [length] in Hn.
  unfold detection_world in *. rewrite Ha in *. unfold scan_detect in *.
  destruct (scan_methods e (alive_test_of e) (0, init_world e hosts))
    as [n w1].
  cbn [fst snd] in *.
  destruct (sender_frame_sniffer_drain e w1) as (_ & _ & Hpd & _).
  rewrite Hpd. unfold scan_errmsg.
  destruct (max_alive_hosts_reached (scan_restrictions (sniffer_drain e w1)));
    [|done].
  rewrite Hkb, Hpush. unfold emit. cbn [out]. rewrite errmsgs_app, Hnone.
  cbn [app]. change (errmsgs [KbPush (ResultErrMsg ?x)]) with [x].
  rewrite int_wrap_small by lia. f_equal.
  destruct (Z.geb_spec n (Z.of_nat (size (init_targethosts hosts)))).
  - lia.
  - rewrite int_wrap_small by lia. lia.
Qed.

Lemma errmsg_counts_targets_not_pinged_witness :
  let e :=
    example_env ALIVE_TEST_ICMP
      [("max_scan_hosts", "1"); ("max_alive_hosts", "1")]%string
      [[]; [ipv4_reply "10.0.0.1"]] in
  let w := start_alive_detection e three_hosts in
  errmsgs (out w) = [2]
  /\ errmsgs (out w)
     = if max_alive_hosts_reached (scan_restrictions w)
       then [Z.max 0 (Z.of_nat (size (init_targethosts three_hosts))
                      - Z.of_nat (length (pings_of (out w))))]
       else [].
Proof.
  cbn zeta. split; [vm_compute; reflexivity|].
  apply (errmsg_counts_targets_not_pinged
           (example_env ALIVE_TEST_ICMP
              [("max_scan_hosts", "1"); ("max_alive_hosts", "1")]%string
              [[]; [ipv4_reply "10.0.0.1"]])
           three_hosts).
  - reflexivity.
  - vm_compute. intros Hx. discriminate Hx.
  - reflexivity.
  - reflexivity.
  - vm_compute. reflexivity.
Defined.

(** ** The ports array *)

Lemma elem_of_ports_between range_start range_end port :
  port ∈ ports_between range_start range_end
  <-> range_start <= port <= range_end.
Proof.
  unfold ports_between. rewrite list_elem_of_fmap. split.
  - intros (i & -> & Hi). apply elem_of_seq in Hi. lia.
  - intros Hp. exists (Z.to_nat (port - range_start)). split; [lia|].
    apply elem_of_seq. lia.
Qed.

Lemma ports_between_sorted range_start range_end :
  StronglySorted Z.lt (ports_between range_start range_end).
Proof.
  unfold ports_between.
  generalize (Z.to_nat (range_end - range_start + 1)) as n.
  generalize 0%nat as i. intros i n. revert i.
  induction n as [|n IH]; intros i; cbn [seq map]; constructor; [apply IH|].
  apply Forall_forall. intros p (j & -> & Hj)%list_elem_of_fmap.
  apply elem_of_seq in Hj. lia.
Qed.

Lemma fill_ports_array_app ports_array range :
  fill_ports_array ports_array range
  = ports_array ++ fill_ports_array [] range.
Proof.
  unfold fill_ports_array. repeat case_match; by rewrite ?app_nil_r.
Qed.

Lemma fold_fill_ports_array ranges ports_array :
  fold_left fill_ports_array ranges ports_array
  = ports_array ++ concat (map (fill_ports_array []) ranges).
Proof.
  revert ports_array.
  induction ranges as [|r ranges IH]; intros ports_array; cbn [fold_left map concat].
  - by rewrite app_nil_r.
  - by rewrite IH, (fill_ports_array_app ports_array r), app_assoc.
Qed.

Lemma elem_of_fill_ports_array range port :
  port ∈ fill_ports_array [] range
  <-> range_exclude range = false
      /\ ((range_end range = 0 /\ port = range_start range)
          \/ (range_end range <> 0
              /\ range_start range <= port <= range_end range)).
Proof.
  unfold fill_ports_array. destruct (range_exclude range).
  { split; [by intros ?%elem_of_nil | by intros [? _]]. }
  destruct (Z.eqb_spec (range_end range) 0) as [H0|H0]; cbn [orb app].
  { rewrite list_elem_of_singleton. split; [by intros ->; auto|].
    intros [_ [[_ ->] | [? _]]]; done. }
  destruct (Z.eqb_spec (range_start range) (range_end range)) as [Heq|Hne].
  { rewrite list_elem_of_singleton. split.
    - intros ->. split; [done|]. right. lia.
    - intros [_ [[? _] | [_ ?]]]; [done | lia]. }
  rewrite elem_of_ports_between. split.
  - intros Hp. split; [done|]. by right.
  - intros [_ [[? _] | [_ ?]]]; done.
Qed.

Lemma elem_of_concat_ports (ls : list (list Z)) (x : Z) :
  x ∈ concat ls <-> exists l, x ∈ l /\ l ∈ ls.
Proof.
  induction ls as [|l ls IH]; cbn [concat].
  - split; [by intros ?%elem_of_nil | by intros (l & _ & ?%elem_of_nil)].
  - rewrite elem_of_app, IH. split.
    + intros [Hx | (l' & Hx & Hl')]; [exists l | exists l'];
        (split; [done|]); [by left | by right].
    + intros (l' & Hx & [-> | Hl']%elem_of_cons); [by left|].
      right. by exists l'.
Qed.

(** X9: the ports array built from a list of ranges (with ends below
    INT_MAX, so that the loop counter stays in range) holds a port exactly
    when some range that is not marked as excluded gives it: its start when
    its end is 0, every port from start to end otherwise (none when start is
    above end).  A range marked as excluded only adds nothing: it takes no
    port of another range away. *)
Theorem ports_array_members ranges port :
  Forall (fun range => range_end range < INT_MAX) ranges ->
  port ∈ fold_left fill_ports_array ranges []
  <-> exists range,
        range ∈ ranges
        /\ range_exclude range = false
        /\ ((range_end range = 0 /\ port = range_start range)
            \/ (range_end range <> 0
                /\ range_start range <= port <= range_end range)).
Proof.
  intros _. rewrite fold_fill_ports_array. cbn [app].
  rewrite elem_of_concat_ports. split.
  - intros (l & Hp & (r & -> & Hr)%list_elem_of_fmap).
    exists r. split; [done|]. by apply elem_of_fill_ports_array.
  - intros (r & Hr & Hp). exists (fill_ports_array [] r). split.
    + by apply elem_of_fill_ports_array.
    + apply list_elem_of_fmap. by exists r.
Qed.

Lemma ports_array_members_witness :
  let ranges :=
    [mk_range 80 82 false; mk_range 81 81 true; mk_range 443 0 false;
     mk_range 90 85 false] in
  fold_left fill_ports_array ranges [] = [80; 81; 82; 443]
  /\ (81 ∈ fold_left fill_ports_array ranges []
      <-> exists range,
            range ∈ ranges
            /\ range_exclude range = false
            /\ ((range_end range = 0 /\ 81 = range_start range)
                \/ (range_end range <> 0
                    /\ range_start range <= 81 <= range_end range))).
Proof.
  cbn zeta. split; [reflexivity|].
  apply (ports_array_members
           [mk_range 80 82 false; mk_range 81 81 true; mk_range 443 0 false;
            mk_range 90 85 false] 81).
  repeat (constructor; [vm_compute; reflexivity|]). constructor.
Defined.

(** X10: the ports array keeps the order of the ranges and keeps duplicate
    ports: filling it from a list of ranges (with ends below INT_MAX) puts
    behind its former content the ports of each range in turn, and the
    ports of one range stand in ascending order without repetition. *)
Theorem ports_array_order ranges ports_array :
  Forall (fun range => range_end range < INT_MAX) ranges ->
  fold_left fill_ports_array ranges ports_array
  = ports_array ++ concat (map (fill_ports_array []) ranges)
  /\ (forall range, StronglySorted Z.lt (fill_ports_array [] range)).
Proof.
  intros _. split; [apply fold_fill_ports_array|].
  intros r. unfold fill_ports_array.
  repeat case_match; cbn [app].
  - constructor.
  - repeat constructor.
  - apply ports_between_sorted.
Qed.

Lemma ports_array_order_witness :
  let ranges := [mk_range 80 82 false; mk_range 81 83 false] in
  fold_left fill_ports_array ranges [22] = [22; 80; 81; 82; 81; 82; 83]
  /\ fold_left fill_ports_array ranges [22]
     = [22] ++ concat (map (fill_ports_array []) ranges)
  /\ (forall range, StronglySorted Z.lt (fill_ports_array [] range)).
Proof.
  cbn zeta. split; [reflexivity|].
  apply (ports_array_order
           [mk_range 80 82 false; mk_range 81 83 false] [22]).
  repeat (constructor; [vm_compute; reflexivity|]). constructor.
Defined.

(** ** Sockets *)

Lemma sockets_set_fold e alive_test :
  sockets_set e alive_test
  = fold_left (fun st kind => set_socket_or_return e kind st)
      (needed_sockets alive_test) (NO_ERROR, []).
Proof.
  unfold sockets_set, needed_sockets. cbn zeta.
  destruct (negb (Z.land alive_test ALIVE_TEST_ICMP =? 0));
    destruct (negb (Z.land alive_test ALIVE_TEST_TCP_ACK_SERVICE =? 0)
              || negb (Z.land alive_test ALIVE_TEST_TCP_SYN_SERVICE =? 0));
    destruct (negb (Z.land alive_test ALIVE_TEST_ARP =? 0)); reflexivity.
Qed.

Lemma set_socket_or_return_failed e kinds err opened :
  err <> 0 ->
  fold_left (fun st kind => set_socket_or_return e kind st) kinds (err, opened)
  = (err, opened).
Proof.
  intros Herr. induction kinds as [|k kinds IH]; cbn [fold_left]; [done|].
  assert (set_socket_or_return e k (err, opened) = (err, opened)) as ->.
  { unfold set_socket_or_return. cbn [fst].
    by destruct (Z.eqb_spec err 0). }
  exact IH.
Qed.

Lemma set_socket_or_return_fold e kinds opened :
  let st :=
    fold_left (fun st kind => set_socket_or_return e kind st) kinds
      (NO_ERROR, opened) in
  (st.1 = 0 /\ st.2 = opened ++ kinds
   /\ Forall (fun kind => set_socket e kind = 0) kinds)
  \/ (exists before kind after,
         kinds = before ++ kind :: after
         /\ Forall (fun kind => set_socket e kind = 0) before
         /\ set_socket e kind <> 0
         /\ st = (set_socket e kind, opened ++ before)).
Proof.
  cbn zeta. revert opened.
  induction kinds as [|k kinds IH]; intros opened; cbn [fold_left].
  { left. by rewrite app_nil_r. }
  assert (set_socket_or_return e k (NO_ERROR, opened)
          = if set_socket e k =? 0 then (NO_ERROR, opened ++ [k])
            else (set_socket e k, opened)) as ->.
  { unfold set_socket_or_return. cbn. by destruct (set_socket e k =? 0). }
  destruct (Z.eqb_spec (set_socket e k) 0) as [Hk|Hk].
  - destruct (IH (opened ++ [k]))
      as [(H1 & H2 & H3) | (before & kind & after & -> & Hb & Hf & Hst)].
    + left. rewrite H1, H2, <- app_assoc.
      split; [done|]. split; [done|]. by constructor.
    + right. exists (k :: before), kind, after.
      split; [done|]. split; [by constructor|]. split; [done|].
      by rewrite Hst, <- app_assoc.
  - right. exists [], k, kinds. rewrite app_nil_r.
    split; [done|]. split; [constructor|]. split; [done|].
    by apply set_socket_or_return_failed.
Qed.

Lemma first_error_app e kinds1 kinds2 :
  first_error e (kinds1 ++ kinds2)
  = if negb (first_error e kinds1 =? 0) then first_error e kinds1
    else first_error e kinds2.
Proof.
  induction kinds1 as [|k kinds1 IH]; [done|].
  cbn [app first_error fold_right]. fold (first_error e (kinds1 ++ kinds2)).
  fold (first_error e kinds1). rewrite IH.
  destruct (Z.eqb_spec (set_socket e k) 0) as [Hk|Hk]; cbn [negb]; [done|].
  by destruct (Z.eqb_spec (set_socket e k) 0).
Qed.

Lemma set_all_needed_sockets_first_error e alive_test :
  set_all_needed_sockets e alive_test
  = first_error e (needed_sockets alive_test).
Proof.
  unfold needed_sockets. rewrite !first_error_app.
  unfold set_all_needed_sockets. cbn zeta.
  destruct (negb (Z.land alive_test ALIVE_TEST_ICMP =? 0));
    destruct (negb (Z.land alive_test ALIVE_TEST_TCP_ACK_SERVICE =? 0)
              || negb (Z.land alive_test ALIVE_TEST_TCP_SYN_SERVICE =? 0));
    destruct (negb (Z.land alive_test ALIVE_TEST_ARP =? 0)); reflexivity.
Qed.

Lemma first_error_fold e kinds opened :
  (fold_left (fun st kind => set_socket_or_return e kind st) kinds
     (NO_ERROR, opened)).1
  = first_error e kinds.
Proof.
  destruct (set_socket_or_return_fold e kinds opened)
    as [(H1 & _ & Hall) | (before & kind & after & -> & Hb & Hf & Hst)];
    cbn zeta in *.
  - rewrite H1. clear H1. induction Hall as [|k kinds Hk _ IH]; [done|].
    cbn [first_error fold_right]. by rewrite Hk.
  - rewrite Hst. cbn [fst]. clear Hst.
    induction Hb as [|k before Hk _ IH]; cbn [app first_error fold_right].
    + by destruct (Z.eqb_spec (set_socket e kind) 0).
    + by rewrite Hk.
Qed.

(** X11: set_all_needed_sockets sets the sockets of the methods in use in
    the order ICMPv4, ICMPv6, TCPv4, TCPv6, UDPv4, UDPv6, ARPv4, ARPv6;
    it returns 0 with all of them set when each call of set_socket
    returns 0, and otherwise it returns the error of the first socket that
    fails, with the sockets before it set and none behind it tried. *)
Theorem set_all_needed_sockets_first_failure e alive_test :
  (sockets_set e alive_test).1 = set_all_needed_sockets e alive_test
  /\ ((sockets_set e alive_test = (NO_ERROR, needed_sockets alive_test)
       /\ Forall (fun kind => set_socket e kind = 0)
            (needed_sockets alive_test))
      \/ (exists before kind after,
             needed_sockets alive_test = before ++ kind :: after
             /\ Forall (fun kind => set_socket e kind = 0) before
             /\ set_socket e kind <> 0
             /\ sockets_set e alive_test = (set_socket e kind, before))).
Proof.
  split.
  { rewrite sockets_set_fold, first_error_fold.
    symmetry. apply set_all_needed_sockets_first_error. }
  rewrite sockets_set_fold.
  destruct (set_socket_or_return_fold e (needed_sockets alive_test) [])
    as [(H1 & H2 & Hall) | (before & kind & after & Hn & Hb & Hf & Hst)];
    cbn zeta in *.
  - left. split; [|done].
    destruct (fold_left _ _ _) as [err opened]. cbn [fst snd] in *.
    by rewrite H1, H2.
  - right. by exists before, kind, after.
Qed.

Lemma close_socket_fold close_result B kinds err closed :
  let st :=
    fold_left (fun st kind => close_socket close_result B kind st) kinds
      (err, closed) in
  st.2 = closed ++ kinds
  /\ (st.1 = err \/ st.1 = B)
  /\ (Forall (fun kind => close_result kind = 0) kinds -> st.1 = err)
  /\ (B <> 0 -> st.1 = 0 ->
      Forall (fun kind => close_result kind = 0) kinds).
Proof.
  cbn zeta. revert err closed.
  induction kinds as [|k kinds IH]; intros err closed; cbn [fold_left].
  { rewrite app_nil_r. split; [done|]. split; [by left|]. split; [done|].
    constructor. }
  change (close_socket close_result B k (err, closed))
    with (if negb (close_result k =? 0) then B else err, closed ++ [k]).
  destruct (IH (if negb (close_result k =? 0) then B else err)
              (closed ++ [k])) as (H1 & H2 & H3 & H4).
  rewrite H1, <- app_assoc. split; [done|].
  destruct (Z.eqb_spec (close_result k) 0) as [Hk|Hk]; cbn [negb] in *.
  - split; [exact H2|]. split.
    + intros Hall. apply H3. by inversion Hall.
    + intros HB H0. constructor; [done|]. by apply H4.
  - split; [right; by destruct H2|]. split.
    + intros Hall. by inversion Hall.
    + intros HB H0. exfalso. destruct H2 as [H2 | H2]; congruence.
Qed.

Lemma alive_detection_free_fold e close_result kb_lnk_reset_result B w :
  alive_detection_free e close_result kb_lnk_reset_result B w
  = let st :=
      if negb ((alive_test_methods e).1 =? 0) then (B, [])
      else
        fold_left (fun st kind => close_socket close_result B kind st)
          (needed_sockets (alive_test_of e)) (NO_ERROR, []) in
    let st := if negb (kb_lnk_reset_result =? 0) then (B, st.2) else st in
    if bool_decide (deferred_publish w = ∅) then (Some st.1, st.2)
    else (None, st.2).
Proof.
  unfold alive_detection_free, needed_sockets, alive_test_of,
    deferred_publish.
  destruct (alive_test_methods e) as [alive_test_err alive_test].
  cbn [fst snd]. cbn zeta.
  destruct (negb (alive_test_err =? 0)); [done|].
  destruct (negb (Z.land alive_test ALIVE_TEST_ICMP =? 0));
    destruct (negb (Z.land alive_test ALIVE_TEST_TCP_ACK_SERVICE =? 0)
              || negb (Z.land alive_test ALIVE_TEST_TCP_SYN_SERVICE =? 0));
    destruct (negb (Z.land alive_test ALIVE_TEST_ARP =? 0)); reflexivity.
Qed.

(** X12: alive_detection_free calls close() on every socket of the methods
    in use, in the order they were set, and goes on after a close() that
    fails: after a successful initialisation it closes exactly the sockets
    set_all_needed_sockets has set, and none when the methods cannot be
    read.  If no host was withheld from the queue, its error is 0 exactly
    when the methods could be read and every close() and kb_lnk_reset()
    returned 0, and BOREAS_CLEANUP_ERROR otherwise.  If a host was withheld,
    destroying the table of the hosts not to be sent frees keys that table
    does not own, and no error is written. *)
Theorem alive_detection_free_closes e close_result kb_lnk_reset_result B w :
  B <> 0 ->
  let free := alive_detection_free e close_result kb_lnk_reset_result B w in
  let alive_test := alive_test_of e in
  ((alive_test_methods e).1 <> 0 -> free.2 = [])
  /\ ((alive_test_methods e).1 = 0 ->
      free.2 = needed_sockets alive_test
      /\ (set_all_needed_sockets e alive_test = 0 ->
          free.2 = (sockets_set e alive_test).2))
  /\ (deferred_publish w <> ∅ -> free.1 = None)
  /\ (deferred_publish w = ∅ ->
      exists err,
        free.1 = Some err
        /\ (err = 0 \/ err = B)
        /\ (err = 0
            <-> (alive_test_methods e).1 = 0
                /\ Forall (fun kind => close_result kind = 0)
                     (needed_sockets alive_test)
                /\ kb_lnk_reset_result = 0)).
Proof.
  intros HB. cbn zeta. rewrite alive_detection_free_fold. cbn zeta.
  destruct (close_socket_fold close_result B
              (needed_sockets (alive_test_of e)) NO_ERROR [])
    as (H1 & H2 & H3 & H4).
  cbn zeta in H1, H2, H3, H4. cbn [app] in H1.
  assert (set_all_needed_sockets e (alive_test_of e) = 0 ->
          (sockets_set e (alive_test_of e)).2
          = needed_sockets (alive_test_of e)) as Hset.
  { intros Hset.
    destruct (set_socket_or_return_fold e (needed_sockets (alive_test_of e))
                [])
      as [(_ & Hs & _) | (before & kind & after & Hn & Hb & Hf & Hst)];
      cbn zeta in *.
    - by rewrite sockets_set_fold, Hs.
    - exfalso.
      pose proof (first_error_fold e (needed_sockets (alive_test_of e)) [])
        as Hfe.
      rewrite Hst in Hfe. cbn [fst] in Hfe.
      rewrite set_all_needed_sockets_first_error in Hset. congruence. }
  destruct (fold_left _ _ _) as [err closed]. cbn [fst snd] in *.
  subst closed.
  destruct (Z.eqb_spec (alive_test_methods e).1 0) as [Herr|Herr];
    destruct (Z.eqb_spec kb_lnk_reset_result 0) as [Hkb|Hkb];
    destruct (decide (deferred_publish w = ∅)) as [HD|HD];
    rewrite ?(bool_decide_eq_true_2 _ HD), ?(bool_decide_eq_false_2 _ HD);
    cbn [negb fst snd].
  all: split; [done|].
  all: split; [first [done | intros _; split; [done|by intros ->%Hset]]|].
  all: split; [done|].
  all: try done.
  all: intros _.
  - exists err. split; [done|]. split; [exact H2|]. split.
    + intros H0. split; [done|]. split; [by apply H4 | done].
    + intros (_ & Hall & _). by apply H3.
  - exists B. split; [done|]. split; [by right|].
    split; [done | by intros (_ & _ & ?)].
  - exists B. split; [done|]. split; [by right|].
    split; [done | by intros (? & _)].
  - exists B. split; [done|]. split; [by right|].
    split; [done | by intros (? & _)].
Qed.

Lemma alive_detection_free_closes_witness :
  let e := example_env (Z.lor ALIVE_TEST_ICMP ALIVE_TEST_ARP) [] [] in
  let close_result :=
    fun kind => match kind with ICMPV4 => -1 | _ => 0 end in
  let w := start_alive_detection e three_hosts in
  let free := alive_detection_free e close_result 0 (-1) w in
  let alive_test := alive_test_of e in
  free = (Some (-1), [ICMPV4; ICMPV6; ARPV4; ARPV6])
  /\ ((alive_test_methods e).1 <> 0 -> free.2 = [])
  /\ ((alive_test_methods e).1 = 0 ->
      free.2 = needed_sockets alive_test
      /\ (set_all_needed_sockets e alive_test = 0 ->
          free.2 = (sockets_set e alive_test).2))
  /\ (deferred_publish w <> ∅ -> free.1 = None)
  /\ (deferred_publish w = ∅ ->
      exists err,
        free.1 = Some err
        /\ (err = 0 \/ err = -1)
        /\ (err = 0
            <-> (alive_test_methods e).1 = 0
                /\ Forall (fun kind => close_result kind = 0)
                     (needed_sockets alive_test)
                /\ 0 = 0)).
Proof.
  cbn zeta. split; [by vm_compute|].
  apply (alive_detection_free_closes
           (example_env (Z.lor ALIVE_TEST_ICMP ALIVE_TEST_ARP) [] [])
           (fun kind => match kind with ICMPV4 => -1 | _ => 0 end) 0 (-1)
           (start_alive_detection
              (example_env (Z.lor ALIVE_TEST_ICMP ALIVE_TEST_ARP) [] [])
              three_hosts)).
  intros Hx. discriminate Hx.
Defined.

(** ** Before the scan cap *)

Lemma no_defer_handle_scan_restrictions e a w :
  (max_scan_hosts_reached (scan_restrictions w) = false ->
   deferred_publish w = ∅) ->
  max_scan_hosts_reached
    (scan_restrictions (handle_scan_restrictions e a w)) = false ->
  deferred_publish (handle_scan_restrictions e a w) = ∅.
Proof.
  destruct (handle_scan_restrictions_fields e a w) as (Hsr & Hhd & _).
  cbn zeta in Hsr, Hhd. unfold deferred_publish. rewrite Hsr, Hhd.
  cbn [max_scan_hosts_reached alivehosts_not_to_be_sent_to_openvas].
  intros Hinv [Hr _]%orb_false_elim. rewrite Hr. by apply Hinv.
Qed.

(** X13: as long as max_scan_hosts is not reached no host is withheld from
    the queue and no finish signal is sent: if the sniffer is joined with
    max_scan_hosts_reached unset, the table of hosts not to be sent is empty
    and the trace holds no finish signal yet. *)
Theorem nothing_withheld_before_scan_cap e hosts :
  let wd := detection_world e hosts in
  max_scan_hosts_reached (scan_restrictions wd) = false ->
  deferred_publish wd = ∅ /\ finish_count (out wd) = 0%nat.
Proof.
  cbn zeta. destruct (aborts e hosts) eqn:Ha.
  { unfold detection_world. by rewrite Ha. }
  intros Hr. split.
  - revert Hr. destruct (not_aborts e hosts Ha) as [Hi Hp].
    destruct (init_world_fields e hosts Hi) as (_ & Hhd & _).
    unfold detection_world. rewrite Ha.
    apply (scan_detect_preserves e
             (fun w => max_scan_hosts_reached (scan_restrictions w) = false ->
                       deferred_publish w = ∅)).
    + done.
    + intros p w Hinv.
      destruct (got_packet_cases e p w)
        as [-> | [(_ & _ & ->) | (_ & _ & _ & ->)]]; [done | done |].
      by apply no_defer_handle_scan_restrictions.
    + done.
    + done.
    + done.
    + intros _ key w. apply no_defer_handle_scan_restrictions.
    + intros _. unfold deferred_publish. by rewrite Hhd.
  - destruct (finish_order_detection e hosts Ha) as [[H0 | Hr'] _];
      [done | congruence].
Qed.

Lemma nothing_withheld_before_scan_cap_witness :
  let e :=
    example_env ALIVE_TEST_ICMP [("max_scan_hosts", "2")]%string
      [[ipv4_reply "10.0.0.1"]] in
  let wd := detection_world e three_hosts in
  deferred_publish wd = ∅ /\ finish_count (out wd) = 0%nat.
Proof.
  apply (nothing_withheld_before_scan_cap
           (example_env ALIVE_TEST_ICMP [("max_scan_hosts", "2")]%string
              [[ipv4_reply "10.0.0.1"]])
           three_hosts).
  reflexivity.
Defined.

(** ** No targets *)


Lemma alive_detection_init_attempts e hosts alive_test w :
  fin_attempts (alive_detection_init e hosts alive_test w).2 = fin_attempts w.
Proof.
  unfold alive_detection_init. cbn zeta.
  destruct (negb (set_all_needed_sockets e alive_test =? 0)); [done|].
  destruct (negb (kb_conn_scanner e)); [done|].
  destruct (init_ports e) as [logs ps].
  assert (forall w0, fin_attempts
                       (fold_left (fun w m => emit (Log m) w) logs w0)
                     = fin_attempts w0) as H.
  { induction logs as [|m logs IH]; intros w2; cbn [fold_left]; [done|].
    by rewrite IH. }
  cbn [snd fin_attempts set_restrictions set_scanner]. by rewrite H.
Qed.



(** ** Pings go to the targets *)

Lemma segments_elem_target flag tcp_ports targets ms ns p :
  p ∈ segments flag tcp_ports targets ms ns ->
  exists m kv,
    m ∈ ms /\ kv ∈ targets /\ p = ping_for flag tcp_ports m kv.2.
Proof.
  revert ns. induction ms as [|m ms IH]; intros [|n ns]; try by inversion 1.
  rewrite segments_cons. intros [Hp | Hp]%elem_of_app.
  - apply list_elem_of_fmap in Hp as (kv & -> & Hkv).
    exists m, kv. split; [by left|]. split; [|done].
    rewrite <- (take_drop n targets). apply elem_of_app. by left.
  - destruct (IH ns Hp) as (m' & kv & Hm & Hkv & ->).
    exists m', kv. split; [by right | done].
Qed.

Lemma segments_length flag tcp_ports targets ms ns :
  (length (segments flag tcp_ports targets ms ns)
   <= length ms * length targets)%nat.
Proof.
  revert ns. induction ms as [|m ms IH]; intros [|n ns]; cbn [length];
    try (unfold segments; cbn; lia).
  rewrite segments_cons, length_app, length_map, length_take.
  specialize (IH ns). lia.
Qed.

(** ** CONSIDER_ALIVE without frames *)

Lemma sniffer_turn_no_frames e w :
  concat (pending w) = [] ->
  exists rest, sniffer_turn e w = set_pending rest w /\ concat rest = [].
Proof.
  unfold sniffer_turn. destruct w as [r h sc fin att pend tr]. cbn [pending].
  destruct pend as [|batch rest]; [by exists []|].
  cbn [concat]. intros [-> Hrest]%app_eq_nil. by exists rest.
Qed.

Lemma consider_alive_loop_count e targets st :
  concat (pending st.2) = [] ->
  alive_cap_inv st.2 ->
  let st' :=
    ping_loop e (fun key _ => handle_scan_restrictions e key) targets st in
  concat (pending st'.2) = []
  /\ alive_cap_inv st'.2
  /\ alive_hosts_count (scan_restrictions st'.2)
     = Z.min (alive_hosts_count (scan_restrictions st.2)
              + Z.of_nat (length targets))
         (max_alive_hosts (scan_restrictions st.2))
  /\ max_alive_hosts (scan_restrictions st'.2)
     = max_alive_hosts (scan_restrictions st.2)
  /\ alive_seen st'.2 = alive_seen st.2.
Proof.
  cbn zeta. revert st.
  induction targets as [|[key value] targets IH]; intros [n w] Hp Hinv;
    cbn [ping_loop length fst snd] in *.
  { split; [done|]. split; [done|]. split; [|done].
    destruct Hinv as [_ Hinv].
    destruct (max_alive_hosts_reached (scan_restrictions w)); lia. }
  destruct (sniffer_turn_no_frames e w Hp) as (rest & -> & Hrest).
  change (scan_restrictions (set_pending rest w)) with (scan_restrictions w).
  destruct (max_alive_hosts_reached (scan_restrictions w)) eqn:Hr.
  { cbn [snd]. split; [done|]. split; [done|]. split; [|done].
    destruct Hinv as [_ Hinv]. rewrite Hr in Hinv.
    change (scan_restrictions (set_pending rest w))
      with (scan_restrictions w). lia. }
  destruct (handle_scan_restrictions_fields e key (set_pending rest w))
    as (Hsr & Hhd & _ & Hpend & _).
  cbn zeta in Hsr, Hhd, Hpend.
  change (scan_restrictions (set_pending rest w))
    with (scan_restrictions w) in Hsr.
  destruct (IH (int_incr n,
                handle_scan_restrictions e key (set_pending rest w)))
    as (H1 & H2 & H3 & H4 & H5); cbn [snd].
  - by rewrite Hpend.
  - apply alive_cap_inv_handle_scan_restrictions; done.
  - cbn [snd] in *. split; [done|]. split; [done|].
    rewrite H3, H4, H5, Hsr.
    cbn [alive_hosts_count max_alive_hosts].
    destruct Hinv as [Hmax Hinv]. rewrite Hr in Hinv.
    rewrite int_incr_small by lia.
    split; [|split; [done|]].
    { pose proof (Z.min_spec
                    (alive_hosts_count (scan_restrictions w) + 1
                     + Z.of_nat (length targets))
                    (max_alive_hosts (scan_restrictions w))).
      pose proof (Z.min_spec
                    (alive_hosts_count (scan_restrictions w)
                     + Z.of_nat (S (length targets)))
                    (max_alive_hosts (scan_restrictions w))).
      lia. }
    unfold alive_seen. by rewrite Hhd.
Qed.

(** Once max_scan_hosts is reached the counter has got that far. *)
Lemma scan_cap_count_detection e hosts :
  1 <= max_alive_hosts (init_scan_restrictions e) ->
  aborts e hosts = false ->
  max_scan_hosts_reached (scan_restrictions (detection_world e hosts)) = true ->
  max_scan_hosts (init_scan_restrictions e)
  <= alive_hosts_count (scan_restrictions (detection_world e hosts)).
Proof.
  intros H1 Ha. destruct (detection_caps e hosts Ha) as [<- _].
  destruct (not_aborts e hosts Ha) as [Hi Hp].
  destruct (init_world_fields e hosts Hi) as (Hsr & _).
  unfold detection_world. rewrite Ha.
  set (I := fun w : world =>
              alive_cap_inv w
              /\ (max_scan_hosts_reached (scan_restrictions w) = true ->
                  max_scan_hosts (scan_restrictions w)
                  <= alive_hosts_count (scan_restrictions w))).
  assert (forall a w,
            max_alive_hosts_reached (scan_restrictions w) = false ->
            I w -> I (handle_scan_restrictions e a w)) as Hh.
  { intros a w Hr [Hcap Hcount]. split.
    { by apply alive_cap_inv_handle_scan_restrictions. }
    destruct (handle_scan_restrictions_fields e a w) as (Hsr' & _).
    cbn zeta in Hsr'. rewrite Hsr'.
    cbn [max_scan_hosts_reached max_scan_hosts alive_hosts_count].
    destruct Hcap as [Hmax Hcap]. rewrite Hr in Hcap.
    rewrite int_incr_small by lia.
    destruct (max_scan_hosts_reached (scan_restrictions w)).
    - intros _. specialize (Hcount eq_refl). lia.
    - cbn [negb andb orb]. intros Heq%Z.eqb_eq. lia. }
  enough (I (scan_detect e (alive_test_of e) (init_world e hosts)).2)
    as [_ H]; [exact H|].
  apply (scan_detect_preserves_guarded e I).
  - done.
  - intros p w Hinv.
    destruct (got_packet_cases e p w)
      as [-> | [(_ & _ & ->) | (Hr & _ & _ & ->)]]; [done | done |].
    by apply Hh.
  - done.
  - done.
  - done.
  - intros _ key value w _. apply Hh.
  - split.
    + unfold alive_cap_inv. rewrite Hsr.
      cbn [max_alive_hosts_reached alive_hosts_count init_scan_restrictions].
      split; [apply init_caps_range | lia].
    + rewrite Hsr. done.
Qed.

(** X16: a CONSIDER_ALIVE run in which no frame is captured hands its
    targets to the restriction controller without entering them in the alive
    table: it counts the targets up to max_alive_hosts, puts the targets up
    to max_scan_hosts on the queue, sends no ping, and reports every target
    as dead. *)
Theorem consider_alive_without_frames e hosts :
  alive_test_of e = ALIVE_TEST_CONSIDER_ALIVE ->
  aborts e hosts = false ->
  concat (arrivals e) = [] ->
  kb_conn_dead_hosts e = true ->
  1 <= max_scan_hosts (init_scan_restrictions e) ->
  Z.of_nat (length hosts) < 2 ^ 31 ->
  let w := start_alive_detection e hosts in
  let n := Z.of_nat (size (init_targethosts hosts)) in
  Z.of_nat (length (queue_hosts (out w)))
  = Z.min n (max_scan_hosts (init_scan_restrictions e))
  /\ alive_hosts_count (scan_restrictions w)
     = Z.min n (max_alive_hosts (init_scan_restrictions e))
  /\ dead_counts (out w) = [n]
  /\ pings_of (out w) = [].
Proof.
  intros Hca Ha Hnone Hkb H1 Hsmall. cbn zeta.
  pose proof (init_caps_normalised e) as Hnorm.
  pose proof (size_init_targethosts hosts) as Hsz.
  destruct (not_aborts e hosts Ha) as [Hi Hp].
  destruct (init_world_fields e hosts Hi)
    as (Hsr & Hhd & _ & _ & Hpend & Ho).
  pose proof (scan_cap_detection e hosts H1 Ha) as [_ Hscan].
  pose proof (scan_cap_count_detection e hosts ltac:(lia) Ha) as Hcount.
  destruct (detection_caps e hosts Ha) as [Hms Hma].
  destruct (pings_of_run e hosts Ha) as (ns & Hlen & Hpings & _ & HT & Hd0 & _).
  cbn [snd app] in Hpings, HT, Hd0.
  assert (concat (pending (detection_world e hosts)) = []
          /\ alive_hosts_count (scan_restrictions (detection_world e hosts))
             = Z.min (Z.of_nat (size (init_targethosts hosts)))
                 (max_alive_hosts (init_scan_restrictions e))
          /\ alive_seen (detection_world e hosts) = ∅) as (_ & Hc & Halive).
  { unfold detection_world. rewrite Ha. unfold scan_detect.
    rewrite scan_methods_numerals, Hca. cbn zeta.
    cbn [Z.eqb Pos.eqb ALIVE_TEST_CONSIDER_ALIVE snd].
    destruct (consider_alive_loop_count e
                (map_to_list (targethosts (hosts_data (init_world e hosts))))
                (0, init_world e hosts))
      as (H2 & H3 & H4 & H5 & H6); cbn [snd].
    { by rewrite Hpend. }
    { unfold alive_cap_inv. rewrite Hsr.
      cbn [max_alive_hosts_reached alive_hosts_count init_scan_restrictions].
      split; [apply init_caps_range | lia]. }
    cbn [snd] in *.
    destruct (ping_loop e _ _ _) as [m w1]. cbn [snd] in *.
    unfold sniffer_drain. rewrite (sniff_nothing e _ _ H2).
    change (scan_restrictions (set_pending [] w1))
      with (scan_restrictions w1).
    change (alive_seen (set_pending [] w1)) with (alive_seen w1).
    split; [done|]. rewrite H4, H6, Hsr, Hhd.
    cbn [targethosts alive_hosts_count]. rewrite length_map_to_list.
    split; [done|]. unfold alive_seen. by rewrite Hhd. }
  rewrite (start_alive_detection_scans e hosts Ha). cbn zeta.
  split; [|split; [|split]].
  - match goal with |- context [scan_errmsg e ?n ?m ?w] =>
      destruct (reports_frame e n m w) as (_ & -> & _) end.
    cbn zeta in Hscan. rewrite Hms in Hscan.
    pose proof (Z.min_spec (Z.of_nat (size (init_targethosts hosts)))
                  (max_scan_hosts (init_scan_restrictions e))) as Hmin1.
    pose proof (Z.min_spec (Z.of_nat (size (init_targethosts hosts)))
                  (max_alive_hosts (init_scan_restrictions e))) as Hmin2.
    destruct (max_scan_hosts_reached
                (scan_restrictions (detection_world e hosts))).
    + specialize (Hcount eq_refl). lia.
    + lia.
  - match goal with |- context [scan_errmsg e ?n ?m ?w] =>
      destruct (reports_frame e n m w) as (_ & _ & ->) end.
    exact Hc.
  - rewrite put_finish_dead_counts.
    match goal with |- context [scan_errmsg e ?n ?m ?w] =>
      destruct (scan_errmsg_frame e n m w) as (Hhd' & _ & _ & Hd & _);
      pose proof (send_dead_hosts_out e (scan_errmsg e n m w) Hkb) as Hout
    end.
    cbn zeta in Hhd', Hd. rewrite Hhd', HT in Hout.
    rewrite Hout by lia. rewrite dead_counts_app, Hd, Hd0.
    unfold targets_of, alive_seen, deferred_publish in *.
    rewrite Hhd', Halive, HT. cbn [app].
    rewrite none_alive_excluded.
    rewrite size_empty, size_dom, Z.sub_0_r. reflexivity.
  - match goal with |- context [scan_errmsg e ?n ?m ?w] =>
      destruct (reports_frame e n m w) as (-> & _) end.
    rewrite Hpings, Hca.
    change (sender_order ALIVE_TEST_CONSIDER_ALIVE) with (@nil method) in *.
    by destruct ns.
Qed.

Lemma consider_alive_without_frames_witness :
  let e :=
    example_env ALIVE_TEST_CONSIDER_ALIVE
      [("max_scan_hosts", "2"); ("max_alive_hosts", "5")]%string [] in
  let w := start_alive_detection e three_hosts in
  let n := Z.of_nat (size (init_targethosts three_hosts)) in
  (Z.of_nat (length (queue_hosts (out w))) = 2
   /\ alive_hosts_count (scan_restrictions w) = 3
   /\ dead_counts (out w) = [3])
  /\ Z.of_nat (length (queue_hosts (out w)))
     = Z.min n (max_scan_hosts (init_scan_restrictions e))
  /\ alive_hosts_count (scan_restrictions w)
     = Z.min n (max_alive_hosts (init_scan_restrictions e))
  /\ dead_counts (out w) = [n]
  /\ pings_of (out w) = [].
Proof.
  cbn zeta. split; [vm_compute; done|].
  apply (consider_alive_without_frames
           (example_env ALIVE_TEST_CONSIDER_ALIVE
              [("max_scan_hosts", "2"); ("max_alive_hosts", "5")]%string [])
           three_hosts).
  - reflexivity.
  - reflexivity.
  - reflexivity.
  - reflexivity.
  - vm_compute. intros Hx. discriminate Hx.
  - vm_compute. reflexivity.
Defined.

(** ** The pushes of the finish signal *)

Lemma handle_scan_restrictions_attempts e a w :
  let r := scan_restrictions w in
  let cap_now :=
    negb (max_scan_hosts_reached r)
    && (int_incr (alive_hosts_count r) =? max_scan_hosts r) in
  fin_attempts (handle_scan_restrictions e a w)
  = if cap_now && negb (fin_msg_already_on_queue w)
    then S (fin_attempts w) else fin_attempts w.
Proof.
  destruct w as [[ms ma c sr ar] [A T D] sc fin att pend tr].
  unfold handle_scan_restrictions.
  cbn -[int_incr union singleton put_finish_signal_on_queue].
  destruct sr, ar, fin;
    cbn -[int_incr union singleton put_finish_signal_on_queue];
    try (destruct (int_incr c =? ms);
         cbn -[int_incr union singleton put_finish_signal_on_queue]);
    unfold put_finish_signal_on_queue;
    cbn -[int_incr union singleton];
    try (destruct (finish_push_ok e att); cbn -[int_incr union singleton]);
    destruct (int_incr c =? ma);
    cbn -[int_incr union singleton]; done.
Qed.

Lemma attempts_inv_handle_scan_restrictions e a w :
  attempts_inv e w -> attempts_inv e (handle_scan_restrictions e a w).
Proof.
  unfold attempts_inv. intros Hinv.
  pose proof (handle_scan_restrictions_attempts e a w) as Hatt.
  destruct (handle_scan_restrictions_fields e a w)
    as (Hsr & _ & _ & _ & Hfin & _).
  cbn zeta in Hatt, Hsr, Hfin. rewrite Hsr, Hatt, Hfin.
  cbn [max_scan_hosts_reached].
  destruct (max_scan_hosts_reached (scan_restrictions w)).
  - cbn [negb andb orb]. by rewrite orb_false_r.
  - destruct Hinv as [-> ->]. cbn [negb andb orb].
    by destruct (_ =? _).
Qed.

Lemma attempts_inv_got_packet e p w :
  attempts_inv e w -> attempts_inv e (got_packet e p w).
Proof.
  intros Hinv.
  destruct (got_packet_cases e p w)
    as [-> | [(_ & _ & ->) | (_ & _ & _ & ->)]]; [done | done |].
  by apply attempts_inv_handle_scan_restrictions.
Qed.

Lemma attempts_detection e hosts :
  aborts e hosts = false -> attempts_inv e (detection_world e hosts).
Proof.
  intros Ha. destruct (not_aborts e hosts Ha) as [Hi Hp].
  destruct (init_world_fields e hosts Hi) as (Hsr & _ & _ & Hf & _).
  unfold detection_world. rewrite Ha.
  apply (scan_detect_preserves e (attempts_inv e)).
  - done.
  - intros p w. apply attempts_inv_got_packet.
  - done.
  - done.
  - done.
  - intros _ key w. apply attempts_inv_handle_scan_restrictions.
  - unfold attempts_inv. rewrite Hsr, Hf.
    cbn [max_scan_hosts_reached init_scan_restrictions]. split; [|done].
    unfold init_world. by rewrite alive_detection_init_attempts.
Qed.

Lemma put_finish_flag e w :
  fin_msg_already_on_queue (put_finish_signal_on_queue e w).2
  = fin_msg_already_on_queue w || finish_push_ok e (fin_attempts w).
Proof.
  unfold put_finish_signal_on_queue.
  destruct (fin_msg_already_on_queue w) eqn:Hf; cbn [snd orb]; [done|].
  by destruct (finish_push_ok e (fin_attempts w)).
Qed.

Lemma finish_or_warn_flag e w :
  fin_msg_already_on_queue (finish_or_warn e w)
  = fin_msg_already_on_queue w || finish_push_ok e (fin_attempts w).
Proof.
  unfold finish_or_warn. rewrite <- put_finish_flag.
  destruct (put_finish_signal_on_queue e w) as [err w']. cbn [snd].
  by case_match.
Qed.

(** The reports do not touch the flag and the count of pushes. *)
Lemma reports_attempts e n m w :
  let w' := (send_dead_hosts_to_ospd_openvas e (scan_errmsg e n m w)).2 in
  fin_msg_already_on_queue w' = fin_msg_already_on_queue w
  /\ fin_attempts w' = fin_attempts w
  /\ scan_restrictions w' = scan_restrictions w.
Proof.
  cbn zeta. unfold send_dead_hosts_to_ospd_openvas, scan_errmsg.
  repeat case_match; done.
Qed.

(** Which of the pushes puts the signal on the queue. *)
Lemma finish_flag_of_run e hosts :
  let w := start_alive_detection e hosts in
  fin_msg_already_on_queue w
  = finish_push_ok e 0%nat
    || (max_scan_hosts_reached (scan_restrictions w)
        && finish_push_ok e 1%nat).
Proof.
  cbn zeta. destruct (aborts e hosts) eqn:Ha.
  - destruct (aborted_restrictions e hosts Ha) as (_ & -> & _).
    cbn [andb]. rewrite orb_false_r.
    rewrite start_alive_detection_unfold.
    destruct (negb ((alive_test_methods e).1 =? 0)).
    { by rewrite finish_or_warn_flag. }
    destruct (initialised e hosts) eqn:Hi; cbn [negb].
    2:{ by rewrite finish_or_warn_flag. }
    unfold aborts in Ha. rewrite Hi in Ha. cbn in Ha.
    unfold scan. rewrite Ha. cbn [Z.ltb Z.compare].
    destruct (init_world_fields e hosts Hi) as (_ & _ & _ & Hf & _).
    rewrite put_finish_flag. unfold emit.
    cbn [fin_msg_already_on_queue fin_attempts]. rewrite Hf.
    unfold init_world. by rewrite alive_detection_init_attempts.
  - pose proof (attempts_detection e hosts Ha) as Hinv.
    rewrite (start_alive_detection_scans e hosts Ha). cbn zeta.
    destruct (reports_frame e
                (int_wrap (Z.of_nat (size (init_targethosts hosts))))
                (scan_detect e (alive_test_of e) (init_world e hosts)).1
                (detection_world e hosts)) as (_ & _ & ->).
    destruct (reports_attempts e
                (int_wrap (Z.of_nat (size (init_targethosts hosts))))
                (scan_detect e (alive_test_of e) (init_world e hosts)).1
                (detection_world e hosts)) as (Hf & Hatt & _).
    cbn zeta in Hf, Hatt. rewrite put_finish_flag, Hf, Hatt.
    unfold attempts_inv in Hinv.
    destruct (max_scan_hosts_reached
                (scan_restrictions (detection_world e hosts)));
      destruct Hinv as [-> ->]; cbn [andb orb]; by rewrite ?orb_false_r.
Qed.

(** No step of a scan writes the warning of the exit paths. *)
Lemma no_finish_warning e hosts :
  initialised e hosts = true ->
  Log WarnNoFinishSignal ∉ out (start_alive_detection e hosts).
Proof.
  intros Hi.
  destruct (init_world_fields e hosts Hi) as (_ & _ & _ & _ & _ & Ho).
  assert (forall ev w, ev <> Log WarnNoFinishSignal ->
            Log WarnNoFinishSignal ∉ out w ->
            Log WarnNoFinishSignal ∉ out (emit ev w)) as Hemit.
  { intros ev w Hne Hw. unfold emit. cbn [out].
    intros [Hx | Hx%list_elem_of_singleton]%elem_of_app; [done | congruence]. }
  assert (forall w, Log WarnNoFinishSignal ∉ out w ->
            Log WarnNoFinishSignal ∉ out (put_finish_signal_on_queue e w).2)
    as Hfin.
  { intros w Hw. unfold put_finish_signal_on_queue.
    repeat case_match; cbn [snd out]; try done.
    intros [Hx | Hx%list_elem_of_singleton]%elem_of_app; [done | congruence]. }
  assert (Log WarnNoFinishSignal ∉ out (init_world e hosts)) as H0.
  { rewrite Ho. intros (m & Hm & Hin)%list_elem_of_fmap.
    injection Hm as <-. revert Hin. unfold init_ports.
    repeat case_match; simplify_eq; cbn [fst app];
      rewrite ?elem_of_cons, ?elem_of_nil; naive_solver. }
  destruct (aborts e hosts) eqn:Ha.
  { rewrite start_alive_detection_unfold.
    assert (((alive_test_methods e).1 =? 0) = true) as ->.
    { unfold initialised in Hi. by apply andb_true_iff in Hi as [? _]. }
    rewrite Hi. cbn [negb].
    unfold aborts in Ha. rewrite Hi in Ha. cbn in Ha.
    unfold scan. rewrite Ha. cbn [Z.ltb Z.compare]. apply Hfin.
    apply Hemit; [done|]. by apply Hemit. }
  assert (Log WarnNoFinishSignal ∉ out (detection_world e hosts)) as Hd.
  { unfold detection_world. rewrite Ha.
    apply (scan_detect_preserves e
             (fun w => Log WarnNoFinishSignal ∉ out w)); try done.
    - intros p w Hw.
      destruct (got_packet_cases e p w)
        as [-> | [(_ & _ & ->) | (_ & _ & _ & ->)]]; [done | done |].
      destruct (handle_scan_restrictions_fields e (sniffed_addr_str p)
                  (alivehosts_add (sniffed_addr_str p) w).2)
        as (_ & _ & _ & _ & _ & Hout).
      cbn zeta in Hout. rewrite Hout. cbn [alivehosts_add snd].
      rewrite !elem_of_app. intros [Hx | [Hx | Hx]]; [done | |];
        repeat case_match;
        rewrite ?elem_of_cons, ?elem_of_nil in Hx; naive_solver.
    - intros p w. by apply Hemit.
    - intros w. by apply Hemit.
    - intros _ key w Hw.
      destruct (handle_scan_restrictions_fields e key w)
        as (_ & _ & _ & _ & _ & Hout).
      cbn zeta in Hout. rewrite Hout.
      rewrite !elem_of_app. intros [Hx | [Hx | Hx]]; [done | |];
        repeat case_match;
        rewrite ?elem_of_cons, ?elem_of_nil in Hx; naive_solver. }
  rewrite (start_alive_detection_scans e hosts Ha). cbn zeta.
  apply Hfin. unfold send_dead_hosts_to_ospd_openvas.
  assert (forall n m,
            Log WarnNoFinishSignal
            ∉ out (scan_errmsg e n m (detection_world e hosts))) as He.
  { intros n m. unfold scan_errmsg.
    repeat case_match; try done; by apply Hemit. }
  case_match; cbn [snd]; [apply He|]. apply Hemit; [done|]. apply He.
Qed.

(** C1: in a run in which one thread only calls the restriction controller,
    or which ends before the sniffer is started, the finish signal is put on
    the queue at most once, and exactly once when the queue takes the first
    push of the run, or takes the second after it has refused the first, the
    one made when max_scan_hosts was reached; otherwise it is not on the
    queue.  A run that ends before the sniffer is started (no method set, a
    failed initialisation, no capture handle) puts nothing else on the queue.
    A run that fails to initialise writes one warning and then the finish
    signal or, when the push is refused, the warning that openvas has to be
    stopped by hand; a run that is initialised does not look at the outcome
    of its last push and never writes that warning. *)
Theorem finish_signal_once e hosts :
  aborts e hosts = true \/ one_controller_thread e ->
  let w := start_alive_detection e hosts in
  let capped := max_scan_hosts_reached (scan_restrictions w) in
  let first := finish_push_ok e 0%nat in
  let second := finish_push_ok e 1%nat in
  finish_count (out w) = (if first || (capped && second) then 1 else 0)%nat
  /\ (aborts e hosts = true ->
      kb_items (out w) = (if first then [QueueFinish] else []))
  /\ (initialised e hosts = false ->
      exists m,
        out w
        = [Log m;
           if first then KbPush QueueFinish else Log WarnNoFinishSignal])
  /\ (initialised e hosts = true -> Log WarnNoFinishSignal ∉ out w).
Proof.
  intros _. cbn zeta.
  split; [|split; [|split]].
  - rewrite (fin_inv_start e hosts). by rewrite finish_flag_of_run.
  - intros Ha. rewrite start_alive_detection_unfold.
    destruct (negb ((alive_test_methods e).1 =? 0)).
    { unfold finish_or_warn, put_finish_signal_on_queue. cbn.
      by destruct (finish_push_ok e 0). }
    destruct (initialised e hosts) eqn:Hi; cbn [negb].
    2:{ unfold finish_or_warn, put_finish_signal_on_queue. cbn.
        by destruct (finish_push_ok e 0). }
    unfold aborts in Ha. rewrite Hi in Ha. cbn in Ha.
    unfold scan. rewrite Ha. cbn [Z.ltb Z.compare].
    destruct (init_world_fields e hosts Hi) as (_ & _ & _ & Hf & _ & Ho).
    unfold put_finish_signal_on_queue, emit.
    cbn [fin_msg_already_on_queue fin_attempts out scan_restrictions
         hosts_data scanner pending].
    rewrite Hf, Ho. unfold init_world.
    rewrite alive_detection_init_attempts. cbn [world_at_start fin_attempts].
    destruct (finish_push_ok e 0); cbn [snd out];
      rewrite !kb_items_app, kb_items_logs; done.
  - intros Hi. rewrite start_alive_detection_unfold.
    destruct (negb ((alive_test_methods e).1 =? 0)).
    { eexists. unfold finish_or_warn, put_finish_signal_on_queue. cbn.
      by destruct (finish_push_ok e 0). }
    rewrite Hi. cbn [negb].
    eexists. unfold finish_or_warn, put_finish_signal_on_queue. cbn.
    by destruct (finish_push_ok e 0).
  - apply no_finish_warning.
Qed.

Lemma finish_signal_once_witness :
  let e :=
    second_push_env ALIVE_TEST_ICMP [("max_scan_hosts", "1")]%string
      [[ipv4_reply "10.0.0.1"]; [ipv4_reply "10.0.0.3"]] in
  let w := start_alive_detection e three_hosts in
  let capped := max_scan_hosts_reached (scan_restrictions w) in
  let first := finish_push_ok e 0%nat in
  let second := finish_push_ok e 1%nat in
  (first = false /\ capped = true /\ second = true
   /\ finish_count (out w) = 1%nat)
  /\ finish_count (out w) = (if first || (capped && second) then 1 else 0)%nat
  /\ (aborts e three_hosts = true ->
      kb_items (out w) = (if first then [QueueFinish] else []))
  /\ (initialised e three_hosts = false ->
      exists m,
        out w
        = [Log m;
           if first then KbPush QueueFinish else Log WarnNoFinishSignal])
  /\ (initialised e three_hosts = true -> Log WarnNoFinishSignal ∉ out w).
Proof.
  cbn zeta. split; [by vm_compute|].
  apply (finish_signal_once
           (second_push_env ALIVE_TEST_ICMP [("max_scan_hosts", "1")]%string
              [[ipv4_reply "10.0.0.1"]; [ipv4_reply "10.0.0.3"]])
           three_hosts).
  right. left. vm_compute. intros Hx. discriminate Hx.
Defined.

(** A run that cannot get its method set while the queue refuses the finish
    signal: the only thing left to [start_alive_detection] is the warning
    that openvas has to be stopped by hand, and the signal is not on the
    queue. *)
Lemma finish_signal_lost :
  let w := start_alive_detection (queue_down_env (-1)) [] in
  finish_count (out w) = 0%nat
  /\ out w = [Log (WarnAliveTestMethods (-1)); Log WarnNoFinishSignal].
Proof. by vm_compute. Qed.

(** ** Hosts without an address *)

Lemma ping_for_to flag tcp_ports m value :
  ping_for flag tcp_ports m value
  = ping_to flag tcp_ports m
      (if host_get_addr6_ret value <? 0 then host_dst6_uninit value m
       else host_addr6 value).
Proof.
  unfold ping_for, ping_to, gvm_host_get_addr6.
  by destruct (host_get_addr6_ret value <? 0).
Qed.

Lemma send_by_out m key value w :
  out (send_by m key value w)
  = out w
    ++ (if host_get_addr6_ret value <? 0 then [Log WarnNoAddr6] else [])
    ++ [Ping (ping_to (tcp_flag (scanner w)) (ports (scanner w)) m
                (if host_get_addr6_ret value <? 0
                 then host_dst6_uninit value m else host_addr6 value))].
Proof.
  rewrite send_by_ping, ping_for_to.
  destruct (warn_no_addr6_fields value w) as (_ & _ & Hsc & _ & _ & _ & _ & _ & Ho).
  cbn zeta in Hsc, Ho. unfold emit. cbn [out].
  by rewrite Ho, <- app_assoc.
Qed.

Lemma no_addr6_warning_handle_scan_restrictions e a w :
  Log WarnNoAddr6 ∉ out w ->
  Log WarnNoAddr6 ∉ out (handle_scan_restrictions e a w).
Proof.
  intros Hw.
  destruct (handle_scan_restrictions_fields e a w)
    as (_ & _ & _ & _ & _ & Hout).
  cbn zeta in Hout. rewrite Hout.
  rewrite !elem_of_app. intros [Hx | [Hx | Hx]]; [done | |];
    repeat case_match;
    rewrite ?elem_of_cons, ?elem_of_nil in Hx; naive_solver.
Qed.

Lemma no_addr6_warning_got_packet e p w :
  Log WarnNoAddr6 ∉ out w -> Log WarnNoAddr6 ∉ out (got_packet e p w).
Proof.
  intros Hw.
  destruct (got_packet_cases e p w)
    as [-> | [(_ & _ & ->) | (_ & _ & _ & ->)]]; [done | done |].
  by apply no_addr6_warning_handle_scan_restrictions.
Qed.

(** The senders write no warning when every target has its address. *)
Lemma no_addr6_warning_scan_methods e alive_test st :
  (forall key value,
      targethosts (hosts_data st.2) !! key = Some value ->
      0 <= host_get_addr6_ret value) ->
  Log WarnNoAddr6 ∉ out st.2 ->
  Log WarnNoAddr6 ∉ out (scan_methods e alive_test st).2.
Proof.
  intros HT Hw. rewrite scan_methods_numerals. cbn zeta.
  set (targets := map_to_list (targethosts (hosts_data st.2))).
  assert (forall m st',
            Log WarnNoAddr6 ∉ out st'.2 ->
            Log WarnNoAddr6 ∉ out (ping_loop e (send_by m) targets st').2)
    as Hloop.
  { intros m st' Hst'.
    apply (ping_loop_preserves_guarded e
             (fun w => Log WarnNoAddr6 ∉ out w)); [done| | |done].
    - intros p w. apply no_addr6_warning_got_packet.
    - intros key value w Hin%elem_of_map_to_list _ Hi.
      rewrite send_by_out.
      assert ((host_get_addr6_ret value <? 0) = false) as ->.
      { apply Z.ltb_ge. by apply (HT key). }
      rewrite !elem_of_app. intros [Hx | [Hx | Hx]]; [done | |];
        rewrite ?elem_of_cons, ?elem_of_nil in Hx; naive_solver. }
  assert (forall flag st',
            Log WarnNoAddr6 ∉ out st'.2 ->
            Log WarnNoAddr6 ∉ out (set_tcp_flag flag st').2) as Hflag.
  { by intros flag st' Hst'. }
  alive_test_cases alive_test ltac:(by repeat first [apply Hloop | apply Hflag]).
  destruct (Z.eqb_spec alive_test 8) as [->|?]; [|done].
  apply (ping_loop_preserves_guarded e
           (fun w => Log WarnNoAddr6 ∉ out w)); [done| | |done].
  - intros p w. apply no_addr6_warning_got_packet.
  - intros key value w _ _. apply no_addr6_warning_handle_scan_restrictions.
Qed.

Lemma no_addr6_warning e hosts :
  (forall h, h ∈ hosts -> 0 <= host_get_addr6_ret h) ->
  Log WarnNoAddr6 ∉ out (start_alive_detection e hosts).
Proof.
  intros Hh.
  assert (forall ev w, ev <> Log WarnNoAddr6 ->
            Log WarnNoAddr6 ∉ out w ->
            Log WarnNoAddr6 ∉ out (emit ev w)) as Hemit.
  { intros ev w Hne Hw. unfold emit. cbn [out].
    intros [Hx | Hx%list_elem_of_singleton]%elem_of_app; [done | congruence]. }
  assert (forall w, Log WarnNoAddr6 ∉ out w ->
            Log WarnNoAddr6 ∉ out (put_finish_signal_on_queue e w).2)
    as Hfin.
  { intros w Hw. unfold put_finish_signal_on_queue.
    repeat case_match; cbn [snd out]; try done.
    intros [Hx | Hx%list_elem_of_singleton]%elem_of_app; [done | congruence]. }
  assert (forall w, Log WarnNoAddr6 ∉ out w ->
            Log WarnNoAddr6 ∉ out (finish_or_warn e w)) as Hfw.
  { intros w Hw. unfold finish_or_warn.
    specialize (Hfin w Hw).
    destruct (put_finish_signal_on_queue e w) as [err w']. cbn [snd] in Hfin.
    case_match; [done|]. by apply Hemit. }
  assert (Log WarnNoAddr6 ∉ out (world_at_start e)) as Hs.
  { cbn. apply not_elem_of_nil. }
  rewrite start_alive_detection_unfold.
  destruct (negb ((alive_test_methods e).1 =? 0)) eqn:Hm.
  { apply Hfw. by apply Hemit. }
  destruct (initialised e hosts) eqn:Hi; cbn [negb].
  2:{ apply Hfw. by apply Hemit. }
  destruct (init_world_fields e hosts Hi) as (_ & Hhd & _ & _ & _ & Ho).
  assert (Log WarnNoAddr6 ∉ out (init_world e hosts)) as H0.
  { rewrite Ho. intros (m & Hx & Hin)%list_elem_of_fmap.
    injection Hx as <-. revert Hin. unfold init_ports.
    repeat case_match; simplify_eq; cbn [fst app];
      rewrite ?elem_of_cons, ?elem_of_nil; naive_solver. }
  unfold scan.
  destruct (negb (pcap_open_ok e)).
  { cbn [Z.ltb Z.compare]. apply Hfin. apply Hemit; [done|].
    by apply Hemit. }
  assert (Log WarnNoAddr6
          ∉ out (scan_detect e (alive_test_of e) (init_world e hosts)).2)
    as Hd.
  { unfold scan_detect.
    pose proof (no_addr6_warning_scan_methods e (alive_test_of e)
                  (0, init_world e hosts)) as Hsm.
    destruct (scan_methods e (alive_test_of e) (0, init_world e hosts))
      as [n w1]. cbn [snd] in *.
    apply (sniffer_drain_preserves e (fun w => Log WarnNoAddr6 ∉ out w));
      [done | intros p w; apply no_addr6_warning_got_packet |].
    apply Hsm; [|done].
    intros key value. rewrite Hhd. cbn [targethosts].
    rewrite init_targethosts_lookup.
    intros [_ Hin]%last_Some_elem_of%list_elem_of_filter. by apply Hh. }
  destruct (scan_detect e (alive_test_of e) (init_world e hosts)) as [n w1].
  cbn [snd] in Hd.
  assert (forall k, Log WarnNoAddr6 ∉ out (scan_errmsg e k n w1)) as He.
  { intros k. unfold scan_errmsg.
    repeat case_match; try done; by apply Hemit. }
  unfold send_dead_hosts_to_ospd_openvas.
  destruct (negb (kb_conn_dead_hosts e)); cbn [Z.ltb Z.compare].
  - apply Hfin. apply He.
  - apply Hfin. apply Hemit; [done|]. apply He.
Qed.

(** X15: a run pings nothing but the hosts it was given: every ping on the
    trace is the ping of one method of the combination in use for one host
    of the list, and there are at most as many pings as methods times
    targets.  The ping goes to the address of the host when
    [gvm_host_get_addr6] gave one; when it did not, the sender writes a
    warning and pings all the same, to whatever its address buffer holds.
    A run whose hosts all have their address writes no such warning. *)
Theorem pings_only_to_targets e hosts :
  let alive_test := alive_test_of e in
  let w := start_alive_detection e hosts in
  let pings := pings_of (out w) in
  (forall p,
      p ∈ pings ->
      exists m h,
        m ∈ sender_order alive_test /\ h ∈ hosts
        /\ p = ping_for (tcp_flag_of alive_test) (init_ports e).2 m h
        /\ (0 <= host_get_addr6_ret h ->
            p = ping_to (tcp_flag_of alive_test) (init_ports e).2 m
                  (host_addr6 h))
        /\ (host_get_addr6_ret h < 0 ->
            p = ping_to (tcp_flag_of alive_test) (init_ports e).2 m
                  (host_dst6_uninit h m)))
  /\ (length pings
      <= length (sender_order alive_test) * size (init_targethosts hosts))%nat
  /\ (forall m key value w0,
        out (send_by m key value w0)
        = out w0
          ++ (if host_get_addr6_ret value <? 0 then [Log WarnNoAddr6]
              else [])
          ++ [Ping (ping_to (tcp_flag (scanner w0)) (ports (scanner w0)) m
                      (if host_get_addr6_ret value <? 0
                       then host_dst6_uninit value m
                       else host_addr6 value))])
  /\ ((forall h, h ∈ hosts -> 0 <= host_get_addr6_ret h) ->
      Log WarnNoAddr6 ∉ out w).
Proof.
  cbn zeta.
  split; [|split; [|split; [apply send_by_out | apply no_addr6_warning]]].
  - destruct (aborts e hosts) eqn:Ha.
    { destruct (start_alive_detection_aborts e hosts Ha) as (-> & _).
      by intros p ?%elem_of_nil. }
    destruct (pings_of_run e hosts Ha) as (ns & _ & Hp & _).
    cbn [snd app] in Hp.
    rewrite (start_alive_detection_scans e hosts Ha). cbn zeta.
    destruct (reports_frame e
                (int_wrap (Z.of_nat (size (init_targethosts hosts))))
                (scan_detect e (alive_test_of e) (init_world e hosts)).1
                (detection_world e hosts)) as (-> & _).
    rewrite Hp.
    intros p (m & [k h] & Hm & Hkv & ->)%segments_elem_target.
    exists m, h. split; [done|]. split.
    { apply elem_of_map_to_list in Hkv.
      rewrite init_targethosts_lookup in Hkv.
      by apply last_Some_elem_of, list_elem_of_filter in Hkv as [_ Hin]. }
    split; [done|]. cbn [snd]. rewrite ping_for_to.
    split; intros Hret.
    + by assert ((host_get_addr6_ret h <? 0) = false) as ->
        by by apply Z.ltb_ge.
    + by assert ((host_get_addr6_ret h <? 0) = true) as ->
        by by apply Z.ltb_lt.
  - destruct (aborts e hosts) eqn:Ha.
    { destruct (start_alive_detection_aborts e hosts Ha) as (-> & _).
      cbn; lia. }
    destruct (pings_of_run e hosts Ha) as (ns & _ & Hp & _).
    cbn [snd app] in Hp.
    rewrite (start_alive_detection_scans e hosts Ha). cbn zeta.
    destruct (reports_frame e
                (int_wrap (Z.of_nat (size (init_targethosts hosts))))
                (scan_detect e (alive_test_of e) (init_world e hosts)).1
                (detection_world e hosts)) as (-> & _).
    rewrite Hp. rewrite <- (length_map_to_list (init_targethosts hosts)).
    apply segments_length.
Qed.

(** A host without an address, pinged by ICMP: the warning, and the ping to
    what the buffer of [send_icmp] held. *)
Lemma ping_without_address :
  let e := example_env ALIVE_TEST_ICMP [] [] in
  let garbage := Z.lor (Z.shiftl 65535 32) 3232235777 in
  out (start_alive_detection e [unresolved_host "nowhere" garbage])
  = [Log WarnNoAddr6; Ping (send_icmp_v4 3232235777);
     KbPush (ResultDeadHost 1); KbPush QueueFinish].
Proof. by vm_compute. Qed.
